(** * strapi2hugo: entry synchronisation (hugo/site.go) and S3 deployment
      (aws/deployment.go)

    A shallow embedding of the two Go packages.  Go maps are [gmap]s, Go
    strings are [string]s, a Go [error] is a value of the type [error]
    below, and a function returning [(T, error)] returns a pair whose
    second component is an [option error] ([None] is Go's [nil]).  A
    run-time panic is an outcome of its own, distinct from every returned
    value.  The operating system (file system, template engine, registry
    backend, S3) is explicit state that every operation threads through. *)

From Stdlib Require Import ZArith Ascii Numbers.DecimalString Numbers.DecimalZ
  Numbers.DecimalPos.
From stdpp Require Import gmap strings list fin_maps.

(* ===================================================================== *)
(** ** Go values, errors and outcomes                                     *)
(* ===================================================================== *)

(** The dynamic values held by a [map[string]interface{}] of a payload.
    [VInt] is Go's [int], [VFloat] stands for a [float64] (kept as its
    printed form), [VNil] is the untyped [nil] a missing key yields. *)
Inductive value : Type :=
  | VNil
  | VString (s : string)
  | VInt (i : Z)
  | VBool (b : bool)
  | VFloat (printed : string).

(** Error codes of the [midas] package used by the two source files. *)
Inductive errcode : Type := ErrSiteConfig | ErrInvalid | ErrInternal.

(** Errno values the file-system model reports. *)
Inductive errno : Type := ENOENT | EACCES | EEXIST | EISDIR | ENOTDIR | ENOTEMPTY.

Inductive error : Type :=
  | MidasError (code : errcode) (msg : string)   (* midas.Errorf(code, ...) *)
  | PathError (op : string) (path : string) (e : errno)  (* *fs.PathError *)
  | TemplateError (msg : string)                 (* html/template *)
  | RegistryError (msg : string)                 (* the registry backend *)
  | UploadError (msg : string)                   (* the S3 uploader *)
  | ConfigLoadError (msg : string)               (* aws config loading *)
  | RelError (msg : string).                     (* filepath.Rel *)

(** What a call does: it returns, or the goroutine running it panics. *)
Inductive outcome (A : Type) : Type :=
  | Returned (a : A)
  | Panicked (msg : string).
Arguments Returned {A} a.
Arguments Panicked {A} msg.

Definition nil_deref : string :=
  "runtime error: invalid memory address or nil pointer dereference".
Definition bad_assert : string := "interface conversion failed".

#[global] Instance errcode_eq_dec : EqDecision errcode.
Proof. solve_decision. Defined.
#[global] Instance errno_eq_dec : EqDecision errno.
Proof. solve_decision. Defined.

(* ===================================================================== *)
(** ** The parts of Go's standard library the code calls                  *)
(* ===================================================================== *)

Module strings_pkg.

Definition slash : ascii := "/"%char.
Definition backslash : ascii := "\"%char.
Definition dot : ascii := "."%char.

Definition is_char (a b : ascii) : bool := Ascii.eqb a b.

(** [strings.ReplaceAll(s, old, new)] for one-byte [old] and [new]. *)
Fixpoint ReplaceAll1 (s : string) (old new : ascii) : string :=
  match s with
  | EmptyString => EmptyString
  | String c r =>
      String (if is_char c old then new else c) (ReplaceAll1 r old new)
  end.

Fixpoint contains (a : ascii) (s : string) : bool :=
  match s with
  | EmptyString => false
  | String c r => is_char c a || contains a r
  end.

(** [fmt.Sprintf("%d", i)]. *)
Definition fmt_d (i : Z) : string := NilZero.string_of_int (Z.to_int i).

(** [fmt.Sprintf("%v", v)] on the values a payload holds. *)
Definition fmt_v (v : value) : string :=
  match v with
  | VNil => "<nil>"
  | VString s => s
  | VInt i => fmt_d i
  | VBool true => "true"
  | VBool false => "false"
  | VFloat p => p
  end.

(** Split at every slash; the result is never empty. *)
Fixpoint splitSlash (s : string) : list string :=
  match s with
  | EmptyString => [EmptyString]
  | String c r =>
      if is_char c slash then EmptyString :: splitSlash r
      else match splitSlash r with
           | h :: t => String c h :: t
           | [] => [String c EmptyString]
           end
  end.

Fixpoint joinSlash (l : list string) : string :=
  match l with
  | [] => EmptyString
  | [x] => x
  | x :: r => x +:+ "/" +:+ joinSlash r
  end.

(** The text after the last slash (the whole text when there is none). *)
Fixpoint afterLastSlash (s : string) : string :=
  match s with
  | EmptyString => EmptyString
  | String c r =>
      if contains slash s
      then (if contains slash r then afterLastSlash r
            else r)
      else s
  end.

(** The text up to and including the last slash ([""] when none). *)
Fixpoint uptoLastSlash (s : string) : string :=
  match s with
  | EmptyString => EmptyString
  | String c r =>
      if contains slash s then String c (uptoLastSlash r) else EmptyString
  end.

Fixpoint stripTrailingSlashes (s : string) : string :=
  match s with
  | EmptyString => EmptyString
  | String c r =>
      match stripTrailingSlashes r with
      | EmptyString => if is_char c slash then EmptyString else String c EmptyString
      | r' => String c r'
      end
  end.

(** The suffix starting at the last dot, if there is a dot. *)
Fixpoint fromLastDot (s : string) : option string :=
  match s with
  | EmptyString => None
  | String c r =>
      match fromLastDot r with
      | Some e => Some e
      | None => if is_char c dot then Some s else None
      end
  end.

End strings_pkg.

(** Package [path] (and [path/filepath] on a slash-separated system). *)
Module path.
Import strings_pkg.

Definition IsAbs (p : string) : bool :=
  match p with
  | String c _ => is_char c slash
  | EmptyString => false
  end.

(** One step of [Clean]'s scan; [stack] holds the kept elements, last
    one first. *)
Definition cleanStep (rooted : bool) (stack : list string) (e : string)
  : list string :=
  if bool_decide (e = "") || bool_decide (e = ".") then stack
  else if bool_decide (e = "..") then
    match stack with
    | top :: rest => if bool_decide (top = "..") then e :: stack else rest
    | [] => if rooted then [] else [e]
    end
  else e :: stack.

Definition cleanElems (rooted : bool) (elems : list string) : list string :=
  rev (fold_left (cleanStep rooted) elems []).

Definition Clean (p : string) : string :=
  if bool_decide (p = "") then "."
  else
    let rooted := IsAbs p in
    let body := joinSlash (cleanElems rooted (splitSlash p)) in
    if rooted then "/" +:+ body
    else if bool_decide (body = "") then "." else body.

(** [Join]: empty elements are ignored, the rest is joined by slashes
    and cleaned; all empty gives the empty string. *)
Definition Join (elem : list string) : string :=
  match filter (λ e, e ≠ "") elem with
  | [] => ""
  | l => Clean (joinSlash l)
  end.

Definition Base (p : string) : string :=
  if bool_decide (p = "") then "."
  else
    let q := afterLastSlash (stripTrailingSlashes p) in
    if bool_decide (q = "") then "/" else q.

Definition Dir (p : string) : string := Clean (uptoLastSlash p).

Definition Ext (p : string) : string :=
  default "" (fromLastDot (afterLastSlash p)).

(** [filepath.Rel] on cleaned, slash-separated paths. *)
Fixpoint dropCommon (bs ts : list string) : list string * list string :=
  match bs, ts with
  | b :: bs', t :: ts' =>
      if bool_decide (b = t) then dropCommon bs' ts' else (bs, ts)
  | _, _ => (bs, ts)
  end.

Definition elemsOf (p : string) : list string :=
  filter (λ e, e ≠ "") (splitSlash p).

Definition Rel (basepath targpath : string) : string * option error :=
  let base := Clean basepath in
  let targ := Clean targpath in
  let cant := RelError ("Rel: can't make " +:+ targpath +:+
                        " relative to " +:+ basepath) in
  if bool_decide (targ = base) then (".", None)
  else
    let base' := if bool_decide (base = ".") then "" else base in
    if negb (eqb (IsAbs base') (IsAbs targ)) then ("", Some cant)
    else
      let '(bs, ts) := dropCommon (elemsOf base') (elemsOf targ) in
      match bs with
      | [] => (joinSlash ts, None)
      | b :: _ =>
          if bool_decide (b = "..") then ("", Some cant)
          else (joinSlash (((λ _, "..") <$> bs) ++ ts), None)
      end.

(** A file or directory name: not empty, not "." or "..", no slash. *)
Definition properName (e : string) : Prop :=
  e ≠ "" ∧ e ≠ "." ∧ e ≠ ".." ∧ contains slash e = false.

(** The text of the path with the elements [l], from the root or not. *)
Definition ofElems (rooted : bool) (l : list string) : string :=
  (if rooted then "/" else "") +:+ joinSlash l.

(** The elements [Clean] keeps when there is no ".." among them. *)
Definition kept (e : string) : bool :=
  negb (bool_decide (e = "") || bool_decide (e = ".")).

End path.

(* ===================================================================== *)
(** ** The file system                                                    *)
(* ===================================================================== *)

(** Paths are the strings the program passes to the [os] package.  A path
    in [noaccess] is one on which every system call fails with [EACCES]
    (for instance because a parent directory cannot be searched), whether
    or not something is stored under it.  [syslog] records, oldest first,
    every mutating system call the program attempts. *)
Module os.

Inductive node : Type := File (content : string) | Directory.

Inductive syscall : Type :=
  | SysMkdir (p : string)
  | SysCreate (p : string)
  | SysWrite (p : string)
  | SysRemove (p : string).

Record FS : Type := mkFS {
  nodes : gmap string node;
  noaccess : gset string;
  syslog : list syscall
}.

Definition logged (c : syscall) (f : FS) : FS :=
  mkFS (nodes f) (noaccess f) (syslog f ++ [c]).

Definition setNodes (n : gmap string node) (f : FS) : FS :=
  mkFS n (noaccess f) (syslog f).

(** [os.Stat]: [None] is success. *)
Definition Stat (f : FS) (p : string) : option errno :=
  if bool_decide (p ∈ noaccess f) then Some EACCES
  else match nodes f !! p with
       | Some _ => None
       | None => Some ENOENT
       end.

(** The parent must be a directory for an entry to be made in it. *)
Definition parentErr (f : FS) (p : string) : option errno :=
  match nodes f !! path.Dir p with
  | Some Directory => None
  | Some (File _) => Some ENOTDIR
  | None => Some ENOENT
  end.

Definition Mkdir (p : string) (f : FS) : FS * option error :=
  let f := logged (SysMkdir p) f in
  let fail e := (f, Some (PathError "mkdir" p e)) in
  if bool_decide (p ∈ noaccess f) then fail EACCES
  else match nodes f !! p with
       | Some _ => fail EEXIST
       | None =>
           match parentErr f p with
           | Some e => fail e
           | None => (setNodes (<[p := Directory]> (nodes f)) f, None)
           end
       end.

(** [os.Create]: creates or truncates. *)
Definition Create (p : string) (f : FS) : FS * option error :=
  let f := logged (SysCreate p) f in
  let fail e := (f, Some (PathError "open" p e)) in
  if bool_decide (p ∈ noaccess f) then fail EACCES
  else match nodes f !! p with
       | Some Directory => fail EISDIR
       | _ =>
           match parentErr f p with
           | Some e => fail e
           | None => (setNodes (<[p := File ""]> (nodes f)) f, None)
           end
       end.

(** Writing [data] through the handle [os.Create] returned for [p]. *)
Definition Write (p : string) (data : string) (f : FS) : FS :=
  setNodes (<[p := File data]> (nodes f)) (logged (SysWrite p) f).

Definition hasChild (f : FS) (p : string) : bool :=
  existsb (λ k, bool_decide (k ≠ p) && bool_decide (path.Dir k = p))
          (map_to_list (nodes f)).*1.

Definition Remove (p : string) (f : FS) : FS * option error :=
  let f := logged (SysRemove p) f in
  let fail e := (f, Some (PathError "remove" p e)) in
  if bool_decide (p ∈ noaccess f) then fail EACCES
  else match nodes f !! p with
       | None => fail ENOENT
       | Some Directory =>
           if hasChild f p then fail ENOTEMPTY
           else (setNodes (delete p (nodes f)) f, None)
       | Some (File _) => (setNodes (delete p (nodes f)) f, None)
       end.

Definition ReadFile (f : FS) (p : string) : string + error :=
  let fail e := inr (PathError "open" p e) in
  if bool_decide (p ∈ noaccess f) then fail EACCES
  else match nodes f !! p with
       | None => fail ENOENT
       | Some Directory => fail EISDIR
       | Some (File c) => inl c
       end.

End os.

(* ===================================================================== *)
(** ** The registry collaborator ([midas.RegistryService])                *)
(* ===================================================================== *)

Module Registry.

Class Service (R : Type) : Type := {
  OpenStorage : R → R * option error;
  CreateStorage : R → R * option error;
  CreateEntry : string → string → R → R * option error;
  ReadEntry : string → R → string * option error;
  UpdateEntry : string → string → R → R * option error;
  Flush : R → R * option error
}.

(** An in-memory registry whose operations can be made to fail; it is
    the backend of the concrete runs below. *)
Record Mem : Type := mkMem {
  pending : gmap string string;
  durable : gmap string string;
  failWrites : bool;
  failFlush : bool
}.

Definition memPut (id p : string) (r : Mem) : Mem * option error :=
  if failWrites r then (r, Some (RegistryError "write refused"))
  else (mkMem (<[id := p]> (pending r)) (durable r)
              (failWrites r) (failFlush r), None).

#[global] Instance memService : Service Mem := {|
  OpenStorage r := (r, None);
  CreateStorage r := (r, None);
  CreateEntry := memPut;
  ReadEntry id r :=
    match pending r !! id with
    | Some p => (p, None)
    | None => ("", Some (RegistryError "no such entry"))
    end;
  UpdateEntry := memPut;
  Flush r :=
    if failFlush r then (r, Some (RegistryError "flush failed"))
    else (mkMem (pending r) (pending r) (failWrites r) (failFlush r), None)
|}.

End Registry.

(* ===================================================================== *)
(** ** hugo/site.go                                                       *)
(* ===================================================================== *)

Module hugo.
Import strings_pkg.

(** [midas.Model], [midas.Site] and [midas.Payload], as far as the two
    source files read them. *)
Record Model : Type := mkModel {
  ArchetypePath : string;
  OutputDir : string
}.

Record Site : Type := mkSite {
  RootDir : string;
  CollectionTypes : gmap string Model;
  SingleTypes : gmap string Model;
  OutputBuild : string            (* Site.OutputSettings.Build *)
}.

Record Payload : Type := mkPayload {
  Metadata : gmap string value;
  Entry : gmap string value
}.

(** [m[key].(string)] and [m[key].(int)]: a missing key yields the nil
    interface, and a failed assertion panics. *)
Definition assertString (v : option value) : outcome string :=
  match v with
  | Some (VString s) => Returned s
  | _ => Panicked bad_assert
  end.

Definition assertInt (v : option value) : outcome Z :=
  match v with
  | Some (VInt i) => Returned i
  | _ => Panicked bad_assert
  end.

(** [fileExists]: true unless [os.Stat] fails with "does not exist". *)
Definition fileExists (f : os.FS) (filename : string) : bool :=
  match os.Stat f filename with
  | Some ENOENT => false
  | _ => true
  end.

(** [getModel]: the collection types are searched first; an unknown
    name gives the nil pointer (and [true]). *)
Definition getModel (s : Site) (model : string) : option Model * bool :=
  match CollectionTypes s !! model with
  | Some m => (Some m, false)
  | None =>
      match SingleTypes s !! model with
      | Some m => (Some m, true)
      | None => (None, true)
      end
  end.

(** [EntryId]: the arguments of [Sprintf] are evaluated left to right. *)
Definition EntryId (payload : Payload) : outcome string :=
  match assertString (Metadata payload !! "model") with
  | Panicked msg => Panicked msg
  | Returned model =>
      match assertInt (Entry payload !! "id") with
      | Panicked msg => Panicked msg
      | Returned id => Returned (model +:+ "-" +:+ fmt_d id)
      end
  end.

Definition absolute (s : Site) (p : string) : string :=
  if negb (path.IsAbs p) then path.Join [RootDir s; p] else p.

Definition titleOf (payload : Payload) : string :=
  fmt_v (default VNil (Entry payload !! "Title")).

Definition archetypeMissing (modelName : string) : error :=
  MidasError ErrSiteConfig
    ("archetype for model " +:+ modelName +:+ " does not exist").

Definition outputTaken (outputPath : string) : error :=
  MidasError ErrInvalid
    ("output file " +:+ path.Base outputPath +:+ " already exists").

Section SiteService.
Context {R : Type} `{!Registry.Service R}.

(** [html/template] and [midas.CreateSlug] are outside the two source
    files; they are parameters of the service. *)
Variable Template : Type.
Variable parseTemplate : string → option Template.
Variable execute : Template → gmap string value → string * option error.
Variable CreateSlug : string → string.

(** The state a call runs in: the disk and the registry backend. *)
Record World : Type := mkWorld { fs : os.FS; registry : R }.

(** State passing with panics. *)
Definition M (A : Type) : Type := World → World * outcome A.

Definition ret {A} (a : A) : M A := λ w, (w, Returned a).
Definition bind {A B} (c : M A) (k : A → M B) : M B :=
  λ w, match c w with
       | (w', Returned a) => k a w'
       | (w', Panicked msg) => (w', Panicked msg)
       end.
Definition lift {A} (o : outcome A) : M A := λ w, (w, o).
Definition getFS : M os.FS := λ w, (w, Returned (fs w)).
Definition onFS {A} (op : os.FS → os.FS * A) : M A :=
  λ w, let '(f, a) := op (fs w) in (mkWorld f (registry w), Returned a).
Definition onRegistry {A} (op : R → R * A) : M A :=
  λ w, let '(r, a) := op (registry w) in (mkWorld (fs w) r, Returned a).
Definition readRegistry {A} (op : R → A) : M A :=
  λ w, (w, Returned (op (registry w))).

#[local] Instance M_ret : MRet M := @ret.
#[local] Instance M_bind : MBind M := λ A B k c, bind c k.

(** [template.ParseFiles]: read the file, then parse it. *)
Definition ParseFiles (f : os.FS) (p : string) : Template + error :=
  match os.ReadFile f p with
  | inr e => inr e
  | inl src =>
      match parseTemplate src with
      | Some t => inl t
      | None => inr (TemplateError ("template: " +:+ p))
      end
  end.

(** Lines 101-123 of [CreateEntry], which [UpdateEntry] repeats at
    lines 180-202: parse the archetype, create the output file and
    execute the template into it.  [None] means all of it worked. *)
Definition render (archetypePath outputPath : string) (payload : Payload)
  : M (option error) :=
  f ← getFS;
  match ParseFiles f archetypePath with
  | inr err => ret (Some err)
  | inl tmpl =>
      cerr ← onFS (os.Create outputPath);
      match cerr with
      | Some err => ret (Some err)
      | None =>
          let '(out, xerr) := execute tmpl (Entry payload) in
          _ ← onFS (λ f, (os.Write outputPath out f, tt));
          ret xerr
      end
  end.

Definition ensureDir (outputDir : string) : M (option error) :=
  f ← getFS;
  if negb (fileExists f outputDir) then onFS (os.Mkdir outputDir)
  else ret None.

Definition CreateEntry (s : Site) (payload : Payload)
  : M (string * option error) :=
  modelName ← lift (assertString (Metadata payload !! "model"));
  let '(model, _) := getModel s modelName in
  match model with
  | None => lift (Panicked nil_deref)
  | Some model =>
      let archetypePath := absolute s (ArchetypePath model) in
      let outputDir := absolute s (OutputDir model) in
      f ← getFS;
      if negb (fileExists f archetypePath)
      then ret ("", Some (archetypeMissing modelName))
      else
        derr ← ensureDir outputDir;
        match derr with
        | Some err => ret ("", Some err)
        | None =>
            let title := titleOf payload in
            let slug := CreateSlug title in
            let outputPath := path.Join [outputDir; slug +:+ ".html"] in
            f ← getFS;
            if fileExists f outputPath
            then ret ("", Some (outputTaken outputPath))
            else
              rerr ← render archetypePath outputPath payload;
              match rerr with
              | Some err => ret ("", Some err)
              | None =>
                  entryId ← lift (EntryId payload);
                  err ← onRegistry (Registry.CreateEntry entryId outputPath);
                  match err with
                  | Some err => ret (outputPath, Some err)
                  | None =>
                      err ← onRegistry Registry.Flush;
                      match err with
                      | Some err => ret (outputPath, Some err)
                      | None => ret (outputPath, None)
                      end
                  end
              end
        end
  end.

Definition UpdateEntry (s : Site) (payload : Payload)
  : M (string * option error) :=
  modelName ← lift (assertString (Metadata payload !! "model"));
  let '(model, _) := getModel s modelName in
  match model with
  | None => lift (Panicked nil_deref)
  | Some model =>
      let archetypePath := absolute s (ArchetypePath model) in
      f ← getFS;
      if negb (fileExists f archetypePath)
      then ret ("", Some (archetypeMissing modelName))
      else
        entryId ← lift (EntryId payload);
        '(oldPath, _) ← readRegistry (Registry.ReadEntry entryId);
        let outputDir := path.Dir oldPath in
        derr ← ensureDir outputDir;
        match derr with
        | Some err => ret ("", Some err)
        | None =>
            let title := titleOf payload in
            let slug := CreateSlug title in
            let outputPath := path.Join [outputDir; slug +:+ ".html"] in
            f ← getFS;
            if fileExists f outputPath
               && negb (bool_decide (path.Base outputPath = path.Base oldPath))
            then ret ("", Some (outputTaken outputPath))
            else
              _ ← (if fileExists f oldPath
                   then onFS (os.Remove oldPath)
                   else ret None);
              rerr ← render archetypePath outputPath payload;
              match rerr with
              | Some err => ret ("", Some err)
              | None =>
                  err ← onRegistry (Registry.UpdateEntry entryId outputPath);
                  match err with
                  | Some err => ret (outputPath, Some err)
                  | None =>
                      err ← onRegistry Registry.Flush;
                      match err with
                      | Some err => ret (outputPath, Some err)
                      | None => ret (outputPath, None)
                      end
                  end
              end
        end
  end.

(** [RemoveEntry] is [panic("implement me")]. *)
Definition RemoveEntry (payload : Payload) : M (string * option error) :=
  lift (Panicked "implement me").

(** What "the registry step fails" means for lines 128-133 (and 205-210):
    the write is refused, or it is accepted and the flush fails. *)
Definition registration_fails (write : R → R * option error)
    (r r' : R) (e : error) : Prop :=
  write r = (r', Some e)
  ∨ ∃ r1, write r = (r1, None) ∧ Registry.Flush r1 = (r', Some e).

(** [f'] stores something wherever [f] does, and blocks the same paths. *)
Definition extends (f f' : os.FS) : Prop :=
  os.noaccess f' = os.noaccess f
  ∧ ∀ p, is_Some (os.nodes f !! p) → is_Some (os.nodes f' !! p).

End SiteService.

(** [midas.Site] together with its [Registry.Type] field, which only
    [NewSiteService] reads. *)
Record SiteConfig : Type := mkSiteConfig {
  asSite : Site;
  RegistryType : string
}.

Definition unknownRegistry (type : string) : error :=
  MidasError ErrSiteConfig
    ("requested registry type " +:+ type +:+ " does not exit").

Section Construction.
Context {R : Type} `{!Registry.Service R}.

(** [midas.RegistryServices]: the constructors of the registry backends,
    by name. *)
Variable RegistryServices : gmap string (SiteConfig → R).

(** The [SiteService] struct: the site and the handle on its registry. *)
Record Service : Type := mkService { Site_ : Site; registry_ : R }.

(** [NewSiteService]: the nil service is [None]. *)
Definition NewSiteService (config : SiteConfig) : option Service * option error :=
  match RegistryServices !! RegistryType config with
  | None => (None, Some (unknownRegistry (RegistryType config)))
  | Some construct =>
      let '(r, err) := Registry.OpenStorage (construct config) in
      match err with
      | None => (Some (mkService (asSite config) r), None)
      | Some _ =>
          let '(r, err) := Registry.CreateStorage r in
          match err with
          | Some err => (None, Some err)
          | None => (Some (mkService (asSite config) r), None)
          end
      end
  end.

Definition GetRegistryService (s : Service) : R * option error :=
  (registry_ s, None).

(** [exec.Command(name, args...)] run in a directory: the standard
    output, and the text of the error when the command fails. *)
Variable runCommand : string → string → list string → string * option string.

Definition newline : string := String (Ascii.ascii_of_nat 10) "".

Definition BuildSite (s : Service) (useCache : bool) : option error :=
  let arg := if negb useCache then "--ignoreCache" else "" in
  let '(out, err) := runCommand (RootDir (Site_ s)) "hugo" [arg] in
  match err with
  | Some err =>
      Some (MidasError ErrInternal
              ("hugo build errored: " +:+ err +:+ newline
                 +:+ "command output: " +:+ out))
  | None => None
  end.

End Construction.

(** A registry reads back what was created and flushed. *)
Definition reads_back (R : Type) `{!Registry.Service R} : Prop :=
  ∀ (id p : string) (r r1 r2 : R),
    Registry.CreateEntry id p r = (r1, None) →
    Registry.Flush r1 = (r2, None) →
    Registry.ReadEntry id r2 = (p, None).

(** What a step that only adds does to the disk: the blocked paths stay
    the same, everything stored stays stored as it is, and none of the
    system calls it adds to the log is a removal. *)
Definition keeps_everything (f f' : os.FS) : Prop :=
  os.noaccess f' = os.noaccess f
  ∧ (∀ q n, os.nodes f !! q = Some n → os.nodes f' !! q = Some n)
  ∧ ∃ l, os.syslog f' = os.syslog f ++ l
         ∧ Forall (λ c, ∀ p, c ≠ os.SysRemove p) l.

Section Registration.
Context {R : Type} `{!Registry.Service R}.

(** Lines 204-212: the registry is updated, then flushed. *)
Definition registerUpdate (entryId outputPath : string) (w3 : @World R)
  : @World R * outcome (string * option error) :=
  let '(r1, e1) := Registry.UpdateEntry entryId outputPath (registry w3) in
  match e1 with
  | Some e => (mkWorld (fs w3) r1, Returned (outputPath, Some e))
  | None =>
      let '(r2, e2) := Registry.Flush r1 in
      (mkWorld (fs w3) r2, Returned (outputPath, e2))
  end.

End Registration.

End hugo.

(* ===================================================================== *)
(** ** aws/deployment.go                                                  *)
(* ===================================================================== *)

Module aws.
Import strings_pkg.

(** [Error()] of an error value, as a panic prints it. *)
Definition errorText (e : error) : string :=
  match e with
  | MidasError _ msg => msg
  | PathError op p _ => op +:+ " " +:+ p
  | TemplateError msg | RegistryError msg | UploadError msg
  | ConfigLoadError msg | RelError msg => msg
  end.

(** The [AWS] part of [midas.DeploymentSettings]. *)
Record DeploymentSettings : Type := mkSettings {
  BucketName : string;
  Region : string;
  AccessKey : string;
  SecretKey : string;
  S3Prefix : string
}.

Record Deployment : Type := mkDeployment {
  site : hugo.Site;
  deploymentSettings : DeploymentSettings;
  publicPath : string
}.

(** An open [*os.File]: its name and what is stored under it. *)
Record file : Type := mkFile { Name : string; Body : os.node }.

(** [s3.PutObjectInput], the fields [uploadFile] sets. *)
Record PutObjectInput : Type := mkPut {
  Bucket : string;
  Key : string;
  PutBody : file;
  ContentType : string
}.

(** [manager.Uploader]: the only S3 operation the code performs. *)
Class Uploader (U : Type) : Type := {
  Upload : PutObjectInput → U → U * option error
}.

(** A bucket kept in memory: the stored objects (content type and
    body by key) and the keys whose upload the service refuses. *)
Record MemBucket : Type := mkBucket {
  objects : gmap string (string * os.node);
  refused : gset string
}.

#[global] Instance memUploader : Uploader MemBucket := {|
  Upload i b :=
    if bool_decide (Key i ∈ refused b)
    then (b, Some (UploadError ("upload failed: " +:+ Key i)))
    else (mkBucket (<[Key i := (ContentType i, Body (PutBody i))]> (objects b))
                   (refused b), None)
|}.

(** One call of the walk function by [filepath.Walk]: the path, whether
    [info.IsDir()] holds, and the error the traversal hit there. *)
Record visit : Type := mkVisit {
  vpath : string;
  visDir : bool;
  verr : option error
}.

(** What the goroutine of [retrieveFiles] does with the channel: the
    paths it sends, in order, and the error it panics with instead of
    closing the channel normally. *)
Record fileWalk : Type := mkWalk {
  sent : list string;
  walkErr : option error
}.

(** [fileWalk.Walk]: the path sent on the channel, and the result. *)
Definition Walk (v : visit) : option string * option error :=
  match verr v with
  | Some err => (None, Some err)
  | None => if visDir v then (None, None) else (Some (vpath v), None)
  end.

(** [filepath.Walk]: the function is called for each visit, and its
    first error ends the traversal and is the result. *)
Fixpoint filepath_Walk (fn : visit → option string * option error)
    (visits : list visit) : fileWalk :=
  match visits with
  | [] => mkWalk [] None
  | v :: rest =>
      match fn v with
      | (s, Some err) => mkWalk (option_list s) (Some err)
      | (s, None) =>
          let w := filepath_Walk fn rest in
          mkWalk (option_list s ++ sent w) (walkErr w)
      end
  end.

Definition New (site : hugo.Site) (settings : DeploymentSettings) : Deployment :=
  let build := hugo.OutputBuild site in
  let publicPath :=
    if negb (bool_decide (build = "")) then
      if path.IsAbs build then build
      else path.Join [hugo.RootDir site; build]
    else path.Join [hugo.RootDir site; "public"] in
  mkDeployment site settings publicPath.

Definition typeByExtension : gmap string string :=
  list_to_map
    [ (".html", "text/html"); (".css", "text/css"); (".xml", "text/xml");
      (".js", "application/javascript"); (".pdf", "application/pdf");
      (".png", "image/png"); (".jpg", "image/jpeg"); (".jpeg", "image/jpeg");
      (".gif", "image/gif"); (".svg", "image/svg+xml");
      (".webp", "image/webp");
      (".webm", "video/webm"); (".mp4", "video/mp4"); (".ogv", "video/ogg");
      (".avi", "video/x-msvideo");
      (".ogg", "audio/ogg"); (".mp3", "audio/mpeg"); (".mpeg", "audio/mpeg") ].

Definition getFileContentType (fileName : string) : string :=
  let extension := path.Ext fileName in
  match typeByExtension !! extension with
  | Some contentType => contentType
  | None => "application/octet-stream"
  end.

(** The request [uploadFile] builds (lines 117-131). *)
Definition putObjectInput (d : Deployment) (f : file) (rel : string)
  : PutObjectInput :=
  let fileKey :=
    if negb (bool_decide (S3Prefix (deploymentSettings d) = ""))
    then S3Prefix (deploymentSettings d) +:+ "/" +:+ rel
    else rel in
  let fileKey := ReplaceAll1 fileKey backslash slash in
  let contentType := getFileContentType (Name f) in
  mkPut (BucketName (deploymentSettings d)) fileKey f contentType.

(** [os.Open]: a handle on what is stored under the path. *)
Definition Open (disk : os.FS) (p : string) : file + error :=
  if bool_decide (p ∈ os.noaccess disk) then inr (PathError "open" p EACCES)
  else match os.nodes disk !! p with
       | Some n => inl (mkFile p n)
       | None => inr (PathError "open" p ENOENT)
       end.

Section Deploy.
Context {U : Type} `{!Uploader U}.

(** The state a deployment runs in.  [attempts] lists, oldest first,
    the requests handed to the uploader; [configFault] is the error
    loading the AWS configuration gives, if any. *)
Record World : Type := mkWorld {
  disk : os.FS;
  s3 : U;
  attempts : list PutObjectInput;
  configFault : option error
}.

Definition uploadFile (d : Deployment) (f : file) (rel : string)
    (w : World) : World * option error :=
  let input := putObjectInput d f rel in
  let '(u, err) := Upload input (s3 w) in
  (mkWorld (disk w) u (attempts w ++ [input]) (configFault w), err).

(** [retrieveFiles] starts the goroutine and always returns [nil]. *)
Definition retrieveFiles (d : Deployment) (visits : list visit)
  : fileWalk * option error :=
  (filepath_Walk Walk visits, None).

(** The body of the loop of [Deploy] for one received path. *)
Definition deployOne (d : Deployment) (p : string) (w : World)
  : World * option error :=
  match path.Rel (publicPath d) p with
  | (_, Some err) => (w, Some err)
  | (rel, None) =>
      match Open (disk w) p with
      | inr err => (w, Some err)
      | inl f => uploadFile d f rel w
      end
  end.

(** [for path := range walker]: the world, the error returned from
    inside the loop, and how many paths were received. *)
Fixpoint rangeWalker (d : Deployment) (paths : list string) (w : World)
  : World * option error * nat :=
  match paths with
  | [] => (w, None, 0)
  | p :: rest =>
      match deployOne d p w with
      | (w', Some err) => (w', Some err, 1)
      | (w', None) =>
          let '(w'', err, n) := rangeWalker d rest w' in (w'', err, S n)
      end
  end.

(** The fate of the process once [Deploy] has stopped receiving after
    [n] paths: a goroutine with more to send stays blocked on the
    unbuffered channel for ever; one with nothing more to send ends,
    and ends in [panic(err)] when the traversal failed. *)
Definition goroutine {A} (walker : fileWalk) (n : nat) (result : A)
  : outcome A :=
  if bool_decide (n < length (sent walker)) then Returned result
  else match walkErr walker with
       | Some err => Panicked (errorText err)
       | None => Returned result
       end.

Definition Deploy (d : Deployment) (visits : list visit) (w : World)
  : World * outcome (option error) :=
  match retrieveFiles d visits with
  | (walker, Some err) => (w, goroutine walker 0 (Some err))
  | (walker, None) =>
      match configFault w with
      | Some err => (w, goroutine walker 0 (Some err))
      | None =>
          let '(w', err, n) := rangeWalker d (sent walker) w in
          (w', goroutine walker n err)
      end
  end.

(** The store after the requests [reqs] have been handed to the uploader
    one after the other, and nothing else has been done to it. *)
Definition uploaded (reqs : list PutObjectInput) (u : U) : U :=
  fold_left (λ u i, (Upload i u).1) reqs u.

Definition fileName (i : PutObjectInput) : string :=
  Name (PutBody i).

End Deploy.
(** The visits up to the first one on which the traversal reports an
    error. *)
Fixpoint untilError (visits : list visit) : list visit :=
  match visits with
  | [] => []
  | v :: rest =>
      match verr v with
      | Some _ => []
      | None => v :: untilError rest
      end
  end.

(** The regular files among some visits. *)
Definition regularFiles (visits : list visit) : list string :=
  vpath <$> List.filter (λ v, negb (visDir v)) visits.

Section Requests.
Context {U : Type} `{!Uploader U}.

(** A request [Deploy] may make for the walked path [p]: to the
    configured bucket, for the file opened under [p], with the key and
    content type [uploadFile] derives from the path relative to the
    public root. *)
Definition requestFor (d : Deployment) (w : @World U) (p : string)
    (i : PutObjectInput) : Prop :=
  ∃ rel f, path.Rel (publicPath d) p = (rel, None)
           ∧ Open (disk w) p = inl f
           ∧ i = putObjectInput d f rel.

End Requests.

End aws.

(* ===================================================================== *)
(** ** Concrete sites, disks and payloads                                 *)
(* ===================================================================== *)

Module sample.
Import strings_pkg.

Definition postModel : hugo.Model :=
  hugo.mkModel "archetypes/post.html" "content/posts".

Definition blog : hugo.Site :=
  hugo.mkSite "/site" {[ "post" := postModel ]} ∅ "".

(** Stand-ins for the template engine and the slug function: a template
    is its source text, executing it appends the title, and a slug is
    the title with dashes for spaces. *)
Definition parseText (src : string) : option string := Some src.
Definition executeText (t : string) (entry : gmap string value)
  : string * option error :=
  (t +:+ fmt_v (default VNil (entry !! "Title")), None).
Definition dashSlug (title : string) : string :=
  ReplaceAll1 title " "%char "-"%char.

Definition CreateEntry {R} `{!Registry.Service R} :=
  hugo.CreateEntry (R := R) string parseText executeText dashSlug.
Definition UpdateEntry {R} `{!Registry.Service R} :=
  hugo.UpdateEntry (R := R) string parseText executeText dashSlug.

Definition disk0 : os.FS :=
  os.mkFS {[ "/site" := os.Directory;
             "/site/content" := os.Directory;
             "/site/content/posts" := os.Directory;
             "/site/archetypes" := os.Directory;
             "/site/archetypes/post.html" := os.File "T:" ]} ∅ [].

Definition emptyRegistry : Registry.Mem := Registry.mkMem ∅ ∅ false false.
Definition world0 : hugo.World := hugo.mkWorld disk0 emptyRegistry.

Definition payloadOf (model title : string) (id : Z) : hugo.Payload :=
  hugo.mkPayload {[ "model" := VString model ]}
                 {[ "Title" := VString title; "id" := VInt id ]}.

Definition hello : hugo.Payload := payloadOf "post" "Hello World" 5.
Definition helloPath : string := "/site/content/posts/Hello-World.html".

(** A disk on which [helloPath] is not stored, yet cannot be examined. *)
Definition lockedDisk : os.FS :=
  os.mkFS (os.nodes disk0) {[ helloPath ]} [].

(** A registry that refuses writes, and one whose flush fails. *)
Definition readOnlyRegistry : Registry.Mem := Registry.mkMem ∅ ∅ true false.
Definition unflushable : Registry.Mem := Registry.mkMem ∅ ∅ false true.

(** The world after [hello] has been created in [world0]. *)
Definition world1 : hugo.World := (CreateEntry blog hello world0).1.

(** A second entry, "Other" with id 6, next to [hello]; and the payload
    that retitles it to the title [hello] already has. *)
Definition other : hugo.Payload := payloadOf "post" "Other" 6.
Definition otherPath : string := "/site/content/posts/Other.html".
Definition world2 : hugo.World := (CreateEntry blog other world1).1.
Definition otherRetitled : hugo.Payload := payloadOf "post" "Hello World" 6.

(** [hello] is registered under [helloPath], which the disk neither
    stores nor lets anyone examine. *)
Definition lockedWorld : hugo.World :=
  hugo.mkWorld lockedDisk
    (Registry.mkMem {[ "post-5" := helloPath ]} {[ "post-5" := helloPath ]}
                    false false).

Definition settings (prefix : string) : aws.DeploymentSettings :=
  aws.mkSettings "bucket" "eu-central-1" "AK" "SK" prefix.

Definition deployment (prefix : string) : aws.Deployment :=
  aws.New blog (settings prefix).

Definition publicDisk : os.FS :=
  os.mkFS {[ "/site/public" := os.Directory;
             "/site/public/index.html" := os.File "<html>";
             "/site/public/img" := os.Directory;
             "/site/public/img/a.png" := os.File "PNG";
             "/site/public/style.css" := os.File "body{}" ]} ∅ [].

Definition publicVisits : list aws.visit :=
  [ aws.mkVisit "/site/public" true None;
    aws.mkVisit "/site/public/img" true None;
    aws.mkVisit "/site/public/img/a.png" false None;
    aws.mkVisit "/site/public/index.html" false None;
    aws.mkVisit "/site/public/style.css" false None ].

(** A traversal whose root cannot be read. *)
Definition lstatFailure : error := PathError "lstat" "/site/public" ENOENT.
Definition brokenVisits : list aws.visit :=
  [ aws.mkVisit "/site/public" false (Some lstatFailure) ].

Definition cloud (refused : gset string) : aws.World :=
  aws.mkWorld publicDisk (aws.mkBucket ∅ refused) [] None.

End sample.

(** Further worlds and payloads, for the runs of the later sections. *)
Module cases.

(** A disk without the archetype of the model "post". *)
Definition bareWorld : hugo.World :=
  hugo.mkWorld
    (os.mkFS {[ "/site" := os.Directory; "/site/content" := os.Directory ]} ∅ [])
    sample.emptyRegistry.

(** [sample.hello] with its id decoded as a float. *)
Definition floatId : hugo.Payload :=
  hugo.mkPayload {[ "model" := VString "post" ]}
                 {[ "Title" := VString "Hello World"; "id" := VFloat "5" ]}.

(** [sample.hello] under a new title. *)
Definition renamed : hugo.Payload := sample.payloadOf "post" "Renamed" 5.
Definition renamedPath : string := "/site/content/posts/Renamed.html".

(** [sample.world1] with the archetype made unreadable. *)
Definition archetypePath : string := "/site/archetypes/post.html".
Definition unreadableArchetype : hugo.World :=
  hugo.mkWorld
    (os.mkFS (os.nodes (hugo.fs sample.world1)) {[ archetypePath ]} [])
    (hugo.registry sample.world1).

(** A disk that has the working directory ".", with an empty registry. *)
Definition cwdWorld : hugo.World :=
  hugo.mkWorld
    (os.mkFS (<[ "." := os.Directory ]> (os.nodes sample.disk0)) ∅ [])
    sample.emptyRegistry.

(** The traversal of [sample.publicVisits] followed by a file that is no
    longer on the disk. *)
Definition gonePath : string := "/site/public/zz.js".
Definition staleVisits : list aws.visit :=
  sample.publicVisits ++ [ aws.mkVisit gonePath false None ].

(** A traversal that sends one file and then fails. *)
Definition failingVisits : list aws.visit :=
  [ aws.mkVisit "/site/public" true None;
    aws.mkVisit "/site/public/index.html" false None;
    aws.mkVisit "/site/public/img" true (Some sample.lstatFailure);
    aws.mkVisit "/site/public/style.css" false None ].

Definition noConfig : aws.World :=
  aws.mkWorld sample.publicDisk (aws.mkBucket ∅ ∅) []
              (Some (ConfigLoadError "no region")).

End cases.

(** Unfold one layer of the state-passing plumbing. *)
Ltac run :=
  unfold mbind, hugo.M_bind, hugo.bind, hugo.lift, hugo.ret, mret, hugo.M_ret,
    hugo.getFS, hugo.onFS, hugo.onRegistry, hugo.readRegistry; cbn.

(** The table of section 6 of the specification, as it is written there. *)
Definition spec_content_types : list (string * string) :=
  [ (".html", "text/html"); (".css", "text/css"); (".xml", "text/xml");
    (".js", "application/javascript"); (".pdf", "application/pdf");
    (".png", "image/png"); (".jpg", "image/jpeg"); (".jpeg", "image/jpeg");
    (".gif", "image/gif"); (".svg", "image/svg+xml"); (".webp", "image/webp");
    (".webm", "video/webm"); (".mp4", "video/mp4"); (".ogv", "video/ogg");
    (".avi", "video/x-msvideo"); (".ogg", "audio/ogg");
    (".mp3", "audio/mpeg"); (".mpeg", "audio/mpeg") ].

Definition generic_binary : string := "application/octet-stream".

(* ===================================================================== *)
(** ** Facts about the library functions                                  *)
(* ===================================================================== *)

Section StringFacts.
Import strings_pkg.

Lemma is_char_refl a : is_char a a = true.
Proof. apply Ascii.eqb_refl. Qed.

Lemma ReplaceAll1_removes s old new :
  old ≠ new → contains old (ReplaceAll1 s old new) = false.
Proof.
  intros Hne. induction s as [|c r IH]; simpl; [done|].
  rewrite IH, orb_false_r. unfold is_char.
  destruct (Ascii.eqb c old) eqn:Hc.
  - apply Ascii.eqb_neq. congruence.
  - exact Hc.
Qed.

Lemma ReplaceAll1_absent s old new :
  contains old s = false → ReplaceAll1 s old new = s.
Proof.
  induction s as [|c r IH]; simpl; [done|].
  intros [Hc Hr]%orb_false_elim. by rewrite Hc, IH.
Qed.

Lemma afterLastSlash_no_slash t :
  contains slash t = false → afterLastSlash t = t.
Proof. destruct t as [|c r]; simpl; [done|]. by intros ->. Qed.

Lemma afterLastSlash_app s t :
  contains slash t = false → ∃ u, afterLastSlash (s +:+ t) = u +:+ t.
Proof.
  intros Ht. induction s as [|c r [u IH]].
  - exists "". by apply afterLastSlash_no_slash.
  - change (String c r +:+ t) with (String c (r +:+ t)).
    cbn [afterLastSlash].
    destruct (contains slash (String c (r +:+ t))).
    + destruct (contains slash (r +:+ t)); [by exists u | by exists r].
    + by exists (String c r).
Qed.

Lemma fromLastDot_no_dot e : contains dot e = false → fromLastDot e = None.
Proof.
  induction e as [|c r IH]; simpl; [done|].
  intros [Hc Hr]%orb_false_elim. by rewrite IH, Hc.
Qed.

Lemma fromLastDot_app u e :
  contains dot e = false →
  fromLastDot (u +:+ String dot e) = Some (String dot e).
Proof.
  intros He. induction u as [|c r IH].
  - change ("" +:+ String dot e) with (String dot e).
    cbn [fromLastDot].
    by rewrite (fromLastDot_no_dot e He), is_char_refl.
  - change (String c r +:+ String dot e) with (String c (r +:+ String dot e)).
    cbn [fromLastDot]. by rewrite IH.
Qed.

(** A name ending in a dot followed by dot-free, slash-free text has
    exactly that ending as its extension. *)
Lemma Ext_suffix stem e :
  contains slash e = false → contains dot e = false →
  path.Ext (stem +:+ String dot e) = String dot e.
Proof.
  intros Hs Hd. unfold path.Ext.
  destruct (afterLastSlash_app stem (String dot e)) as [u ->]; [by simpl|].
  by rewrite fromLastDot_app.
Qed.

Lemma fmt_d_decimal id :
  Z.of_int <$> NilZero.int_of_string (fmt_d id) = Some id.
Proof.
  unfold fmt_d. rewrite NilZero.isi.
  - simpl. by rewrite DecimalZ.of_to.
  - destruct id as [|p|p]; simpl; try discriminate.
    intros [=H]. by apply DecimalPos.Unsigned.to_uint_nonnil in H.
  - destruct id as [|p|p]; simpl; try discriminate.
    intros [=H]. by apply DecimalPos.Unsigned.to_uint_nonnil in H.
Qed.

End StringFacts.

Section PathFacts.
Import strings_pkg.

Lemma append_cons x (a b : string) : String x a +:+ b = String x (a +:+ b).
Proof. reflexivity. Qed.

Lemma append_assoc (a b c : string) : (a +:+ b) +:+ c = a +:+ b +:+ c.
Proof. induction a as [|x a IH]; [done|]. by rewrite !append_cons, IH. Qed.

Lemma contains_app a s t : contains a (s +:+ t) = contains a s || contains a t.
Proof.
  induction s as [|c s IH]; [done|]. rewrite append_cons. cbn.
  by rewrite IH, orb_assoc.
Qed.

Lemma splitSlash_name a : contains slash a = false → splitSlash a = [a].
Proof.
  induction a as [|c a IH]; cbn; [done|].
  intros [Hc Ha]%orb_false_elim. by rewrite Hc, IH.
Qed.

Lemma splitSlash_app a s :
  contains slash a = false → splitSlash (a +:+ "/" +:+ s) = a :: splitSlash s.
Proof.
  induction a as [|c a IH]; [done|]. rewrite append_cons. cbn.
  intros [Hc Ha]%orb_false_elim. by rewrite Hc, IH.
Qed.

Lemma joinSlash_cons x l : l ≠ [] → joinSlash (x :: l) = x +:+ "/" +:+ joinSlash l.
Proof. by destruct l. Qed.

Lemma joinSlash_snoc l x : l ≠ [] → joinSlash (l ++ [x]) = joinSlash l +:+ "/" +:+ x.
Proof.
  induction l as [|y l IH]; [done|]. intros _.
  destruct l as [|z l]; [done|].
  change ((y :: z :: l) ++ [x]) with (y :: ((z :: l) ++ [x])).
  rewrite joinSlash_cons by done. rewrite IH by done.
  rewrite (joinSlash_cons y (z :: l)) by done. by rewrite !append_assoc.
Qed.

Lemma splitSlash_joinSlash l :
  l ≠ [] → Forall (λ e, contains slash e = false) l → splitSlash (joinSlash l) = l.
Proof.
  induction l as [|x l IH]; [done|]. intros _ [Hx Hl]%Forall_cons.
  destruct l as [|y l]; [by apply splitSlash_name|].
  rewrite joinSlash_cons by done. rewrite splitSlash_app by done.
  by rewrite IH.
Qed.

Lemma cleanStep_fold rooted l : ∀ acc,
  Forall (λ e, e ≠ "..") l →
  fold_left (path.cleanStep rooted) l acc = rev (List.filter path.kept l) ++ acc.
Proof.
  induction l as [|e l IH]; intros acc; [done|]. intros [He Hl]%Forall_cons.
  cbn. rewrite IH by done. unfold path.cleanStep, path.kept.
  destruct (bool_decide (e = "") || bool_decide (e = ".")); cbn; [done|].
  rewrite bool_decide_eq_false_2 by done. by rewrite <- app_assoc.
Qed.

Lemma cleanElems_filter rooted l :
  Forall (λ e, e ≠ "..") l → path.cleanElems rooted l = List.filter path.kept l.
Proof.
  intros Hl. unfold path.cleanElems. rewrite cleanStep_fold by done.
  by rewrite app_nil_r, rev_involutive.
Qed.

Lemma filter_kept_proper l : Forall path.properName l → List.filter path.kept l = l.
Proof.
  induction 1 as [|e l (H1 & H2 & _) _ IH]; [done|]. cbn. unfold path.kept at 1.
  rewrite !bool_decide_eq_false_2 by done. cbn. by rewrite IH.
Qed.

Lemma proper_snoc l y :
  Forall path.properName l → path.properName y → Forall path.properName (l ++ [y]).
Proof. intros Hl Hy. apply Forall_app. split; [done|]. by apply Forall_singleton. Qed.

Lemma proper_not_dotdot l : Forall path.properName l → Forall (λ e, e ≠ "..") l.
Proof. intros Hl. eapply Forall_impl; [exact Hl|]. by intros e (_ & _ & ? & _). Qed.

Lemma proper_slashfree l :
  Forall path.properName l → Forall (λ e, contains slash e = false) l.
Proof. intros Hl. eapply Forall_impl; [exact Hl|]. by intros e (_ & _ & _ & ?). Qed.

(** Cleaning a text whose elements are names, empty or ".": the names
    remain. *)
Lemma Clean_elems (p : string) (names : list string) :
  p ≠ "" →
  Forall (λ e, e ≠ "..") (splitSlash p) →
  List.filter path.kept (splitSlash p) = names →
  path.Clean p
  = if path.IsAbs p then "/" +:+ joinSlash names
    else if bool_decide (joinSlash names = "") then "." else joinSlash names.
Proof.
  intros Hp Hd Hn. unfold path.Clean.
  rewrite bool_decide_eq_false_2 by done. cbn zeta.
  by rewrite cleanElems_filter, Hn.
Qed.

Lemma joinSlash_proper_nonempty l :
  l ≠ [] → Forall path.properName l → joinSlash l ≠ "".
Proof.
  destruct l as [|x l]; [done|]. intros _ [(Hx & _) _]%Forall_cons.
  destruct l; [done|]. rewrite joinSlash_cons by done.
  destruct x; [done|]. by rewrite append_cons.
Qed.

Lemma splitSlash_rooted s : splitSlash ("/" +:+ s) = "" :: splitSlash s.
Proof. reflexivity. Qed.

Lemma filter_kept_app l1 l2 :
  List.filter path.kept (l1 ++ l2) = List.filter path.kept l1 ++ List.filter path.kept l2.
Proof. apply List.filter_app. Qed.

(** The text of a path made of names is clean. *)
Lemma Clean_ofElems rooted l :
  Forall path.properName l → rooted = true ∨ l ≠ [] →
  path.Clean (path.ofElems rooted l) = path.ofElems rooted l.
Proof.
  intros Hl Hne. unfold path.ofElems.
  destruct rooted.
  - destruct l as [|x l]; [done|].
    assert (Hsplit : splitSlash ("/" +:+ joinSlash (x :: l)) = "" :: x :: l).
    { rewrite splitSlash_rooted, splitSlash_joinSlash; [done..|].
      by apply proper_slashfree. }
    rewrite (Clean_elems _ (x :: l)).
    + done.
    + done.
    + rewrite Hsplit. constructor; [done|]. by apply proper_not_dotdot.
    + rewrite Hsplit. exact (filter_kept_proper (x :: l) Hl).
  - destruct Hne as [|Hne]; [done|].
    change ("" +:+ joinSlash l) with (joinSlash l).
    assert (Hj := joinSlash_proper_nonempty l Hne Hl).
    rewrite (Clean_elems _ l); [| done | |].
    + assert (path.IsAbs (joinSlash l) = false) as ->.
      { destruct l as [|x l]; [done|]. apply Forall_cons in Hl as [(Hx&_&_&Hs) _].
        destruct x as [|c x]; [done|]. cbn in Hs.
        apply orb_false_elim in Hs as [Hc _].
        destruct l; [|rewrite joinSlash_cons, append_cons by done]; exact Hc. }
      by rewrite bool_decide_eq_false_2.
    + rewrite splitSlash_joinSlash by (done || by apply proper_slashfree).
      by apply proper_not_dotdot.
    + rewrite splitSlash_joinSlash by (done || by apply proper_slashfree).
      by rewrite filter_kept_proper.
Qed.

Lemma uptoLastSlash_name x : contains slash x = false → uptoLastSlash x = "".
Proof. destruct x as [|c x]; [done|]. cbn. by intros ->. Qed.

Lemma uptoLastSlash_app s x :
  contains slash x = false → uptoLastSlash (s +:+ "/" +:+ x) = s +:+ "/".
Proof.
  intros Hx. induction s as [|c s IH].
  - change ("" +:+ "/" +:+ x) with (String slash x). cbn.
    by rewrite (uptoLastSlash_name x Hx).
  - change (String c s +:+ "/" +:+ x) with (String c (s +:+ "/" +:+ x)).
    cbn [uptoLastSlash].
    replace (contains slash (String c (s +:+ "/" +:+ x))) with true.
    + by rewrite IH.
    + cbn. rewrite contains_app. cbn. by rewrite !orb_true_r.
Qed.

Lemma afterLastSlash_last s x :
  contains slash x = false → afterLastSlash (s +:+ "/" +:+ x) = x.
Proof.
  intros Hx. induction s as [|c s IH].
  - change ("" +:+ "/" +:+ x) with (String slash x). cbn. by rewrite Hx.
  - change (String c s +:+ "/" +:+ x) with (String c (s +:+ "/" +:+ x)).
    cbn [afterLastSlash].
    assert (contains slash (s +:+ "/" +:+ x) = true) as Hc.
    { rewrite contains_app. cbn. by rewrite orb_true_r. }
    replace (contains slash (String c (s +:+ "/" +:+ x))) with true
      by (cbn; by rewrite Hc, orb_true_r).
    by rewrite Hc.
Qed.

Lemma stripTrailingSlashes_name x :
  contains slash x = false → stripTrailingSlashes x = x.
Proof.
  induction x as [|c x IH]; [done|]. cbn.
  intros [Hc Hx]%orb_false_elim. rewrite (IH Hx). destruct x; [|done].
  by rewrite Hc.
Qed.

Lemma stripTrailingSlashes_app s x :
  x ≠ "" → contains slash x = false →
  stripTrailingSlashes (s +:+ x) = s +:+ x.
Proof.
  intros Hne Hx. induction s as [|c s IH].
  - by apply stripTrailingSlashes_name.
  - rewrite append_cons. cbn [stripTrailingSlashes]. rewrite IH.
    destruct (s +:+ x) eqn:Hsx; [|done].
    destruct s; [|done]. by destruct x.
Qed.

(** The text of a path ending in the name [x]: [x] alone, or a text,
    a slash and [x]. *)
Lemma ofElems_last rooted ds x :
  path.ofElems rooted (ds ++ [x]) = x
  ∨ ∃ s, path.ofElems rooted (ds ++ [x]) = s +:+ "/" +:+ x.
Proof.
  unfold path.ofElems. destruct ds as [|d ds].
  - destruct rooted; [right; by exists ""|by left].
  - right. exists ((if rooted then "/" else "") +:+ joinSlash (d :: ds)).
    rewrite joinSlash_snoc by done. by rewrite append_assoc.
Qed.

Lemma Base_ofElems rooted ds x :
  path.properName x → path.Base (path.ofElems rooted (ds ++ [x])) = x.
Proof.
  intros (Hne & _ & _ & Hx). unfold path.Base.
  destruct (ofElems_last rooted ds x) as [-> | [s ->]].
  - rewrite bool_decide_eq_false_2 by done. cbn zeta.
    rewrite stripTrailingSlashes_name, afterLastSlash_no_slash by done.
    by rewrite bool_decide_eq_false_2.
  - rewrite bool_decide_eq_false_2 by (by destruct s).
    cbn zeta. rewrite <- append_assoc.
    rewrite stripTrailingSlashes_app by done. rewrite append_assoc.
    rewrite afterLastSlash_last by done.
    by rewrite bool_decide_eq_false_2.
Qed.

Lemma IsAbs_ofElems rooted l t :
  l ≠ [] → Forall path.properName l → path.IsAbs (path.ofElems rooted l +:+ t) = rooted.
Proof.
  intros Hne Hl. unfold path.ofElems. destruct rooted; [done|].
  change ("" +:+ joinSlash l) with (joinSlash l).
  destruct l as [|x l]; [done|]. apply Forall_cons in Hl as [(Hx&_&_&Hs) _].
  destruct x as [|c x]; [done|]. cbn in Hs.
  apply orb_false_elim in Hs as [Hc _].
  destruct l; [|rewrite joinSlash_cons by done]; exact Hc.
Qed.

Lemma ofElems_nonempty rooted l :
  l ≠ [] → Forall path.properName l → path.ofElems rooted l ≠ "".
Proof.
  intros Hne Hl. unfold path.ofElems. destruct rooted; [done|].
  by apply joinSlash_proper_nonempty.
Qed.

Lemma splitSlash_ofElems rooted l t :
  l ≠ [] → Forall path.properName l →
  splitSlash (path.ofElems rooted l +:+ "/" +:+ t)
  = (if rooted then [""] else []) ++ l ++ splitSlash t.
Proof.
  intros Hne Hl. unfold path.ofElems.
  assert (Hj : ∀ u, splitSlash (joinSlash l +:+ "/" +:+ u) = l ++ splitSlash u).
  { intros u. induction Hl as [|x l (_&_&_&Hx) Hl IH]; [done|].
    destruct l as [|y l].
    - cbn [joinSlash]. by rewrite splitSlash_app.
    - rewrite joinSlash_cons, !append_assoc by done.
      rewrite splitSlash_app by done. by rewrite IH. }
  destruct rooted.
  - rewrite append_assoc. rewrite splitSlash_rooted. by rewrite Hj.
  - change ("" +:+ joinSlash l) with (joinSlash l). by rewrite Hj.
Qed.

(** The directory of a path made of names is the path without its last
    name. *)
Lemma Dir_ofElems rooted ds x :
  Forall path.properName ds → path.properName x →
  path.Dir (path.ofElems rooted (ds ++ [x]))
  = match ds with
    | [] => if rooted then "/" else "."
    | _ => path.ofElems rooted ds
    end.
Proof.
  intros Hds (_ & _ & _ & Hx). unfold path.Dir.
  destruct ds as [|d ds].
  - unfold path.ofElems. destruct rooted.
    + change ("/" +:+ joinSlash ([] ++ [x])) with ("" +:+ "/" +:+ x).
      by rewrite uptoLastSlash_app.
    + change ("" +:+ joinSlash ([] ++ [x])) with x.
      by rewrite uptoLastSlash_name.
  - assert (Htext : path.ofElems rooted ((d :: ds) ++ [x])
                    = path.ofElems rooted (d :: ds) +:+ "/" +:+ x).
    { unfold path.ofElems. rewrite joinSlash_snoc by done. by rewrite append_assoc. }
    rewrite Htext, uptoLastSlash_app by done.
    assert (Hsplit : splitSlash (path.ofElems rooted (d :: ds) +:+ "/")
                     = (if rooted then [""] else []) ++ (d :: ds) ++ [""]).
    { exact (splitSlash_ofElems rooted (d :: ds) "" ltac:(done) Hds). }
    rewrite (Clean_elems _ (d :: ds)).
    + rewrite IsAbs_ofElems by done. unfold path.ofElems. destruct rooted; [done|].
      by rewrite bool_decide_eq_false_2 by (by apply joinSlash_proper_nonempty).
    + pose proof (ofElems_nonempty rooted (d :: ds)) as Hne.
      destruct (path.ofElems rooted (d :: ds)); [by destruct Hne|done].
    + rewrite Hsplit. apply Forall_app. split; [by destruct rooted; repeat constructor|].
      apply Forall_app. split; [by apply proper_not_dotdot|by repeat constructor].
    + rewrite Hsplit, !filter_kept_app, (filter_kept_proper (d :: ds)) by done.
      destruct rooted; cbn; by rewrite app_nil_r.
Qed.

Lemma Join_two a b :
  a ≠ "" → b ≠ "" → path.Join [a; b] = path.Clean (a +:+ "/" +:+ b).
Proof.
  intros Ha Hb. unfold path.Join.
  rewrite filter_cons_True, filter_cons_True by done. done.
Qed.

(** Joining the directory of a path made of names with a name gives the
    path with its last name replaced. *)
Lemma Join_Dir_ofElems rooted ds x y :
  Forall path.properName ds → path.properName x → path.properName y →
  path.Join [path.Dir (path.ofElems rooted (ds ++ [x])); y]
  = path.ofElems rooted (ds ++ [y]).
Proof.
  intros Hds Hx Hy. rewrite Dir_ofElems by done.
  assert (Hyne : y ≠ "") by apply Hy.
  destruct ds as [|d ds].
  - assert (Hone : List.filter path.kept [y] = [y]).
    { apply filter_kept_proper. by apply (proper_snoc []). }
    destruct Hy as (_ & Hy1 & Hy2 & Hy3).
    destruct rooted; rewrite Join_two by done.
    + assert (Hsplit : splitSlash ("/" +:+ "/" +:+ y) = [""; ""; y]).
      { change ("/" +:+ "/" +:+ y) with ("" +:+ "/" +:+ "" +:+ "/" +:+ y).
        by rewrite !splitSlash_app, splitSlash_name. }
      rewrite (Clean_elems _ [y]); [done|done| |]; rewrite Hsplit.
      * by repeat constructor.
      * exact Hone.
    + assert (Hsplit : splitSlash ("." +:+ "/" +:+ y) = ["."; y]).
      { by rewrite splitSlash_app, splitSlash_name. }
      rewrite (Clean_elems _ [y]); [|done| |]; [|rewrite Hsplit..].
      * cbn. by rewrite bool_decide_eq_false_2.
      * by repeat constructor.
      * exact Hone.
  - rewrite Join_two by (done || by apply ofElems_nonempty).
    replace (path.ofElems rooted (d :: ds) +:+ "/" +:+ y)
      with (path.ofElems rooted ((d :: ds) ++ [y])).
    + apply Clean_ofElems; [by apply proper_snoc|by right].
    + unfold path.ofElems. rewrite joinSlash_snoc by done. by rewrite append_assoc.
Qed.

(** Within the directory of a path made of names, the only file with
    the path's own file name is the path itself. *)
Lemma Join_Dir_same_name rooted ds x y :
  Forall path.properName ds → path.properName x → path.properName y →
  let old := path.ofElems rooted (ds ++ [x]) in
  path.Base (path.Join [path.Dir old; y]) = path.Base old →
  path.Join [path.Dir old; y] = old.
Proof.
  intros Hds Hx Hy old. subst old.
  rewrite Join_Dir_ofElems, !Base_ofElems by done. by intros ->.
Qed.

(** A slug without a slash, followed by ".html", is a file name. *)
Lemma html_name_proper slug :
  contains slash slug = false → path.properName (slug +:+ ".html").
Proof.
  intros Hs. unfold path.properName.
  split_and!; [by destruct slug as [|a [|b [|c r]]]..|].
  by rewrite contains_app, Hs.
Qed.

End PathFacts.

(* ===================================================================== *)
(** ** Entry identifiers, storage keys, content types                     *)
(* ===================================================================== *)

(** C6.  For a payload whose metadata holds a model name (a string) and
    whose entry holds an integer id, [EntryId] returns the model name, a
    dash and the id in decimal: the text after the dash reads back as the
    id, and model "post" with id 5 gives "post-5".  [EntryId] is a
    function of the payload alone, so equal inputs give equal results. *)
Theorem EntryId_model_dash_id (payload : hugo.Payload) (model : string) (id : Z) :
  hugo.Metadata payload !! "model" = Some (VString model) →
  hugo.Entry payload !! "id" = Some (VInt id) →
  hugo.EntryId payload = Returned (model +:+ "-" +:+ strings_pkg.fmt_d id)
  ∧ Z.of_int <$> NilZero.int_of_string (strings_pkg.fmt_d id) = Some id
  ∧ (model = "post" → id = 5%Z → hugo.EntryId payload = Returned "post-5").
Proof.
  intros Hm Hi. unfold hugo.EntryId. rewrite Hm, Hi. simpl.
  split; [done|]. split; [apply fmt_d_decimal|].
  by intros -> ->.
Qed.

Lemma EntryId_model_dash_id_witness :
  hugo.EntryId sample.hello = Returned "post-5".
Proof.
  apply (EntryId_model_dash_id sample.hello "post" 5); reflexivity.
Defined.

(** C7.  The key [uploadFile] sends is the prefix, a slash and the
    relative path when the prefix is not empty, and the relative path
    alone when it is, with every backslash turned into a slash: no
    backslash is left in it, and it is the un-normalised text itself when
    that holds no backslash.  With prefix "assets" the file
    <root>/img/a.png goes under "assets/img/a.png", with no prefix under
    "img/a.png", whichever separator the relative path was written with. *)
Theorem uploadFile_key {U} `{!aws.Uploader U}
    (d : aws.Deployment) (f : aws.file) (rel : string) (w : aws.World) :
  let prefix := aws.S3Prefix (aws.deploymentSettings d) in
  let plain := if bool_decide (prefix = "") then rel
               else prefix +:+ "/" +:+ rel in
  let key := aws.Key (aws.putObjectInput d f rel) in
  key = strings_pkg.ReplaceAll1 plain strings_pkg.backslash strings_pkg.slash
  ∧ strings_pkg.contains strings_pkg.backslash key = false
  ∧ (strings_pkg.contains strings_pkg.backslash plain = false → key = plain)
  ∧ aws.attempts (aws.uploadFile d f rel w).1
      = aws.attempts w ++ [aws.putObjectInput d f rel]
  ∧ aws.Key (aws.putObjectInput (sample.deployment "assets") f "img/a.png")
      = "assets/img/a.png"
  ∧ aws.Key (aws.putObjectInput (sample.deployment "assets") f "img\a.png")
      = "assets/img/a.png"
  ∧ aws.Key (aws.putObjectInput (sample.deployment "") f "img/a.png")
      = "img/a.png"
  ∧ aws.Key (aws.putObjectInput (sample.deployment "") f "img\a.png")
      = "img/a.png".
Proof.
  intros prefix plain key.
  assert (Hkey : key = strings_pkg.ReplaceAll1 plain
                         strings_pkg.backslash strings_pkg.slash).
  { subst key plain prefix. unfold aws.putObjectInput. simpl.
    by destruct (bool_decide _). }
  split; [exact Hkey|]. split.
  { rewrite Hkey. by apply ReplaceAll1_removes. }
  split.
  { intros Hplain. rewrite Hkey. by apply ReplaceAll1_absent. }
  split.
  { unfold aws.uploadFile. by destruct (aws.Upload _ _). }
  repeat split; reflexivity.
Qed.

Lemma typeByExtension_is_spec_table :
  aws.typeByExtension = list_to_map spec_content_types.
Proof. reflexivity. Qed.

Lemma spec_content_types_NoDup : NoDup spec_content_types.*1.
Proof. apply (bool_decide_unpack _). by vm_compute. Qed.

Lemma typeByExtension_lookup ext ct :
  (ext, ct) ∈ spec_content_types → aws.typeByExtension !! ext = Some ct.
Proof.
  intros Hin. rewrite typeByExtension_is_spec_table.
  apply elem_of_list_to_map_1; [apply spec_content_types_NoDup | exact Hin].
Qed.

(** Every extension of the table is a dot followed by text with neither
    a dot nor a slash in it. *)
Lemma spec_content_types_shape ext ct :
  (ext, ct) ∈ spec_content_types →
  ∃ e, ext = String strings_pkg.dot e
       ∧ strings_pkg.contains strings_pkg.slash e = false
       ∧ strings_pkg.contains strings_pkg.dot e = false.
Proof.
  unfold spec_content_types. intros Hin.
  repeat (apply elem_of_cons in Hin as [[= -> ->]|Hin];
          [eexists; split; [reflexivity | by split] |]).
  by apply elem_of_nil in Hin.
Qed.

(** C8.  The content type of a file name is the one the table of the
    specification lists for its extension, and the generic binary type
    when the extension is not in the table.  A name made of any text
    followed by a table extension has that extension, hence its listed
    type; ".unknown" gets the generic binary type. *)
Theorem getFileContentType_table (fileName : string) :
  (∀ ext ct, (ext, ct) ∈ spec_content_types →
     path.Ext fileName = ext → aws.getFileContentType fileName = ct)
  ∧ (path.Ext fileName ∉ spec_content_types.*1 →
     aws.getFileContentType fileName = generic_binary)
  ∧ (∀ ext ct, (ext, ct) ∈ spec_content_types →
     aws.getFileContentType (fileName +:+ ext) = ct)
  ∧ aws.getFileContentType "x.unknown" = generic_binary.
Proof.
  assert (Hhit : ∀ name ext ct, (ext, ct) ∈ spec_content_types →
            path.Ext name = ext → aws.getFileContentType name = ct).
  { intros name ext ct Hin Hext. unfold aws.getFileContentType.
    by rewrite Hext, (typeByExtension_lookup ext ct Hin). }
  split; [apply Hhit|]. split.
  { intros Hout. unfold aws.getFileContentType.
    rewrite typeByExtension_is_spec_table.
    by rewrite (not_elem_of_list_to_map_1 _ _ Hout). }
  split; [|reflexivity].
  intros ext ct Hin. apply (Hhit _ ext ct Hin).
  destruct (spec_content_types_shape ext ct Hin) as (e & -> & Hs & Hd).
  by apply Ext_suffix.
Qed.

Lemma getFileContentType_table_witness :
  aws.getFileContentType "/site/public/img/a.png" = "image/png"
  ∧ aws.getFileContentType "/site/public/README" = generic_binary.
Proof.
  split.
  - destruct (getFileContentType_table "/site/public/img/a.png") as (Hin & _).
    apply (Hin ".png"); [|reflexivity].
    apply (bool_decide_unpack _). by vm_compute.
  - destruct (getFileContentType_table "/site/public/README") as (_ & Hout & _).
    apply Hout. apply (bool_decide_unpack _). by vm_compute.
Defined.

(* ===================================================================== *)
(** ** The deployment pipeline                                            *)
(* ===================================================================== *)

Section DeployFacts.
Context {U : Type} `{!aws.Uploader U}.

Lemma Open_name disk p f : aws.Open disk p = inl f → aws.Name f = p.
Proof.
  unfold aws.Open. destruct (bool_decide _); [done|].
  destruct (os.nodes disk !! p); [|done]. by intros [= <-].
Qed.

(** A pass that reports no error has uploaded the file. *)
Lemma deployOne_ok d p w w' :
  aws.deployOne d p w = (w', None) →
  ∃ i, aws.fileName i = p
       ∧ aws.attempts w' = aws.attempts w ++ [i]
       ∧ aws.s3 w' = (aws.Upload i (aws.s3 w)).1
       ∧ aws.disk w' = aws.disk w
       ∧ aws.configFault w' = aws.configFault w.
Proof.
  unfold aws.deployOne.
  destruct (path.Rel _ _) as [rel [e|]]; [done|].
  destruct (aws.Open _ _) as [f|e] eqn:Hopen; [|done].
  unfold aws.uploadFile.
  destruct (aws.Upload _ _) as [u e] eqn:Hup. intros [= <- ->].
  eexists. cbn. split_and!; [|reflexivity|by rewrite Hup|reflexivity..].
  unfold aws.fileName, aws.putObjectInput. cbn. by apply Open_name in Hopen.
Qed.

(** A loop that ends without error has received every path and handed
    exactly those files to the uploader, in order. *)
Lemma rangeWalker_ok d paths : ∀ w w' n,
  aws.rangeWalker d paths w = (w', None, n) →
  n = length paths
  ∧ aws.disk w' = aws.disk w
  ∧ aws.configFault w' = aws.configFault w
  ∧ ∃ reqs, aws.attempts w' = aws.attempts w ++ reqs
            ∧ aws.fileName <$> reqs = paths
            ∧ aws.s3 w' = aws.uploaded reqs (aws.s3 w).
Proof.
  induction paths as [|p rest IH]; intros w w' n; cbn.
  - intros [= <- <-]. split_and!; try done. exists []. by rewrite app_nil_r.
  - destruct (aws.deployOne d p w) as [w1 [e|]] eqn:Hone; [done|].
    destruct (aws.rangeWalker d rest w1) as [[w2 err] m] eqn:Hrest.
    intros [= <- -> <-].
    destruct (IH _ _ _ Hrest) as (-> & Hd & Hc & reqs & Ha & Hn & Hs).
    destruct (deployOne_ok _ _ _ _ Hone) as (i & Hi & Hai & Hsi & Hdi & Hci).
    split_and!; [done|congruence..|].
    exists (i :: reqs). split_and!.
    + by rewrite Ha, Hai, <- app_assoc.
    + cbn. by rewrite Hi, Hn.
    + cbn. by rewrite Hs, Hsi.
Qed.

Lemma rangeWalker_app d pre : ∀ rest w w1 n,
  aws.rangeWalker d pre w = (w1, None, n) →
  aws.rangeWalker d (pre ++ rest) w
  = let '(w2, err, m) := aws.rangeWalker d rest w1 in (w2, err, n + m).
Proof.
  induction pre as [|p pre IH]; intros rest w w1 n; cbn.
  - intros [= <- <-]. by destruct (aws.rangeWalker d rest w) as [[??]?].
  - destruct (aws.deployOne d p w) as [w' [e|]]; [done|].
    destruct (aws.rangeWalker d pre w') as [[w2 err] m] eqn:Hpre.
    intros [= <- -> <-]. rewrite (IH rest _ _ _ Hpre).
    by destruct (aws.rangeWalker d rest w2) as [[??]?].
Qed.

(** When the traversal fails and every file it had sent was uploaded,
    [Deploy] does not return: the goroutine panics with the error. *)
Lemma walk_error_panics d visits w w' n e :
  aws.walkErr (aws.filepath_Walk aws.Walk visits) = Some e →
  aws.configFault w = None →
  aws.rangeWalker d (aws.sent (aws.filepath_Walk aws.Walk visits)) w
    = (w', None, n) →
  aws.Deploy d visits w = (w', Panicked (aws.errorText e)).
Proof.
  intros He Hc Hr. unfold aws.Deploy, aws.retrieveFiles. rewrite Hc, Hr.
  destruct (rangeWalker_ok _ _ _ _ _ Hr) as (-> & _).
  unfold aws.goroutine. rewrite He.
  rewrite bool_decide_eq_false_2; [done|lia].
Qed.

End DeployFacts.

(** C2 (the code departs from the claim).  When the traversal reports an
    error on the root of the build output directory, [Deploy] does not
    return that error to its caller: the goroutine started by
    [retrieveFiles] panics with it, whatever is returned is never the
    traversal's error, and no upload has been attempted. *)
Theorem walk_error_is_a_panic_not_a_returned_error :
  let d := sample.deployment "" in
  let w := sample.cloud ∅ in
  aws.retrieveFiles d sample.brokenVisits
    = (aws.mkWalk [] (Some sample.lstatFailure), None)
  ∧ aws.Deploy d sample.brokenVisits w
    = (w, Panicked (aws.errorText sample.lstatFailure))
  ∧ ∀ w' r, aws.Deploy d sample.brokenVisits w ≠ (w', Returned r).
Proof.
  intros d w.
  assert (Hd : aws.Deploy d sample.brokenVisits w
               = (w, Panicked (aws.errorText sample.lstatFailure))).
  { by apply (walk_error_panics d sample.brokenVisits w w 0). }
  split; [reflexivity|]. split; [exact Hd|].
  intros w' r. rewrite Hd. discriminate.
Qed.

(** C9.  Let the walk send the files [pre], then [p], then [post], the
    traversal itself reporting no error (or [post] not being empty).  If
    every file of [pre] is uploaded and the upload of [p] fails with [e],
    then [Deploy] returns [e]; the files handed to the uploader are those
    of [pre] followed by [p] and no other, so none of [post]; and the
    store is the one those uploads left, nothing having been undone. *)
Theorem Deploy_stops_at_first_failed_upload {U} `{!aws.Uploader U}
    (d : aws.Deployment) (visits : list aws.visit) (w w1 : aws.World)
    (pre post : list string) (p rel : string) (f : aws.file) (n : nat)
    (e : error) :
  aws.sent (aws.filepath_Walk aws.Walk visits) = pre ++ p :: post →
  aws.walkErr (aws.filepath_Walk aws.Walk visits) = None ∨ post ≠ [] →
  aws.configFault w = None →
  aws.rangeWalker d pre w = (w1, None, n) →
  path.Rel (aws.publicPath d) p = (rel, None) →
  aws.Open (aws.disk w1) p = inl f →
  (aws.Upload (aws.putObjectInput d f rel) (aws.s3 w1)).2 = Some e →
  ∃ w' reqs,
    aws.Deploy d visits w = (w', Returned (Some e))
    ∧ aws.attempts w' = aws.attempts w ++ reqs
    ∧ aws.fileName <$> reqs = pre ++ [p]
    ∧ length reqs = S (length pre)
    ∧ aws.s3 w' = aws.uploaded reqs (aws.s3 w).
Proof.
  intros Hsent Hwalk Hcfg Hpre Hrel Hopen Hup.
  destruct (rangeWalker_ok _ _ _ _ _ Hpre) as (-> & Hd & Hc & reqs & Ha & Hn & Hs).
  set (i := aws.putObjectInput d f rel) in *.
  destruct (aws.Upload i (aws.s3 w1)) as [u2 e'] eqn:Hu. cbn in Hup. subst e'.
  assert (Hone : aws.deployOne d p w1
                 = (aws.mkWorld (aws.disk w1) u2 (aws.attempts w1 ++ [i])
                                (aws.configFault w1), Some e)).
  { unfold aws.deployOne. rewrite Hrel, Hopen. unfold aws.uploadFile.
    fold i. by rewrite Hu. }
  eexists _, (reqs ++ [i]). split_and!.
  - unfold aws.Deploy, aws.retrieveFiles. rewrite Hcfg, Hsent.
    rewrite (rangeWalker_app d pre (p :: post) w w1 _ Hpre).
    cbn [aws.rangeWalker]. rewrite Hone.
    unfold aws.goroutine. rewrite Hsent.
    destruct Hwalk as [-> | Hpost].
    + by destruct (bool_decide _).
    + rewrite bool_decide_eq_true_2; [done|].
      rewrite length_app. cbn. destruct post; [done|cbn; lia].
  - cbn. by rewrite Ha, <- app_assoc.
  - rewrite fmap_app, Hn. cbn. f_equal. f_equal.
    subst i. unfold aws.fileName, aws.putObjectInput. cbn.
    by apply Open_name in Hopen.
  - rewrite length_app, <- Hn, length_fmap. cbn. lia.
  - cbn. unfold aws.uploaded. rewrite fold_left_app. cbn.
    fold (aws.uploaded reqs (aws.s3 w)). by rewrite <- Hs, Hu.
Qed.

Lemma Deploy_stops_at_first_failed_upload_witness :
  ∃ w' reqs,
    aws.Deploy (sample.deployment "") sample.publicVisits
               (sample.cloud {[ "index.html" ]})
      = (w', Returned (Some (UploadError "upload failed: index.html")))
    ∧ aws.attempts w' = [] ++ reqs
    ∧ aws.fileName <$> reqs
      = ["/site/public/img/a.png"] ++ ["/site/public/index.html"]
    ∧ length reqs = 2
    ∧ aws.s3 w' = aws.uploaded reqs (aws.mkBucket ∅ {[ "index.html" ]}).
Proof.
  apply (Deploy_stops_at_first_failed_upload
           (sample.deployment "") sample.publicVisits
           (sample.cloud {[ "index.html" ]})
           (aws.rangeWalker (sample.deployment "") ["/site/public/img/a.png"]
              (sample.cloud {[ "index.html" ]})).1.1
           ["/site/public/img/a.png"] ["/site/public/style.css"]
           "/site/public/index.html" "index.html"
           (aws.mkFile "/site/public/index.html" (os.File "<html>")) 1
           (UploadError "upload failed: index.html"));
    first [ reflexivity | left; reflexivity ].
Defined.

(* ===================================================================== *)
(** ** The entry synchroniser                                             *)
(* ===================================================================== *)

Section SyncFacts.
Context {R : Type} `{!Registry.Service R}.
Variable Template : Type.
Variable parseTemplate : string → option Template.
Variable execute : Template → gmap string value → string * option error.
Variable CreateSlug : string → string.

Abbreviation CreateEntry :=
  (hugo.CreateEntry Template parseTemplate execute CreateSlug).
Abbreviation UpdateEntry :=
  (hugo.UpdateEntry Template parseTemplate execute CreateSlug).
Abbreviation render := (hugo.render Template parseTemplate execute).
Abbreviation World := (@hugo.World R).

Lemma getModel_unknown (s : hugo.Site) (name : string) :
  hugo.CollectionTypes s !! name = None →
  hugo.SingleTypes s !! name = None →
  hugo.getModel s name = (None, true).
Proof. intros Hc Hs. unfold hugo.getModel. by rewrite Hc, Hs. Qed.

(** With a model name that neither group of the configuration holds,
    both operations dereference the nil pointer [getModel] returned:
    they panic, and nothing has been touched. *)
Lemma unknown_model_panics (s : hugo.Site) (payload : hugo.Payload)
    (name : string) (w : hugo.World) :
  hugo.Metadata payload !! "model" = Some (VString name) →
  hugo.CollectionTypes s !! name = None →
  hugo.SingleTypes s !! name = None →
  CreateEntry s payload w = (w, Panicked nil_deref)
  ∧ UpdateEntry s payload w = (w, Panicked nil_deref).
Proof.
  intros Hm Hc Hs. unfold hugo.CreateEntry, hugo.UpdateEntry. run.
  rewrite Hm. cbn. by rewrite (getModel_unknown s name Hc Hs).
Qed.

Lemma fileExists_stored f p n :
  os.nodes f !! p = Some n → hugo.fileExists f p = true.
Proof.
  intros Hn. unfold hugo.fileExists, os.Stat.
  destruct (bool_decide _); [done|]. by rewrite Hn.
Qed.

Lemma Mkdir_ok dir f f' :
  os.Mkdir dir f = (f', None) →
  os.nodes f !! dir = None
  ∧ os.nodes f' = <[dir := os.Directory]> (os.nodes f)
  ∧ os.noaccess f' = os.noaccess f
  ∧ os.syslog f' = os.syslog f ++ [os.SysMkdir dir].
Proof.
  unfold os.Mkdir. cbn. case_bool_decide; [done|].
  destruct (os.nodes f !! dir); [done|].
  destruct (os.parentErr _ _); [done|]. by intros [= <-].
Qed.

Lemma ensureDir_ok dir (w w1 : World) :
  hugo.ensureDir dir w = (w1, Returned None) →
  hugo.registry w1 = hugo.registry w
  ∧ os.noaccess (hugo.fs w1) = os.noaccess (hugo.fs w)
  ∧ hugo.fileExists (hugo.fs w1) dir = true
  ∧ (w1 = w
     ∨ os.nodes (hugo.fs w) !! dir = None
       ∧ os.nodes (hugo.fs w1) = <[dir := os.Directory]> (os.nodes (hugo.fs w))
       ∧ os.syslog (hugo.fs w1) = os.syslog (hugo.fs w) ++ [os.SysMkdir dir]).
Proof.
  unfold hugo.ensureDir. run.
  destruct (hugo.fileExists (hugo.fs w) dir) eqn:Hex; cbn.
  - intros [= <-]. split_and!; try done. by left.
  - destruct (os.Mkdir dir (hugo.fs w)) as [f' e] eqn:Hmk. intros [= <- ->].
    destruct (Mkdir_ok _ _ _ Hmk) as (Hn & Hi & Ha & Hl). cbn.
    split_and!; try done.
    + apply (fileExists_stored _ _ os.Directory). rewrite Hi. apply lookup_insert_eq.
    + by right.
Qed.

Lemma Create_ok p f f' :
  os.Create p f = (f', None) →
  os.nodes f' = <[p := os.File ""]> (os.nodes f)
  ∧ os.noaccess f' = os.noaccess f
  ∧ os.syslog f' = os.syslog f ++ [os.SysCreate p].
Proof.
  unfold os.Create. cbn. case_bool_decide; [done|].
  destruct (os.nodes f !! p) as [[]|]; try done;
    (destruct (os.parentErr _ _); [done|]); by intros [= <-].
Qed.

(** A rendering that reports no error has parsed the archetype, created
    the output file and written the executed template into it. *)
Lemma render_ok archetypePath outputPath payload (w w' : World) :
  render archetypePath outputPath payload w = (w', Returned None) →
  ∃ tmpl out,
    hugo.ParseFiles Template parseTemplate (hugo.fs w) archetypePath = inl tmpl
    ∧ execute tmpl (hugo.Entry payload) = (out, None)
    ∧ os.nodes (hugo.fs w')
      = <[outputPath := os.File out]>
          (<[outputPath := os.File ""]> (os.nodes (hugo.fs w)))
    ∧ os.noaccess (hugo.fs w') = os.noaccess (hugo.fs w)
    ∧ os.syslog (hugo.fs w')
      = os.syslog (hugo.fs w) ++ [os.SysCreate outputPath; os.SysWrite outputPath]
    ∧ hugo.registry w' = hugo.registry w.
Proof.
  unfold hugo.render. run.
  destruct (hugo.ParseFiles _ _ _ _) as [tmpl|e]; [|done]. cbn.
  destruct (os.Create outputPath (hugo.fs w)) as [f1 [e|]] eqn:Hc; [done|]. cbn.
  destruct (execute tmpl (hugo.Entry payload)) as [out xerr] eqn:Hx. cbn.
  intros [= <- ->]. exists tmpl, out.
  destruct (Create_ok _ _ _ Hc) as (Hn & Ha & Hl). cbn.
  split_and!; try done.
  - by rewrite Hn.
  - by rewrite Hl, <- app_assoc.
Qed.

(** C3.  Take a call of [CreateEntry] that got as far as rendering the
    archetype into the output file: the model is known, its archetype
    exists, the output directory is there (or was made), the output path
    was free, and the rendering reported no error.  If registering the
    entry then fails (the write is refused, or the flush fails), the call
    returns the output path together with that error, and the file it
    wrote is still on the disk: nothing is undone. *)
Theorem CreateEntry_returns_path_when_registry_fails
    (s : hugo.Site) (payload : hugo.Payload) (w w1 w2 : World)
    (modelName : string) (model : hugo.Model) (single : bool) (id : Z)
    (r' : R) (e : error) :
  let archetypePath := hugo.absolute s (hugo.ArchetypePath model) in
  let outputDir := hugo.absolute s (hugo.OutputDir model) in
  let outputPath :=
    path.Join [outputDir; CreateSlug (hugo.titleOf payload) +:+ ".html"] in
  let entryId := modelName +:+ "-" +:+ strings_pkg.fmt_d id in
  hugo.Metadata payload !! "model" = Some (VString modelName) →
  hugo.Entry payload !! "id" = Some (VInt id) →
  hugo.getModel s modelName = (Some model, single) →
  hugo.fileExists (hugo.fs w) archetypePath = true →
  hugo.ensureDir outputDir w = (w1, Returned None) →
  hugo.fileExists (hugo.fs w1) outputPath = false →
  render archetypePath outputPath payload w1 = (w2, Returned None) →
  hugo.registration_fails (Registry.CreateEntry entryId outputPath)
    (hugo.registry w2) r' e →
  CreateEntry s payload w
    = (hugo.mkWorld (hugo.fs w2) r', Returned (outputPath, Some e))
  ∧ ∃ out, os.nodes (hugo.fs w2) !! outputPath = Some (os.File out).
Proof.
  intros archetypePath outputDir outputPath entryId Hm Hi Hg Ha Hd Hfree Hr Hreg.
  split.
  - unfold hugo.CreateEntry. run. rewrite Hm. cbn. rewrite Hg. cbn.
    fold archetypePath outputDir. rewrite Ha. cbn.
    rewrite Hd. cbn. fold outputPath. rewrite Hfree. cbn. rewrite Hr. cbn.
    unfold hugo.EntryId. rewrite Hm, Hi. cbn. fold entryId.
    destruct Hreg as [Hw | (r1 & Hw & Hf)].
    + by rewrite Hw.
    + rewrite Hw. cbn. by rewrite Hf.
  - destruct (render_ok _ _ _ _ _ Hr) as (tmpl & out & _ & _ & Hn & _).
    exists out. rewrite Hn. apply lookup_insert_eq.
Qed.

Lemma extends_refl f : hugo.extends f f.
Proof. by split. Qed.

Lemma extends_trans f g h : hugo.extends f g → hugo.extends g h → hugo.extends f h.
Proof. intros [Ha Hn] [Ha' Hn']. split; [congruence | auto]. Qed.

Lemma extends_insert f f' q n :
  os.noaccess f' = os.noaccess f →
  os.nodes f' = <[q := n]> (os.nodes f) → hugo.extends f f'.
Proof.
  intros Ha Hn. split; [done|]. intros p Hp. rewrite Hn.
  destruct (decide (q = p)) as [->|Hne].
  - rewrite lookup_insert_eq. by eexists.
  - by rewrite lookup_insert_ne.
Qed.

Lemma fileExists_extends f f' p :
  hugo.extends f f' → hugo.fileExists f p = true → hugo.fileExists f' p = true.
Proof.
  intros [Ha Hn]. unfold hugo.fileExists, os.Stat. rewrite Ha.
  case_bool_decide; [done|].
  destruct (os.nodes f !! p) as [n|] eqn:Hp; [|done]. intros _.
  by destruct (Hn p (mk_is_Some _ _ Hp)) as [n' ->].
Qed.

Lemma ensureDir_extends dir (w w1 : World) :
  hugo.ensureDir dir w = (w1, Returned None) →
  hugo.extends (hugo.fs w) (hugo.fs w1).
Proof.
  intros (_ & Ha & _ & [-> | (_ & Hn & _)])%ensureDir_ok.
  - apply extends_refl.
  - by eapply extends_insert.
Qed.

(** Preparing the directory neither writes nor removes a regular file. *)
Lemma ensureDir_files dir (w w1 : World) :
  hugo.ensureDir dir w = (w1, Returned None) →
  ∀ q n, os.nodes (hugo.fs w) !! q = Some n →
         os.nodes (hugo.fs w1) !! q = Some n.
Proof.
  intros (_ & _ & _ & [-> | (Hd & Hn & _)])%ensureDir_ok q n Hq; [done|].
  rewrite Hn, lookup_insert_ne; [done|]. intros ->. congruence.
Qed.

Lemma ensureDir_files_back dir (w w1 : World) :
  hugo.ensureDir dir w = (w1, Returned None) →
  ∀ q c, os.nodes (hugo.fs w1) !! q = Some (os.File c) →
         os.nodes (hugo.fs w) !! q = Some (os.File c).
Proof.
  intros (_ & _ & _ & [-> | (Hd & Hn & _)])%ensureDir_ok q c; [done|].
  rewrite Hn. destruct (decide (dir = q)) as [->|Hne].
  - by rewrite lookup_insert_eq.
  - by rewrite lookup_insert_ne.
Qed.

Lemma ensureDir_again dir (w : World) :
  hugo.fileExists (hugo.fs w) dir = true →
  hugo.ensureDir dir w = (w, Returned None).
Proof. intros Hex. unfold hugo.ensureDir. run. by rewrite Hex. Qed.

Lemma render_extends archetypePath outputPath payload (w w' : World) :
  render archetypePath outputPath payload w = (w', Returned None) →
  hugo.extends (hugo.fs w) (hugo.fs w')
  ∧ hugo.fileExists (hugo.fs w') outputPath = true.
Proof.
  intros (tmpl & out & _ & _ & Hn & Ha & _)%render_ok. split.
  - split; [done|]. intros q Hq. rewrite Hn.
    destruct (decide (outputPath = q)) as [->|Hne].
    + rewrite lookup_insert_eq. by eexists.
    + by rewrite !lookup_insert_ne.
  - apply (fileExists_stored _ _ (os.File out)). rewrite Hn.
    apply lookup_insert_eq.
Qed.

(** The steps a call of [CreateEntry] that reports success went through. *)
Lemma CreateEntry_success_inv (s : hugo.Site) (payload : hugo.Payload)
    (w w' : World) (p : string) :
  CreateEntry s payload w = (w', Returned (p, None)) →
  ∃ modelName model single w1 w2,
    hugo.Metadata payload !! "model" = Some (VString modelName)
    ∧ hugo.getModel s modelName = (Some model, single)
    ∧ hugo.fileExists (hugo.fs w)
        (hugo.absolute s (hugo.ArchetypePath model)) = true
    ∧ hugo.ensureDir (hugo.absolute s (hugo.OutputDir model)) w
      = (w1, Returned None)
    ∧ p = path.Join [hugo.absolute s (hugo.OutputDir model);
                     CreateSlug (hugo.titleOf payload) +:+ ".html"]
    ∧ hugo.fileExists (hugo.fs w1) p = false
    ∧ render (hugo.absolute s (hugo.ArchetypePath model)) p payload w1
      = (w2, Returned None)
    ∧ hugo.fs w' = hugo.fs w2.
Proof.
  unfold hugo.CreateEntry. run.
  destruct (hugo.Metadata payload !! "model") as [[| modelName | | |]|] eqn:Hm;
    cbn; try done.
  destruct (hugo.getModel s modelName) as [[model|] single] eqn:Hg; cbn;
    [|done].
  destruct (hugo.fileExists (hugo.fs w) _) eqn:Ha; cbn; [|done].
  destruct (hugo.ensureDir _ w) as [w1 [[e|]|msg]] eqn:Hd; cbn; try done.
  destruct (hugo.fileExists (hugo.fs w1) _) eqn:Hfree; cbn; [done|].
  destruct (hugo.render _ _ _ _ _ _ w1) as [w2 [[e|]|msg]] eqn:Hr; cbn;
    try done.
  destruct (hugo.EntryId payload) as [entryId|msg]; cbn; [|done].
  destruct (Registry.CreateEntry _ _ _) as [r1 [e|]]; cbn; [done|].
  destruct (Registry.Flush r1) as [r2 [e|]]; cbn; [done|].
  intros [= <- <-]. by exists modelName, model, single, w1, w2.
Qed.

(** C5.  When something is already stored under the output path computed
    by [CreateEntry], the call fails with the error "output file ...
    already exists" (code [ErrInvalid], the specification's conflict
    error); what was stored there is still there, no regular file has
    been written or removed, and the registry is as it was.  In
    particular, after a call that succeeded, the same call fails in this
    way and changes nothing. *)
Theorem CreateEntry_never_overwrites
    (s : hugo.Site) (payload : hugo.Payload) (w w1 w' : World)
    (modelName : string) (model : hugo.Model) (single : bool)
    (n : os.node) (p : string) :
  let archetypePath := hugo.absolute s (hugo.ArchetypePath model) in
  let outputDir := hugo.absolute s (hugo.OutputDir model) in
  let outputPath :=
    path.Join [outputDir; CreateSlug (hugo.titleOf payload) +:+ ".html"] in
  (hugo.Metadata payload !! "model" = Some (VString modelName) →
   hugo.getModel s modelName = (Some model, single) →
   hugo.fileExists (hugo.fs w) archetypePath = true →
   hugo.ensureDir outputDir w = (w1, Returned None) →
   os.nodes (hugo.fs w) !! outputPath = Some n →
   CreateEntry s payload w
     = (w1, Returned ("", Some (hugo.outputTaken outputPath)))
   ∧ os.nodes (hugo.fs w1) !! outputPath = Some n
   ∧ (∀ q c, os.nodes (hugo.fs w1) !! q = Some (os.File c)
             ↔ os.nodes (hugo.fs w) !! q = Some (os.File c))
   ∧ hugo.registry w1 = hugo.registry w)
  ∧ (CreateEntry s payload w = (w', Returned (p, None)) →
     CreateEntry s payload w'
       = (w', Returned ("", Some (hugo.outputTaken p)))).
Proof.
  intros archetypePath outputDir outputPath. split.
  - intros Hm Hg Ha Hd Hn.
    assert (Hn1 := ensureDir_files _ _ _ Hd _ _ Hn).
    split_and!.
    + unfold hugo.CreateEntry. run. rewrite Hm. cbn. rewrite Hg. cbn.
      fold archetypePath outputDir. rewrite Ha. cbn. rewrite Hd. cbn.
      fold outputPath. by rewrite (fileExists_stored _ _ _ Hn1).
    + exact Hn1.
    + intros q c. split;
        [apply (ensureDir_files_back _ _ _ Hd) | apply (ensureDir_files _ _ _ Hd)].
    + by apply ensureDir_ok in Hd as (? & _).
  - intros Hok.
    destruct (CreateEntry_success_inv _ _ _ _ _ Hok)
      as (name & m & sg & v1 & v2 & Hm & Hg & Ha & Hd & Hp & Hfree & Hr & Hfs).
    destruct (render_extends _ _ _ _ _ Hr) as [Hext2 Hthere].
    assert (Hext : hugo.extends (hugo.fs w) (hugo.fs w')).
    { rewrite Hfs. eapply extends_trans; [by eapply ensureDir_extends|done]. }
    unfold hugo.CreateEntry. run. rewrite Hm. cbn. rewrite Hg. cbn.
    rewrite (fileExists_extends _ _ _ Hext Ha). cbn.
    rewrite ensureDir_again; cycle 1.
    { apply ensureDir_ok in Hd as (_ & _ & Hdir & _).
      rewrite Hfs. by eapply fileExists_extends. }
    cbn. rewrite <- Hp. by rewrite Hfs, Hthere.
Qed.

(** C4.  Take a call of [UpdateEntry] for a known model whose archetype
    exists, with the directory of the registered old path in place.  If
    the recomputed output path is stored on the disk and its file name
    differs from the old path's, the call fails with the error "output
    file ... already exists" (code [ErrInvalid], the specification's
    conflict error); no regular file has been written or removed and the
    registry is as it was.  If the two file names are equal the check
    lets the call through, and when the rendering succeeds the file under
    the output path holds the newly rendered text, whatever it held
    before, and the output path is returned.  That file is the old one:
    when the old path is a path made of names and the slug has no slash,
    equal file names make the output path the old path itself. *)
Theorem UpdateEntry_collision_policy
    (s : hugo.Site) (payload : hugo.Payload) (w w1 : World)
    (modelName : string) (model : hugo.Model) (single : bool) (id : Z) :
  let archetypePath := hugo.absolute s (hugo.ArchetypePath model) in
  let entryId := modelName +:+ "-" +:+ strings_pkg.fmt_d id in
  let oldPath := (Registry.ReadEntry entryId (hugo.registry w)).1 in
  let outputDir := path.Dir oldPath in
  let outputPath :=
    path.Join [outputDir; CreateSlug (hugo.titleOf payload) +:+ ".html"] in
  let w2 := if hugo.fileExists (hugo.fs w1) oldPath
            then hugo.mkWorld (os.Remove oldPath (hugo.fs w1)).1 (hugo.registry w1)
            else w1 in
  hugo.Metadata payload !! "model" = Some (VString modelName) →
  hugo.Entry payload !! "id" = Some (VInt id) →
  hugo.getModel s modelName = (Some model, single) →
  hugo.fileExists (hugo.fs w) archetypePath = true →
  hugo.ensureDir outputDir w = (w1, Returned None) →
  (∀ n, os.nodes (hugo.fs w) !! outputPath = Some n →
        path.Base outputPath ≠ path.Base oldPath →
        UpdateEntry s payload w
          = (w1, Returned ("", Some (hugo.outputTaken outputPath)))
        ∧ (∀ q c, os.nodes (hugo.fs w1) !! q = Some (os.File c)
                  ↔ os.nodes (hugo.fs w) !! q = Some (os.File c))
        ∧ hugo.registry w1 = hugo.registry w)
  ∧ (∀ w3, path.Base outputPath = path.Base oldPath →
        render archetypePath outputPath payload w2 = (w3, Returned None) →
        ∃ r' err out,
          UpdateEntry s payload w
            = (hugo.mkWorld (hugo.fs w3) r', Returned (outputPath, err))
          ∧ os.nodes (hugo.fs w3) !! outputPath = Some (os.File out)
          ∧ (∃ tmpl, execute tmpl (hugo.Entry payload) = (out, None))
          ∧ (err = None
             ∨ ∃ e, err = Some e
                    ∧ hugo.registration_fails
                        (Registry.UpdateEntry entryId outputPath)
                        (hugo.registry w3) r' e))
  ∧ (∀ rooted ds name,
        oldPath = path.ofElems rooted (ds ++ [name]) →
        Forall path.properName (ds ++ [name]) →
        strings_pkg.contains strings_pkg.slash
          (CreateSlug (hugo.titleOf payload)) = false →
        path.Base outputPath = path.Base oldPath →
        outputPath = oldPath).
Proof.
  intros archetypePath entryId oldPath outputDir outputPath w2 Hm Hi Hg Ha Hd.
  assert (Hsamefile : ∀ rooted ds name,
        oldPath = path.ofElems rooted (ds ++ [name]) →
        Forall path.properName (ds ++ [name]) →
        strings_pkg.contains strings_pkg.slash
          (CreateSlug (hugo.titleOf payload)) = false →
        path.Base outputPath = path.Base oldPath →
        outputPath = oldPath).
  { intros rooted ds name Hold [Hds Hname]%Forall_app Hslug.
    apply (proj1 (Forall_singleton _ _)) in Hname.
    subst outputPath outputDir. clearbody oldPath. subst oldPath.
    intros Hbase.
    apply Join_Dir_same_name;
      [exact Hds | exact Hname | by apply html_name_proper | exact Hbase]. }
  refine ((λ H12, conj (proj1 H12) (conj (proj2 H12) Hsamefile)) _).
  clear Hsamefile.
  assert (Hrun :
    hugo.fileExists (hugo.fs w1) outputPath
      && negb (bool_decide (path.Base outputPath = path.Base oldPath)) = true →
    UpdateEntry s payload w
    = (w1, Returned ("", Some (hugo.outputTaken outputPath)))).
  { intros Hc.
    unfold hugo.UpdateEntry. run. rewrite Hm. cbn. rewrite Hg. cbn.
    fold archetypePath. rewrite Ha. cbn.
    unfold hugo.EntryId. rewrite Hm, Hi. cbn. fold entryId.
    destruct (Registry.ReadEntry entryId (hugo.registry w)) as [old rerr] eqn:Ho.
    cbn. subst oldPath. cbn in *. fold outputDir. rewrite Hd. cbn.
    fold outputPath. by rewrite Hc. }
  split.
  - intros n Hn Hdiff.
    assert (Hn1 := ensureDir_files _ _ _ Hd _ _ Hn).
    split_and!.
    + apply Hrun. rewrite (fileExists_stored _ _ _ Hn1).
      by rewrite bool_decide_eq_false_2.
    + intros q c. split;
        [apply (ensureDir_files_back _ _ _ Hd) | apply (ensureDir_files _ _ _ Hd)].
    + by apply ensureDir_ok in Hd as (? & _).
  - intros w3 Hsame Hr.
    destruct (render_ok _ _ _ _ _ Hr) as (tmpl & out & _ & Hx & Hn & _ & _ & Hreg).
    assert (Hgo : ∃ r' err,
      UpdateEntry s payload w
        = (hugo.mkWorld (hugo.fs w3) r', Returned (outputPath, err))
      ∧ (err = None
         ∨ ∃ e, err = Some e
                ∧ hugo.registration_fails
                    (Registry.UpdateEntry entryId outputPath)
                    (hugo.registry w3) r' e)).
    { unfold hugo.UpdateEntry. run. rewrite Hm. cbn. rewrite Hg. cbn.
      fold archetypePath. rewrite Ha. cbn.
      unfold hugo.EntryId. rewrite Hm, Hi. cbn. fold entryId.
      subst w2 outputPath outputDir oldPath.
      destruct (Registry.ReadEntry entryId (hugo.registry w)) as [old rerr].
      cbn in *. rewrite Hd. cbn. rewrite Hsame.
      rewrite bool_decide_eq_true_2, andb_false_r by done.
      destruct (hugo.fileExists (hugo.fs w1) old); cbn.
      - destruct (os.Remove old (hugo.fs w1)) as [f2 rmerr]. cbn in *.
        rewrite Hr. cbn.
        unfold hugo.registration_fails.
        destruct (Registry.UpdateEntry _ _ _) as [r1 [e|]] eqn:Hu; cbn;
          [eexists _, _; split; [reflexivity|right; eauto]|].
        destruct (Registry.Flush r1) as [r2 [e|]] eqn:Hf; cbn;
          eexists _, _; (split; [reflexivity|]); [right|by left].
        exists e. split; [done|]. right. eauto.
      - rewrite Hr. cbn.
        unfold hugo.registration_fails.
        destruct (Registry.UpdateEntry _ _ _) as [r1 [e|]] eqn:Hu; cbn;
          [eexists _, _; split; [reflexivity|right; eauto]|].
        destruct (Registry.Flush r1) as [r2 [e|]] eqn:Hf; cbn;
          eexists _, _; (split; [reflexivity|]); [right|by left].
        exists e. split; [done|]. right. eauto. }
    destruct Hgo as (r' & err & Hu & Herr).
    exists r', err, out. split_and!; [done| |by exists tmpl|done].
    rewrite Hn. apply lookup_insert_eq.
Qed.

Lemma Create_log p f :
  os.syslog (os.Create p f).1 = os.syslog f ++ [os.SysCreate p].
Proof.
  unfold os.Create. cbn. case_bool_decide; [done|].
  destruct (os.nodes f !! p) as [[]|]; try done;
    by destruct (os.parentErr _ _).
Qed.

Lemma Remove_log p f :
  os.syslog (os.Remove p f).1 = os.syslog f ++ [os.SysRemove p].
Proof.
  unfold os.Remove. cbn. case_bool_decide; [done|].
  destruct (os.nodes f !! p) as [[]|]; try done.
  by destruct (os.hasChild _ _).
Qed.

(** Rendering only ever adds to the log of system calls. *)
Lemma render_log archetypePath outputPath payload (w : World) :
  ∃ l, os.syslog (hugo.fs (render archetypePath outputPath payload w).1)
       = os.syslog (hugo.fs w) ++ l
     ∧ hugo.registry (render archetypePath outputPath payload w).1
       = hugo.registry w.
Proof.
  unfold hugo.render. run.
  destruct (hugo.ParseFiles _ _ _ _) as [tmpl|e]; cbn;
    [|exists []; by rewrite app_nil_r].
  pose proof (Create_log outputPath (hugo.fs w)) as Hc.
  destruct (os.Create outputPath (hugo.fs w)) as [f1 [e|]]; cbn in *.
  - by exists [os.SysCreate outputPath].
  - destruct (execute tmpl (hugo.Entry payload)) as [out xerr]. cbn.
    exists [os.SysCreate outputPath; os.SysWrite outputPath].
    by rewrite Hc, <- app_assoc.
Qed.

(** C10.  [fileExists] is true for every path on which [os.Stat] fails
    with an error other than "does not exist".  Hence [CreateEntry]
    reports that the output file already exists for an output path under
    which nothing is stored but which cannot be examined; and
    [UpdateEntry], once past the collision check, calls [os.Remove] on an
    old path under which nothing is stored. *)
Theorem fileExists_true_when_stat_fails_otherwise
    (s : hugo.Site) (payload : hugo.Payload) (w w1 u1 : World)
    (modelName : string) (model : hugo.Model) (single : bool) (id : Z)
    (f : os.FS) (p : string) (e : errno) :
  let archetypePath := hugo.absolute s (hugo.ArchetypePath model) in
  let slugFile := CreateSlug (hugo.titleOf payload) +:+ ".html" in
  let createDir := hugo.absolute s (hugo.OutputDir model) in
  let createPath := path.Join [createDir; slugFile] in
  let entryId := modelName +:+ "-" +:+ strings_pkg.fmt_d id in
  let oldPath := (Registry.ReadEntry entryId (hugo.registry w)).1 in
  let updatePath := path.Join [path.Dir oldPath; slugFile] in
  e ≠ ENOENT →
  hugo.Metadata payload !! "model" = Some (VString modelName) →
  hugo.getModel s modelName = (Some model, single) →
  hugo.fileExists (hugo.fs w) archetypePath = true →
  (os.Stat f p = Some e → hugo.fileExists f p = true)
  ∧ (hugo.ensureDir createDir w = (w1, Returned None) →
     os.Stat (hugo.fs w1) createPath = Some e →
     os.nodes (hugo.fs w1) !! createPath = None →
     CreateEntry s payload w
       = (w1, Returned ("", Some (hugo.outputTaken createPath)))
     ∧ os.nodes (hugo.fs (CreateEntry s payload w).1) !! createPath = None)
  ∧ (hugo.Entry payload !! "id" = Some (VInt id) →
     hugo.ensureDir (path.Dir oldPath) w = (u1, Returned None) →
     os.Stat (hugo.fs u1) oldPath = Some e →
     os.nodes (hugo.fs u1) !! oldPath = None →
     hugo.fileExists (hugo.fs u1) updatePath
       && negb (bool_decide (path.Base updatePath = path.Base oldPath)) = false →
     ∃ l, os.syslog (hugo.fs (UpdateEntry s payload w).1)
          = os.syslog (hugo.fs u1) ++ os.SysRemove oldPath :: l).
Proof.
  intros archetypePath slugFile createDir createPath entryId oldPath updatePath
    He Hm Hg Ha.
  assert (Hstat : ∀ g q, os.Stat g q = Some e → hugo.fileExists g q = true).
  { intros g q Hs. unfold hugo.fileExists. rewrite Hs. by destruct e. }
  split; [apply Hstat|]. split.
  - intros Hd Hs Hnone.
    assert (Hrun : CreateEntry s payload w
              = (w1, Returned ("", Some (hugo.outputTaken createPath)))).
    { unfold hugo.CreateEntry. run. rewrite Hm. cbn.
      rewrite Hg. cbn. fold archetypePath createDir. rewrite Ha. cbn.
      rewrite Hd. cbn. fold slugFile createPath. by rewrite (Hstat _ _ Hs). }
    by rewrite Hrun.
  - intros Hi Hd Hs _ Hfree. unfold hugo.UpdateEntry. run. rewrite Hm. cbn.
    rewrite Hg. cbn. fold archetypePath. rewrite Ha. cbn.
    unfold hugo.EntryId. rewrite Hm, Hi. cbn. fold entryId.
    subst updatePath oldPath.
    destruct (Registry.ReadEntry entryId (hugo.registry w)) as [old rerr].
    cbn in *. rewrite Hd. cbn. fold slugFile. rewrite Hfree.
    rewrite (Hstat _ _ Hs).
    pose proof (Remove_log old (hugo.fs u1)) as Hrm.
    destruct (os.Remove old (hugo.fs u1)) as [f2 rmerr]. cbn in *.
    match goal with |- context [hugo.render ?T ?pt ?ex ?a ?o ?pl ?v] =>
      destruct (render_log a o pl v) as (l & Hl & _);
      destruct (hugo.render T pt ex a o pl v) as [w3 [[err|]|msg]]
    end; cbn in *;
      try (exists l; by rewrite Hl, Hrm, <- app_assoc).
    destruct (Registry.UpdateEntry _ _ _) as [r1 [err|]]; cbn;
      [exists l; by rewrite Hl, Hrm, <- app_assoc|].
    destruct (Registry.Flush r1) as [r2 [err|]]; cbn;
      exists l; by rewrite Hl, Hrm, <- app_assoc.
Qed.

End SyncFacts.

(** C1 (the code departs from the claim).  The model "page" is in neither
    group of the sample configuration.  [CreateEntry] and [UpdateEntry]
    do not return a configuration error for it: they panic on the nil
    model, leaving the world as it was. *)
Theorem unknown_model_is_a_panic_not_a_ConfigError :
  let payload := sample.payloadOf "page" "About" 1 in
  hugo.CollectionTypes sample.blog !! "page" = None
  ∧ hugo.SingleTypes sample.blog !! "page" = None
  ∧ sample.CreateEntry sample.blog payload sample.world0
      = (sample.world0, Panicked nil_deref)
  ∧ sample.UpdateEntry sample.blog payload sample.world0
      = (sample.world0, Panicked nil_deref)
  ∧ ∀ code msg p w,
      sample.CreateEntry sample.blog payload sample.world0
        ≠ (w, Returned (p, Some (MidasError code msg))).
Proof.
  intros payload.
  destruct (unknown_model_panics string sample.parseText sample.executeText
              sample.dashSlug sample.blog payload "page" sample.world0)
    as [Hc Hu]; [reflexivity..|].
  split; [reflexivity|]. split; [reflexivity|].
  split; [exact Hc|]. split; [exact Hu|].
  intros code msg p w. unfold sample.CreateEntry. rewrite Hc. discriminate.
Qed.

(* ===================================================================== *)
(** ** Concrete runs                                                      *)
(* ===================================================================== *)

Lemma CreateEntry_returns_path_when_registry_fails_witness :
  let render w :=
    (hugo.render string sample.parseText sample.executeText
       "/site/archetypes/post.html" sample.helloPath sample.hello w).1 in
  let refusing := hugo.mkWorld sample.disk0 sample.readOnlyRegistry in
  let unflushed := hugo.mkWorld sample.disk0 sample.unflushable in
  (sample.CreateEntry sample.blog sample.hello refusing
     = (hugo.mkWorld (hugo.fs (render refusing)) sample.readOnlyRegistry,
        Returned (sample.helloPath, Some (RegistryError "write refused")))
   ∧ ∃ out, os.nodes (hugo.fs (render refusing)) !! sample.helloPath
            = Some (os.File out))
  ∧ (sample.CreateEntry sample.blog sample.hello unflushed
     = (hugo.mkWorld (hugo.fs (render unflushed))
          (Registry.mkMem {[ "post-5" := sample.helloPath ]} ∅ false true),
        Returned (sample.helloPath, Some (RegistryError "flush failed")))
   ∧ ∃ out, os.nodes (hugo.fs (render unflushed)) !! sample.helloPath
            = Some (os.File out)).
Proof.
  intros render refusing unflushed. split.
  - apply (CreateEntry_returns_path_when_registry_fails
             string sample.parseText sample.executeText sample.dashSlug
             sample.blog sample.hello refusing refusing (render refusing)
             "post" sample.postModel false 5
             sample.readOnlyRegistry (RegistryError "write refused"));
      first [ reflexivity | left; reflexivity ].
  - apply (CreateEntry_returns_path_when_registry_fails
             string sample.parseText sample.executeText sample.dashSlug
             sample.blog sample.hello unflushed unflushed (render unflushed)
             "post" sample.postModel false 5
             (Registry.mkMem {[ "post-5" := sample.helloPath ]} ∅ false true)
             (RegistryError "flush failed"));
      first [ reflexivity | right; eexists; split; reflexivity ].
Defined.

Lemma CreateEntry_never_overwrites_witness :
  sample.CreateEntry sample.blog sample.hello sample.world1
    = (sample.world1,
       Returned ("", Some (hugo.outputTaken sample.helloPath)))
  ∧ os.nodes (hugo.fs sample.world1) !! sample.helloPath
    = Some (os.File "T:Hello World").
Proof.
  split.
  - destruct (CreateEntry_never_overwrites
                string sample.parseText sample.executeText sample.dashSlug
                sample.blog sample.hello sample.world0 sample.world0
                sample.world1 "post" sample.postModel false
                os.Directory sample.helloPath) as [_ Htwice].
    apply Htwice. reflexivity.
  - destruct (CreateEntry_never_overwrites
                string sample.parseText sample.executeText sample.dashSlug
                sample.blog sample.hello sample.world1 sample.world1
                sample.world1 "post" sample.postModel false
                (os.File "T:Hello World") sample.helloPath) as [Htaken _].
    destruct Htaken as (_ & Hkept & _); [reflexivity..|]. exact Hkept.
Defined.

Lemma UpdateEntry_collision_policy_witness :
  (sample.UpdateEntry sample.blog sample.otherRetitled sample.world2
     = (sample.world2,
        Returned ("", Some (hugo.outputTaken sample.helloPath))))
  ∧ (∃ r' err out,
      sample.UpdateEntry sample.blog sample.hello sample.world1
        = (hugo.mkWorld
             (hugo.fs (sample.UpdateEntry sample.blog sample.hello
                         sample.world1).1) r',
           Returned (sample.helloPath, err))
      ∧ os.nodes (hugo.fs (sample.UpdateEntry sample.blog sample.hello
                             sample.world1).1) !! sample.helloPath
        = Some (os.File out))
  ∧ path.Join [path.Dir sample.helloPath;
               sample.dashSlug (hugo.titleOf sample.hello) +:+ ".html"]
    = sample.helloPath.
Proof.
  split_and!.
  - destruct (UpdateEntry_collision_policy
                string sample.parseText sample.executeText sample.dashSlug
                sample.blog sample.otherRetitled sample.world2 sample.world2
                "post" sample.postModel false 6) as (Hclash & _);
      [reflexivity..|].
    destruct (Hclash (os.File "T:Hello World")) as (Hrun & _);
      [reflexivity | by vm_compute |]. exact Hrun.
  - destruct (UpdateEntry_collision_policy
                string sample.parseText sample.executeText sample.dashSlug
                sample.blog sample.hello sample.world1 sample.world1
                "post" sample.postModel false 5) as (_ & Hsame & _);
      [reflexivity..|].
    destruct (Hsame (sample.UpdateEntry sample.blog sample.hello
                       sample.world1).1) as (r' & err & out & Hrun & Hout & _);
      [reflexivity..|].
    exists r', err, out. split; [exact Hrun | exact Hout].
  - destruct (UpdateEntry_collision_policy
                string sample.parseText sample.executeText sample.dashSlug
                sample.blog sample.hello sample.world1 sample.world1
                "post" sample.postModel false 5) as (_ & _ & Hfile);
      [reflexivity..|].
    apply (Hfile true ["site"; "content"; "posts"] "Hello-World.html");
      [reflexivity | | reflexivity..].
    apply (bool_decide_unpack _). by vm_compute.
Defined.

Lemma fileExists_true_when_stat_fails_otherwise_witness :
  hugo.fileExists sample.lockedDisk sample.helloPath = true
  ∧ os.nodes sample.lockedDisk !! sample.helloPath = None
  ∧ sample.CreateEntry sample.blog sample.hello
      (hugo.mkWorld sample.lockedDisk sample.emptyRegistry)
    = (hugo.mkWorld sample.lockedDisk sample.emptyRegistry,
       Returned ("", Some (hugo.outputTaken sample.helloPath)))
  ∧ ∃ l, os.syslog (hugo.fs (sample.UpdateEntry sample.blog sample.hello
                               sample.lockedWorld).1)
         = [] ++ os.SysRemove sample.helloPath :: l.
Proof.
  destruct (fileExists_true_when_stat_fails_otherwise
              string sample.parseText sample.executeText sample.dashSlug
              sample.blog sample.hello
              (hugo.mkWorld sample.lockedDisk sample.emptyRegistry)
              (hugo.mkWorld sample.lockedDisk sample.emptyRegistry)
              sample.lockedWorld "post" sample.postModel false 5
              sample.lockedDisk sample.helloPath EACCES)
    as (Hstat & Hcreate & _); [by vm_compute | reflexivity..|].
  destruct (fileExists_true_when_stat_fails_otherwise
              string sample.parseText sample.executeText sample.dashSlug
              sample.blog sample.hello sample.lockedWorld sample.lockedWorld
              sample.lockedWorld "post" sample.postModel false 5
              sample.lockedDisk sample.helloPath EACCES)
    as (_ & _ & Hupdate); [by vm_compute | reflexivity..|].
  split; [apply Hstat; reflexivity|]. split; [reflexivity|].
  split; [apply Hcreate; reflexivity|].
  apply Hupdate; reflexivity.
Defined.

(* ===================================================================== *)
(** ** More on the entry synchroniser                                     *)
(* ===================================================================== *)

Section MoreSyncFacts.
Context {R : Type} `{!Registry.Service R}.
Variable Template : Type.
Variable parseTemplate : string → option Template.
Variable execute : Template → gmap string value → string * option error.
Variable CreateSlug : string → string.

Abbreviation CreateEntry :=
  (hugo.CreateEntry Template parseTemplate execute CreateSlug).
Abbreviation UpdateEntry :=
  (hugo.UpdateEntry Template parseTemplate execute CreateSlug).
Abbreviation render := (hugo.render Template parseTemplate execute).
Abbreviation World := (@hugo.World R).

Lemma fileExists_absent f p :
  hugo.fileExists f p = false → os.nodes f !! p = None.
Proof.
  unfold hugo.fileExists, os.Stat. case_bool_decide; [done|].
  by destruct (os.nodes f !! p).
Qed.

Lemma keeps_everything_refl f : hugo.keeps_everything f f.
Proof.
  split_and!; [done..|]. exists []. by rewrite app_nil_r.
Qed.

Lemma keeps_everything_trans f g h :
  hugo.keeps_everything f g → hugo.keeps_everything g h →
  hugo.keeps_everything f h.
Proof.
  intros (Ha & Hn & l & Hl & Hsub) (Ha' & Hn' & l' & Hl' & Hsub').
  split_and!; [congruence|auto|].
  exists (l ++ l'). split; [by rewrite Hl', Hl, <- app_assoc|].
  by apply Forall_app.
Qed.

Lemma keeps_everything_logged c f :
  (∀ p, c ≠ os.SysRemove p) → hugo.keeps_everything f (os.logged c f).
Proof.
  intros Hc. split_and!; [done..|]. exists [c]. split; [done|].
  by apply Forall_singleton.
Qed.

Lemma Mkdir_keeps dir f : hugo.keeps_everything f (os.Mkdir dir f).1.
Proof.
  unfold os.Mkdir. cbn.
  pose proof (keeps_everything_logged (os.SysMkdir dir) f) as Hlog.
  case_bool_decide; [by apply Hlog|].
  destruct (os.nodes f !! dir) eqn:Hd; [by apply Hlog|].
  destruct (os.parentErr _ _); [by apply Hlog|]. cbn.
  split_and!; [done| |].
  - intros q n Hq. cbn. rewrite lookup_insert_ne; [done|]. intros ->. congruence.
  - exists [os.SysMkdir dir]. split; [done|]. by apply Forall_singleton.
Qed.

Lemma ensureDir_keeps dir (w : World) :
  hugo.keeps_everything (hugo.fs w) (hugo.fs (hugo.ensureDir dir w).1)
  ∧ hugo.registry (hugo.ensureDir dir w).1 = hugo.registry w.
Proof.
  unfold hugo.ensureDir. run.
  destruct (hugo.fileExists (hugo.fs w) dir); cbn.
  - split; [apply keeps_everything_refl|done].
  - pose proof (Mkdir_keeps dir (hugo.fs w)) as Hm.
    by destruct (os.Mkdir dir (hugo.fs w)).
Qed.

(** Rendering into a path under which nothing is stored. *)
Lemma render_keeps archetypePath outputPath payload (w : World) :
  os.nodes (hugo.fs w) !! outputPath = None →
  hugo.keeps_everything (hugo.fs w)
    (hugo.fs (render archetypePath outputPath payload w).1)
  ∧ hugo.registry (render archetypePath outputPath payload w).1
    = hugo.registry w.
Proof.
  intros Hfree. unfold hugo.render. run.
  destruct (hugo.ParseFiles _ _ _ _) as [tmpl|e]; cbn;
    [|split; [apply keeps_everything_refl|done]].
  pose proof (keeps_everything_logged (os.SysCreate outputPath) (hugo.fs w))
    as Hlog.
  unfold os.Create. cbn. case_bool_decide; cbn; [split; [by apply Hlog|done]|].
  rewrite Hfree. destruct (os.parentErr _ _); cbn;
    [split; [by apply Hlog|done]|].
  destruct (execute tmpl (hugo.Entry payload)) as [out xerr]. cbn.
  split; [|done]. split_and!; [done| |].
  - intros q n Hq. cbn. rewrite !lookup_insert_ne; [done|intros ->; congruence..].
  - exists [os.SysCreate outputPath; os.SysWrite outputPath].
    split; [cbn; by rewrite <- app_assoc|]. by repeat constructor.
Qed.

(** X1.  [CreateEntry] never loses anything: whatever the payload and
    however the call ends, every file and directory stored before the
    call is stored unchanged after it, and the call has not asked for any
    removal. *)
Theorem CreateEntry_keeps_everything (s : hugo.Site) (payload : hugo.Payload)
    (w : World) :
  hugo.keeps_everything (hugo.fs w) (hugo.fs (CreateEntry s payload w).1).
Proof.
  unfold hugo.CreateEntry. run.
  destruct (hugo.assertString _) as [modelName|msg]; cbn;
    [|apply keeps_everything_refl].
  destruct (hugo.getModel s modelName) as [[model|] single]; cbn;
    [|apply keeps_everything_refl].
  destruct (hugo.fileExists (hugo.fs w) _); cbn; [|apply keeps_everything_refl].
  match goal with |- context [hugo.ensureDir ?d w] =>
    destruct (ensureDir_keeps d w) as [Hd _];
    destruct (hugo.ensureDir d w) as [w1 [[e|]|msg]]
  end; cbn in *; try done.
  destruct (hugo.fileExists (hugo.fs w1) _) eqn:Hfree; cbn; [done|].
  eapply keeps_everything_trans; [exact Hd|].
  apply fileExists_absent in Hfree as Hnone.
  match goal with |- context [hugo.render ?T ?pt ?ex ?a ?o ?pl w1] =>
    destruct (render_keeps a o pl w1 Hnone) as [Hr _];
    destruct (hugo.render T pt ex a o pl w1) as [w2 [[e|]|msg]]
  end; cbn in *; try done.
  destruct (hugo.EntryId payload) as [entryId|msg]; cbn; [|done].
  destruct (Registry.CreateEntry _ _ _) as [r1 [e|]]; cbn; [done|].
  by destruct (Registry.Flush r1) as [r2 [e|]].
Qed.

Lemma Clean_nonempty p : path.Clean p ≠ "".
Proof.
  unfold path.Clean. case_bool_decide; [done|]. cbn zeta.
  destruct (path.IsAbs p); [done|]. by case_bool_decide.
Qed.

Lemma Join_nonempty a b : b ≠ "" → path.Join [a; b] ≠ "".
Proof.
  intros Hb. unfold path.Join.
  destruct (filter (λ e, e ≠ "") [a; b]) as [|x l] eqn:Hf.
  - assert (b ∈ filter (λ e : string, e ≠ "") [a; b]) as Hin.
    { apply list_elem_of_filter. split; [done|]. set_solver. }
    rewrite Hf in Hin. by apply elem_of_nil in Hin.
  - apply Clean_nonempty.
Qed.

Lemma html_nonempty slug : slug +:+ ".html" ≠ "".
Proof. by destruct slug. Qed.

(** X2.  What [CreateEntry] returns tells what it did.  The returned path
    is empty exactly when the call failed before registering anything:
    an error comes with it and the registry is as it was.  A path that is
    not empty is the computed output path, and the rendered file is
    stored under it, whether or not an error comes with it. *)
Theorem CreateEntry_result_shape (s : hugo.Site) (payload : hugo.Payload)
    (w w' : World) (p : string) (err : option error) :
  CreateEntry s payload w = (w', Returned (p, err)) →
  (p = "" ∧ is_Some err ∧ hugo.registry w' = hugo.registry w)
  ∨ (p ≠ "" ∧ ∃ model single modelName out,
       hugo.Metadata payload !! "model" = Some (VString modelName)
       ∧ hugo.getModel s modelName = (Some model, single)
       ∧ p = path.Join [hugo.absolute s (hugo.OutputDir model);
                        CreateSlug (hugo.titleOf payload) +:+ ".html"]
       ∧ os.nodes (hugo.fs w') !! p = Some (os.File out)).
Proof.
  unfold hugo.CreateEntry. run.
  destruct (hugo.Metadata payload !! "model") as [[| modelName | | |]|] eqn:Hm;
    cbn; try done.
  destruct (hugo.getModel s modelName) as [[model|] single] eqn:Hg; cbn;
    [|done].
  destruct (hugo.fileExists (hugo.fs w) _); cbn;
    [|intros [= <- <- <-]; left; by eauto].
  match goal with |- context [hugo.ensureDir ?d w] =>
    destruct (ensureDir_keeps d w) as [_ Hd];
    destruct (hugo.ensureDir d w) as [w1 [[e|]|msg]]
  end; cbn in *; try done; [intros [= <- <- <-]; left; by eauto|].
  destruct (hugo.fileExists (hugo.fs w1) _) eqn:Hfree; cbn;
    [intros [= <- <- <-]; left; by eauto|].
  destruct (hugo.render _ _ _ _ _ _ w1) as [w2 [[e|]|msg]] eqn:Hr; cbn;
    try done.
  { pose proof (render_log _ parseTemplate execute
      (hugo.absolute s (hugo.ArchetypePath model))
      (path.Join [hugo.absolute s (hugo.OutputDir model);
                  CreateSlug (hugo.titleOf payload) +:+ ".html"])
      payload w1) as (l & _ & Hreg).
    rewrite Hr in Hreg. cbn in Hreg.
    intros [= <- <- <-]. left. split_and!; [done|by eauto|congruence]. }
  destruct (render_ok _ _ _ _ _ _ _ _ Hr) as (tmpl & out & _ & _ & Hn & _).
  assert (Hstored : os.nodes (hugo.fs w2)
            !! path.Join [hugo.absolute s (hugo.OutputDir model);
                          CreateSlug (hugo.titleOf payload) +:+ ".html"]
          = Some (os.File out)).
  { rewrite Hn. apply lookup_insert_eq. }
  destruct (hugo.EntryId payload) as [entryId|msg]; cbn; [|done].
  destruct (Registry.CreateEntry _ _ _) as [r1 [e|]]; cbn.
  { intros [= <- <- <-]. right. split; [apply Join_nonempty, html_nonempty|].
    by exists model, single, modelName, out. }
  destruct (Registry.Flush r1) as [r2 [e|]]; cbn;
    intros [= <- <- <-]; right;
    (split; [apply Join_nonempty, html_nonempty|]);
    by exists model, single, modelName, out.
Qed.

(** X3.  A model whose archetype file does not exist.  [CreateEntry] and
    [UpdateEntry] both return the configuration error "archetype for
    model ... does not exist", and neither touches the disk or the
    registry. *)
Theorem missing_archetype_is_a_config_error (s : hugo.Site)
    (payload : hugo.Payload) (w : World) (modelName : string)
    (model : hugo.Model) (single : bool) :
  hugo.Metadata payload !! "model" = Some (VString modelName) →
  hugo.getModel s modelName = (Some model, single) →
  hugo.fileExists (hugo.fs w) (hugo.absolute s (hugo.ArchetypePath model))
    = false →
  CreateEntry s payload w
    = (w, Returned ("", Some (hugo.archetypeMissing modelName)))
  ∧ UpdateEntry s payload w
    = (w, Returned ("", Some (hugo.archetypeMissing modelName))).
Proof.
  intros Hm Hg Ha. unfold hugo.CreateEntry, hugo.UpdateEntry. run.
  rewrite Hm. cbn. rewrite Hg. cbn. by rewrite Ha.
Qed.

(** X4.  An entry whose id is not an [int] (missing, or a number decoded
    as a float).  [CreateEntry] computes the entry id only after it has
    rendered: the file is written and stays, the call then panics, and
    the registry has not been told.  [UpdateEntry] computes the id before
    it touches anything: it panics with the world as it was. *)
Theorem id_that_is_not_an_int (s : hugo.Site) (payload : hugo.Payload)
    (w w1 w2 : World) (modelName : string) (model : hugo.Model)
    (single : bool) :
  let archetypePath := hugo.absolute s (hugo.ArchetypePath model) in
  let outputDir := hugo.absolute s (hugo.OutputDir model) in
  let outputPath :=
    path.Join [outputDir; CreateSlug (hugo.titleOf payload) +:+ ".html"] in
  hugo.Metadata payload !! "model" = Some (VString modelName) →
  (∀ i, hugo.Entry payload !! "id" ≠ Some (VInt i)) →
  hugo.getModel s modelName = (Some model, single) →
  hugo.fileExists (hugo.fs w) archetypePath = true →
  hugo.ensureDir outputDir w = (w1, Returned None) →
  hugo.fileExists (hugo.fs w1) outputPath = false →
  render archetypePath outputPath payload w1 = (w2, Returned None) →
  CreateEntry s payload w = (w2, Panicked bad_assert)
  ∧ (∃ out, os.nodes (hugo.fs w2) !! outputPath = Some (os.File out))
  ∧ hugo.registry w2 = hugo.registry w
  ∧ UpdateEntry s payload w = (w, Panicked bad_assert).
Proof.
  intros archetypePath outputDir outputPath Hm Hi Hg Ha Hd Hfree Hr.
  assert (Hid : hugo.EntryId payload = Panicked bad_assert).
  { unfold hugo.EntryId. rewrite Hm. cbn.
    destruct (hugo.Entry payload !! "id") as [[]|] eqn:He; try done.
    by destruct (Hi i). }
  split_and!.
  - unfold hugo.CreateEntry. run. rewrite Hm. cbn. rewrite Hg. cbn.
    fold archetypePath outputDir. rewrite Ha. cbn. rewrite Hd. cbn.
    fold outputPath. rewrite Hfree. cbn. rewrite Hr. cbn. by rewrite Hid.
  - destruct (render_ok _ _ _ _ _ _ _ _ Hr) as (tmpl & out & _ & _ & Hn & _).
    exists out. rewrite Hn. apply lookup_insert_eq.
  - destruct (render_ok _ _ _ _ _ _ _ _ Hr) as (_ & _ & _ & _ & _ & _ & _ & Hreg).
    apply ensureDir_ok in Hd as (Hreg1 & _). congruence.
  - unfold hugo.UpdateEntry. run. rewrite Hm. cbn. rewrite Hg. cbn.
    fold archetypePath. rewrite Ha. cbn. by rewrite Hid.
Qed.

Lemma Remove_frame p f q :
  q ≠ p → os.nodes (os.Remove p f).1 !! q = os.nodes f !! q.
Proof.
  intros Hq. unfold os.Remove. cbn. case_bool_decide; [done|].
  destruct (os.nodes f !! p) as [[]|]; cbn; [|destruct (os.hasChild _ _); cbn|];
    try done; by rewrite lookup_delete_ne.
Qed.

Lemma Remove_file p f c :
  os.nodes f !! p = Some (os.File c) → p ∉ os.noaccess f →
  os.nodes (os.Remove p f).1 = delete p (os.nodes f)
  ∧ os.noaccess (os.Remove p f).1 = os.noaccess f.
Proof.
  intros Hp Ha. unfold os.Remove. cbn.
  rewrite bool_decide_eq_false_2 by done. by rewrite Hp.
Qed.

Lemma Remove_noaccess p f : os.noaccess (os.Remove p f).1 = os.noaccess f.
Proof.
  unfold os.Remove. cbn. case_bool_decide; [done|].
  destruct (os.nodes f !! p) as [[]|]; cbn; [|destruct (os.hasChild _ _)|]; done.
Qed.

(** However it ends, rendering changes nothing but what is stored under
    the output path, and leaves the registry alone. *)
Lemma render_frame archetypePath outputPath payload (w : World) q :
  q ≠ outputPath →
  os.nodes (hugo.fs (render archetypePath outputPath payload w).1) !! q
  = os.nodes (hugo.fs w) !! q.
Proof.
  intros Hq. unfold hugo.render. run.
  destruct (hugo.ParseFiles _ _ _ _) as [tmpl|e]; cbn; [|done].
  unfold os.Create. cbn. case_bool_decide; cbn; [done|].
  destruct (os.nodes (hugo.fs w) !! outputPath) as [[]|]; cbn; try done;
    (destruct (os.parentErr _ _); cbn; [done|]);
    destruct (execute tmpl (hugo.Entry payload)) as [out xerr]; cbn;
    by rewrite !lookup_insert_ne.
Qed.

Lemma render_registry archetypePath outputPath payload (w : World) :
  hugo.registry (render archetypePath outputPath payload w).1 = hugo.registry w.
Proof.
  by destruct (render_log _ parseTemplate execute archetypePath outputPath
                 payload w) as (l & _ & Hreg).
Qed.

(** [UpdateEntry] from the rendering on, for a call that got that far. *)
Lemma UpdateEntry_from_render (s : hugo.Site) (payload : hugo.Payload)
    (w w1 w3 : World) (modelName : string) (model : hugo.Model)
    (single : bool) (id : Z) (rerr : option error) :
  let archetypePath := hugo.absolute s (hugo.ArchetypePath model) in
  let entryId := modelName +:+ "-" +:+ strings_pkg.fmt_d id in
  let oldPath := (Registry.ReadEntry entryId (hugo.registry w)).1 in
  let outputPath :=
    path.Join [path.Dir oldPath; CreateSlug (hugo.titleOf payload) +:+ ".html"] in
  let w2 := if hugo.fileExists (hugo.fs w1) oldPath
            then hugo.mkWorld (os.Remove oldPath (hugo.fs w1)).1 (hugo.registry w1)
            else w1 in
  hugo.Metadata payload !! "model" = Some (VString modelName) →
  hugo.Entry payload !! "id" = Some (VInt id) →
  hugo.getModel s modelName = (Some model, single) →
  hugo.fileExists (hugo.fs w) archetypePath = true →
  hugo.ensureDir (path.Dir oldPath) w = (w1, Returned None) →
  hugo.fileExists (hugo.fs w1) outputPath
    && negb (bool_decide (path.Base outputPath = path.Base oldPath)) = false →
  render archetypePath outputPath payload w2 = (w3, Returned rerr) →
  UpdateEntry s payload w
  = match rerr with
    | Some err => (w3, Returned ("", Some err))
    | None => hugo.registerUpdate entryId outputPath w3
    end.
Proof.
  intros archetypePath entryId oldPath outputPath w2 Hm Hi Hg Ha Hd Hfree Hr.
  unfold hugo.UpdateEntry. run. rewrite Hm. cbn. rewrite Hg. cbn.
  fold archetypePath. rewrite Ha. cbn.
  unfold hugo.EntryId. rewrite Hm, Hi. cbn. fold entryId.
  subst w2 outputPath oldPath.
  destruct (Registry.ReadEntry entryId (hugo.registry w)) as [old rderr].
  cbn in *. rewrite Hd. cbn. rewrite Hfree.
  destruct (hugo.fileExists (hugo.fs w1) old); cbn;
    [destruct (os.Remove old (hugo.fs w1)) as [f2 rmerr]; cbn in *|];
    rewrite Hr; cbn; (destruct rerr as [err|]; [done|]);
    unfold hugo.registerUpdate;
    (destruct (Registry.UpdateEntry _ _ _) as [r1 [e|]]; cbn; [done|]);
    by destruct (Registry.Flush r1) as [r2 [e|]].
Qed.

Lemma registerUpdate_shape (entryId outputPath : string) (w3 : World) :
  ∃ r' err, hugo.registerUpdate entryId outputPath w3
            = (hugo.mkWorld (hugo.fs w3) r', Returned (outputPath, err)).
Proof.
  unfold hugo.registerUpdate.
  destruct (Registry.UpdateEntry _ _ _) as [r1 [e|]]; [by eauto|].
  destruct (Registry.Flush r1) as [r2 e2]. by eauto.
Qed.

(** X5.  Renaming an entry.  When the old file is stored and the new slug
    is unused, and the rendering succeeds, [UpdateEntry] removes the old
    file, writes the new one, and goes on to the registry with the new
    path, which it returns. *)
Theorem UpdateEntry_moves_to_unused_slug (s : hugo.Site)
    (payload : hugo.Payload) (w w1 w3 : World) (modelName : string)
    (model : hugo.Model) (single : bool) (id : Z) (c : string) :
  let archetypePath := hugo.absolute s (hugo.ArchetypePath model) in
  let entryId := modelName +:+ "-" +:+ strings_pkg.fmt_d id in
  let oldPath := (Registry.ReadEntry entryId (hugo.registry w)).1 in
  let outputPath :=
    path.Join [path.Dir oldPath; CreateSlug (hugo.titleOf payload) +:+ ".html"] in
  let w2 := hugo.mkWorld (os.Remove oldPath (hugo.fs w1)).1 (hugo.registry w1) in
  hugo.Metadata payload !! "model" = Some (VString modelName) →
  hugo.Entry payload !! "id" = Some (VInt id) →
  hugo.getModel s modelName = (Some model, single) →
  hugo.fileExists (hugo.fs w) archetypePath = true →
  hugo.ensureDir (path.Dir oldPath) w = (w1, Returned None) →
  os.nodes (hugo.fs w1) !! oldPath = Some (os.File c) →
  oldPath ∉ os.noaccess (hugo.fs w1) →
  hugo.fileExists (hugo.fs w1) outputPath = false →
  render archetypePath outputPath payload w2 = (w3, Returned None) →
  UpdateEntry s payload w = hugo.registerUpdate entryId outputPath w3
  ∧ (∃ r' err, UpdateEntry s payload w
               = (hugo.mkWorld (hugo.fs w3) r', Returned (outputPath, err)))
  ∧ os.nodes (hugo.fs w3) !! oldPath = None
  ∧ (∃ out, os.nodes (hugo.fs w3) !! outputPath = Some (os.File out)).
Proof.
  intros archetypePath entryId oldPath outputPath w2 Hm Hi Hg Ha Hd Hold Hacc
    Hfree Hr.
  assert (Hex : hugo.fileExists (hugo.fs w1) oldPath = true)
    by (by eapply fileExists_stored).
  assert (Hrun : UpdateEntry s payload w
                 = hugo.registerUpdate entryId outputPath w3).
  { apply (UpdateEntry_from_render s payload w w1 w3 modelName model single id
             None Hm Hi Hg Ha Hd).
    - change (hugo.fileExists (hugo.fs w1) outputPath
                && negb (bool_decide (path.Base outputPath = path.Base oldPath))
              = false).
      by rewrite Hfree.
    - change (render archetypePath outputPath payload
                (if hugo.fileExists (hugo.fs w1) oldPath then w2 else w1)
              = (w3, Returned None)).
      by rewrite Hex. }
  assert (Hne : oldPath ≠ outputPath).
  { intros Heq. rewrite <- Heq in Hfree. congruence. }
  split_and!; [done| | |].
  - rewrite Hrun. apply registerUpdate_shape.
  - pose proof (render_frame archetypePath outputPath payload w2 oldPath Hne)
      as Hf.
    rewrite Hr in Hf. cbn in Hf. rewrite Hf.
    destruct (Remove_file _ _ _ Hold Hacc) as [-> _]. apply lookup_delete_eq.
  - destruct (render_ok _ _ _ _ _ _ _ _ Hr) as (tmpl & out & _ & _ & Hn & _).
    exists out. rewrite Hn. apply lookup_insert_eq.
Qed.

(** X6.  An update that fails half-way.  When the old file is stored and
    the output goes to another path, and the rendering fails after the
    old file has been removed, [UpdateEntry] returns that error with an
    empty path: the old file is gone, and the registry, untouched, still
    names it. *)
Theorem UpdateEntry_loses_old_file_when_render_fails (s : hugo.Site)
    (payload : hugo.Payload) (w w1 w3 : World) (modelName : string)
    (model : hugo.Model) (single : bool) (id : Z) (c : string) (err : error) :
  let archetypePath := hugo.absolute s (hugo.ArchetypePath model) in
  let entryId := modelName +:+ "-" +:+ strings_pkg.fmt_d id in
  let oldPath := (Registry.ReadEntry entryId (hugo.registry w)).1 in
  let outputPath :=
    path.Join [path.Dir oldPath; CreateSlug (hugo.titleOf payload) +:+ ".html"] in
  let w2 := hugo.mkWorld (os.Remove oldPath (hugo.fs w1)).1 (hugo.registry w1) in
  hugo.Metadata payload !! "model" = Some (VString modelName) →
  hugo.Entry payload !! "id" = Some (VInt id) →
  hugo.getModel s modelName = (Some model, single) →
  hugo.fileExists (hugo.fs w) archetypePath = true →
  hugo.ensureDir (path.Dir oldPath) w = (w1, Returned None) →
  os.nodes (hugo.fs w1) !! oldPath = Some (os.File c) →
  oldPath ∉ os.noaccess (hugo.fs w1) →
  hugo.fileExists (hugo.fs w1) outputPath = false →
  render archetypePath outputPath payload w2 = (w3, Returned (Some err)) →
  UpdateEntry s payload w = (w3, Returned ("", Some err))
  ∧ os.nodes (hugo.fs w3) !! oldPath = None
  ∧ hugo.registry w3 = hugo.registry w
  ∧ (Registry.ReadEntry entryId (hugo.registry w3)).1 = oldPath.
Proof.
  intros archetypePath entryId oldPath outputPath w2 Hm Hi Hg Ha Hd Hold Hacc
    Hfree Hr.
  assert (Hex : hugo.fileExists (hugo.fs w1) oldPath = true)
    by (by eapply fileExists_stored).
  assert (Hne : outputPath ≠ oldPath).
  { intros Heq. rewrite Heq in Hfree. congruence. }
  assert (Hreg : hugo.registry w3 = hugo.registry w).
  { pose proof (render_registry archetypePath outputPath payload w2) as Hreg.
    rewrite Hr in Hreg. cbn in Hreg. rewrite Hreg.
    by apply ensureDir_ok in Hd as (? & _). }
  split_and!; [| |done|by rewrite Hreg].
  - apply (UpdateEntry_from_render s payload w w1 w3 modelName model single id
             (Some err) Hm Hi Hg Ha Hd).
    + change (hugo.fileExists (hugo.fs w1) outputPath
                && negb (bool_decide (path.Base outputPath = path.Base oldPath))
              = false).
      by rewrite Hfree.
    + change (render archetypePath outputPath payload
                (if hugo.fileExists (hugo.fs w1) oldPath then w2 else w1)
              = (w3, Returned (Some err))).
      by rewrite Hex.
  - pose proof (render_frame archetypePath outputPath payload w2 oldPath
                  (not_eq_sym Hne)) as Hf.
    rewrite Hr in Hf. cbn in Hf. rewrite Hf.
    destruct (Remove_file _ _ _ Hold Hacc) as [-> _]. apply lookup_delete_eq.
Qed.

Lemma Join_dot y : path.properName y → path.Join ["."; y] = y.
Proof.
  intros Hy.
  pose proof (Join_Dir_ofElems false [] y y (Forall_nil_2 _) Hy Hy) as Hj.
  by rewrite (Dir_ofElems false [] y (Forall_nil_2 _) Hy) in Hj.
Qed.

(** X7.  Updating an entry the registry does not know.  The failed lookup
    is not reported: [UpdateEntry] carries on with an empty old path, so
    the directory is "." and, for a slug without a slash, the output path
    is the bare file name [slug.html], relative to the working directory.
    When that name is free and the rendering succeeds, the file is
    written there and registered under that relative path. *)
Theorem UpdateEntry_of_unregistered_entry (s : hugo.Site)
    (payload : hugo.Payload) (w w1 w3 : World) (modelName : string)
    (model : hugo.Model) (single : bool) (id : Z) (e : error) :
  let archetypePath := hugo.absolute s (hugo.ArchetypePath model) in
  let entryId := modelName +:+ "-" +:+ strings_pkg.fmt_d id in
  let slugFile := CreateSlug (hugo.titleOf payload) +:+ ".html" in
  hugo.Metadata payload !! "model" = Some (VString modelName) →
  hugo.Entry payload !! "id" = Some (VInt id) →
  hugo.getModel s modelName = (Some model, single) →
  hugo.fileExists (hugo.fs w) archetypePath = true →
  Registry.ReadEntry entryId (hugo.registry w) = ("", Some e) →
  strings_pkg.contains strings_pkg.slash (CreateSlug (hugo.titleOf payload))
    = false →
  hugo.ensureDir "." w = (w1, Returned None) →
  hugo.fileExists (hugo.fs w1) "" = false →
  hugo.fileExists (hugo.fs w1) slugFile = false →
  render archetypePath slugFile payload w1 = (w3, Returned None) →
  UpdateEntry s payload w = hugo.registerUpdate entryId slugFile w3
  ∧ path.IsAbs slugFile = false
  ∧ ∃ out, os.nodes (hugo.fs w3) !! slugFile = Some (os.File out).
Proof.
  intros archetypePath entryId slugFile Hm Hi Hg Ha Hread Hslug Hd Hold Hfree Hr.
  assert (Hproper : path.properName slugFile) by (by apply html_name_proper).
  assert (Hjoin : path.Join [path.Dir ""; slugFile] = slugFile).
  { change (path.Dir "") with ".". by apply Join_dot. }
  split_and!.
  - pose proof (UpdateEntry_from_render s payload w w1 w3 modelName model
                  single id None Hm Hi Hg Ha) as Hrun.
    cbn zeta in Hrun. fold entryId in Hrun. rewrite Hread in Hrun.
    cbn [fst] in Hrun. fold slugFile in Hrun. rewrite Hjoin in Hrun.
    apply Hrun; [done| |].
    + by rewrite Hfree.
    + by rewrite Hold.
  - destruct Hproper as (Hne & _ & _ & Hs).
    destruct slugFile as [|c r]; [done|]. cbn in Hs.
    by apply orb_false_elim in Hs as [Hc _].
  - destruct (render_ok _ _ _ _ _ _ _ _ Hr) as (tmpl & out & _ & _ & Hn & _).
    exists out. rewrite Hn. apply lookup_insert_eq.
Qed.

(** X8.  [UpdateEntry] touches nothing but the old path and the output
    path.  However the call ends, whatever was stored under any other
    path is stored unchanged after it. *)
Theorem UpdateEntry_touches_only_its_two_paths (s : hugo.Site)
    (payload : hugo.Payload) (w : World) (entryId q : string) (n : os.node) :
  let oldPath := (Registry.ReadEntry entryId (hugo.registry w)).1 in
  let outputPath :=
    path.Join [path.Dir oldPath; CreateSlug (hugo.titleOf payload) +:+ ".html"] in
  hugo.EntryId payload = Returned entryId →
  q ≠ oldPath → q ≠ outputPath →
  os.nodes (hugo.fs w) !! q = Some n →
  os.nodes (hugo.fs (UpdateEntry s payload w).1) !! q = Some n.
Proof.
  intros oldPath outputPath Hid Hq1 Hq2 Hn.
  unfold hugo.UpdateEntry. run.
  destruct (hugo.assertString _) as [modelName|msg]; cbn; [|done].
  destruct (hugo.getModel s modelName) as [[model|] single]; cbn; [|done].
  destruct (hugo.fileExists (hugo.fs w) _); cbn; [|done].
  rewrite Hid. cbn. subst outputPath oldPath.
  destruct (Registry.ReadEntry entryId (hugo.registry w)) as [old rderr].
  cbn in *.
  destruct (ensureDir_keeps (path.Dir old) w) as [(_ & Hkeep & _) _].
  destruct (hugo.ensureDir (path.Dir old) w) as [w1 [[e|]|msg]]; cbn in *;
    [by apply Hkeep| |by apply Hkeep].
  apply Hkeep in Hn.
  destruct (_ && _); cbn; [done|].
  assert (Hrest : ∀ v : World,
    os.nodes (hugo.fs v) !! q = Some n →
    os.nodes (hugo.fs
      (match
         hugo.render Template parseTemplate execute
           (hugo.absolute s (hugo.ArchetypePath model))
           (path.Join [path.Dir old;
                       CreateSlug (hugo.titleOf payload) +:+ ".html"])
           payload v
       with
       | (w', o) => w'
       end)) !! q = Some n).
  { intros v Hv.
    pose proof (render_frame (hugo.absolute s (hugo.ArchetypePath model))
      (path.Join [path.Dir old; CreateSlug (hugo.titleOf payload) +:+ ".html"])
      payload v q Hq2) as Hf.
    destruct (hugo.render _ _ _ _ _ _ v) as [w3 o]. cbn in Hf. congruence. }
  destruct (hugo.fileExists (hugo.fs w1) old); cbn.
  - pose proof (Remove_frame old (hugo.fs w1) q Hq1) as Hrm.
    destruct (os.Remove old (hugo.fs w1)) as [f2 rmerr]. cbn in *.
    specialize (Hrest (hugo.mkWorld f2 (hugo.registry w1))).
    destruct (hugo.render _ _ _ _ _ _ _) as [w3 [[err|]|msg]]; cbn in *;
      [apply Hrest; congruence| |apply Hrest; congruence].
    destruct (Registry.UpdateEntry _ _ _) as [r1 [err|]]; cbn;
      [apply Hrest; congruence|].
    destruct (Registry.Flush r1) as [r2 [err|]]; cbn; apply Hrest; congruence.
  - specialize (Hrest w1).
    destruct (hugo.render _ _ _ _ _ _ _) as [w3 [[err|]|msg]]; cbn in *;
      [by apply Hrest| |by apply Hrest].
    destruct (Registry.UpdateEntry _ _ _) as [r1 [err|]]; cbn;
      [by apply Hrest|].
    destruct (Registry.Flush r1) as [r2 [err|]]; cbn; by apply Hrest.
Qed.

(** X9.  What [UpdateEntry] returns tells what it did to the registry and
    to the output file.  An empty path comes with an error and an
    untouched registry; a path that is not empty has the rendered file
    stored under it. *)
Theorem UpdateEntry_result_shape (s : hugo.Site) (payload : hugo.Payload)
    (w w' : World) (p : string) (err : option error) :
  UpdateEntry s payload w = (w', Returned (p, err)) →
  (p = "" ∧ is_Some err ∧ hugo.registry w' = hugo.registry w)
  ∨ (p ≠ "" ∧ ∃ out, os.nodes (hugo.fs w') !! p = Some (os.File out)).
Proof.
  unfold hugo.UpdateEntry. run.
  destruct (hugo.assertString _) as [modelName|msg]; cbn; [|done].
  destruct (hugo.getModel s modelName) as [[model|] single]; cbn; [|done].
  destruct (hugo.fileExists (hugo.fs w) _); cbn;
    [|intros [= <- <- <-]; left; by eauto].
  destruct (hugo.EntryId payload) as [entryId|msg]; cbn; [|done].
  destruct (Registry.ReadEntry entryId (hugo.registry w)) as [old rderr].
  cbn.
  destruct (ensureDir_keeps (path.Dir old) w) as [_ Hreg1].
  destruct (hugo.ensureDir (path.Dir old) w) as [w1 [[e|]|msg]]; cbn in *;
    try done; [intros [= <- <- <-]; left; by eauto|].
  destruct (_ && _); cbn; [intros [= <- <- <-]; left; by eauto|].
  set (o := path.Join [path.Dir old;
                       CreateSlug (hugo.titleOf payload) +:+ ".html"]).
  assert (Hrest : ∀ v : World,
    hugo.registry v = hugo.registry w →
    match
      hugo.render Template parseTemplate execute
        (hugo.absolute s (hugo.ArchetypePath model)) o payload v
    with
    | (w3, Returned rerr) =>
        match rerr with
        | Some e => (w3, Returned ("", Some e))
        | None => hugo.registerUpdate entryId o w3
        end
    | (w3, Panicked msg) => (w3, Panicked msg)
    end = (w', Returned (p, err)) →
    (p = "" ∧ is_Some err ∧ hugo.registry w' = hugo.registry w)
    ∨ (p ≠ "" ∧ ∃ out, os.nodes (hugo.fs w') !! p = Some (os.File out))).
  { intros v Hv.
    pose proof (render_registry (hugo.absolute s (hugo.ArchetypePath model))
                  o payload v) as Hreg.
    destruct (hugo.render _ _ _ _ _ _ v) as [w3 [[e|]|msg]] eqn:Hr; cbn in *;
      [intros [= <- <- <-]; left; split_and!; [done|by eauto|congruence]| |done].
    destruct (render_ok _ _ _ _ _ _ _ _ Hr) as (tmpl & out & _ & _ & Hn & _).
    destruct (registerUpdate_shape entryId o w3) as (r' & err' & ->).
    intros [= <- <- <-]. right.
    split; [apply Join_nonempty, html_nonempty|].
    exists out. cbn. rewrite Hn. apply lookup_insert_eq. }
  destruct (hugo.fileExists (hugo.fs w1) old); cbn.
  - destruct (os.Remove old (hugo.fs w1)) as [f2 rmerr]. cbn.
    intros Hrun. apply (Hrest (hugo.mkWorld f2 (hugo.registry w1))); [done|].
    rewrite <- Hrun. unfold hugo.registerUpdate.
    destruct (hugo.render _ _ _ _ _ _ _) as [w3 [[e|]|msg]]; cbn; try done.
    destruct (Registry.UpdateEntry _ _ _) as [r1 [e|]]; cbn; [done|].
    by destruct (Registry.Flush r1) as [r2 [e|]].
  - intros Hrun. apply (Hrest w1); [done|].
    rewrite <- Hrun. unfold hugo.registerUpdate.
    destruct (hugo.render _ _ _ _ _ _ _) as [w3 [[e|]|msg]]; cbn; try done.
    destruct (Registry.UpdateEntry _ _ _) as [r1 [e|]]; cbn; [done|].
    by destruct (Registry.Flush r1) as [r2 [e|]].
Qed.

(** Everything a call of [CreateEntry] that reports success went
    through, the registry steps included. *)
Lemma CreateEntry_success_steps (s : hugo.Site) (payload : hugo.Payload)
    (w w' : World) (p : string) :
  CreateEntry s payload w = (w', Returned (p, None)) →
  ∃ modelName model single w1 w2 entryId r1,
    hugo.Metadata payload !! "model" = Some (VString modelName)
    ∧ hugo.getModel s modelName = (Some model, single)
    ∧ hugo.fileExists (hugo.fs w)
        (hugo.absolute s (hugo.ArchetypePath model)) = true
    ∧ hugo.ensureDir (hugo.absolute s (hugo.OutputDir model)) w
      = (w1, Returned None)
    ∧ p = path.Join [hugo.absolute s (hugo.OutputDir model);
                     CreateSlug (hugo.titleOf payload) +:+ ".html"]
    ∧ hugo.fileExists (hugo.fs w1) p = false
    ∧ render (hugo.absolute s (hugo.ArchetypePath model)) p payload w1
      = (w2, Returned None)
    ∧ hugo.EntryId payload = Returned entryId
    ∧ Registry.CreateEntry entryId p (hugo.registry w2) = (r1, None)
    ∧ Registry.Flush r1 = (hugo.registry w', None)
    ∧ hugo.fs w' = hugo.fs w2.
Proof.
  unfold hugo.CreateEntry. run.
  destruct (hugo.Metadata payload !! "model") as [[| modelName | | |]|] eqn:Hm;
    cbn; try done.
  destruct (hugo.getModel s modelName) as [[model|] single] eqn:Hg; cbn;
    [|done].
  destruct (hugo.fileExists (hugo.fs w) _) eqn:Ha; cbn; [|done].
  destruct (hugo.ensureDir _ w) as [w1 [[e|]|msg]] eqn:Hd; cbn; try done.
  destruct (hugo.fileExists (hugo.fs w1) _) eqn:Hfree; cbn; [done|].
  destruct (hugo.render _ _ _ _ _ _ w1) as [w2 [[e|]|msg]] eqn:Hr; cbn;
    try done.
  destruct (hugo.EntryId payload) as [entryId|msg] eqn:Hid; cbn; [|done].
  destruct (Registry.CreateEntry _ _ _) as [r1 [e|]] eqn:Hc; cbn; [done|].
  destruct (Registry.Flush r1) as [r2 [e|]] eqn:Hf; cbn; [done|].
  intros [= <- <-]. by exists modelName, model, single, w1, w2, entryId, r1.
Qed.

Lemma render_run archetypePath outputPath payload (w : World) tmpl f1 out xerr :
  hugo.ParseFiles Template parseTemplate (hugo.fs w) archetypePath = inl tmpl →
  os.Create outputPath (hugo.fs w) = (f1, None) →
  execute tmpl (hugo.Entry payload) = (out, xerr) →
  render archetypePath outputPath payload w
  = (hugo.mkWorld (os.Write outputPath out f1) (hugo.registry w), Returned xerr).
Proof.
  intros Hp Hc Hx. unfold hugo.render. run. by rewrite Hp, Hc, Hx.
Qed.

Lemma Create_inv p f f' :
  os.Create p f = (f', None) →
  (p ∉ os.noaccess f) ∧ os.nodes f !! path.Dir p = Some os.Directory.
Proof.
  unfold os.Create. cbn. case_bool_decide; [done|].
  unfold os.parentErr. cbn.
  destruct (os.nodes f !! p) as [[]|]; try done;
    by destruct (os.nodes f !! path.Dir p) as [[]|].
Qed.

Lemma Create_fresh p f :
  p ∉ os.noaccess f → os.nodes f !! p = None →
  os.nodes f !! path.Dir p = Some os.Directory →
  os.Create p f = (os.setNodes (<[p := os.File ""]> (os.nodes f))
                     (os.logged (os.SysCreate p) f), None).
Proof.
  intros Ha Hp Hd. unfold os.Create, os.parentErr. cbn.
  rewrite bool_decide_eq_false_2 by done. by rewrite Hp, Hd.
Qed.

Lemma ParseFiles_inv f p tmpl :
  hugo.ParseFiles Template parseTemplate f p = inl tmpl →
  ∃ src, os.nodes f !! p = Some (os.File src) ∧ (p ∉ os.noaccess f)
         ∧ parseTemplate src = Some tmpl.
Proof.
  unfold hugo.ParseFiles, os.ReadFile. case_bool_decide; [done|].
  destruct (os.nodes f !! p) as [[src|]|]; try done.
  destruct (parseTemplate src) eqn:Hp; [|done]. intros [= <-]. by exists src.
Qed.

Lemma ParseFiles_same f g p :
  os.noaccess g = os.noaccess f → os.nodes g !! p = os.nodes f !! p →
  hugo.ParseFiles Template parseTemplate g p
  = hugo.ParseFiles Template parseTemplate f p.
Proof.
  intros Ha Hn. unfold hugo.ParseFiles, os.ReadFile. by rewrite Ha, Hn.
Qed.

(** X10.  Creating an entry and then updating it with the same payload.
    With a registry that reads back what was created and flushed, an
    output directory made of plain names and a slug without a slash, the
    update finds the created path, computes the same output path, and
    writes the same file again: it returns that path, and what is stored
    under it after the update is what was stored after the creation. *)
Theorem UpdateEntry_after_CreateEntry_keeps_the_file (s : hugo.Site)
    (payload : hugo.Payload) (w w' : World) (p : string)
    (modelName : string) (model : hugo.Model) (single : bool)
    (rooted : bool) (ds : list string) :
  hugo.reads_back R →
  hugo.Metadata payload !! "model" = Some (VString modelName) →
  hugo.getModel s modelName = (Some model, single) →
  hugo.absolute s (hugo.OutputDir model) = path.ofElems rooted ds →
  Forall path.properName ds → rooted = true ∨ ds ≠ [] →
  strings_pkg.contains strings_pkg.slash (CreateSlug (hugo.titleOf payload))
    = false →
  CreateEntry s payload w = (w', Returned (p, None)) →
  ∃ w'' err,
    UpdateEntry s payload w' = (w'', Returned (p, err))
    ∧ os.nodes (hugo.fs w'') !! p = os.nodes (hugo.fs w') !! p
    ∧ ∃ out, os.nodes (hugo.fs w') !! p = Some (os.File out).
Proof.
  intros Hlaw Hm Hg Hdir Hds Hroot Hslug Hok.
  destruct (CreateEntry_success_steps _ _ _ _ _ Hok)
    as (modelName' & model' & single' & w1 & w2 & entryId & r1
        & Hm' & Hg' & Ha & Hd & Hp & Hfree & Hr & Hid & Hc & Hf & Hfs).
  rewrite Hm in Hm'. injection Hm' as <-.
  rewrite Hg in Hg'. injection Hg' as <- <-.
  set (slugFile := CreateSlug (hugo.titleOf payload) +:+ ".html") in *.
  assert (Hproper : path.properName slugFile) by (by apply html_name_proper).
  rewrite Hdir in Hp, Hd.
  (* the created path, its directory, and the recomputed path *)
  assert (Hpath : p = path.ofElems rooted (ds ++ [slugFile])).
  { rewrite Hp.
    pose proof (Join_Dir_ofElems rooted ds slugFile slugFile Hds Hproper
                  Hproper) as Hj.
    rewrite (Dir_ofElems rooted ds slugFile Hds Hproper) in Hj.
    destruct ds as [|d ds']; [|exact Hj].
    destruct Hroot as [->|?]; [exact Hj|done]. }
  assert (Hdirp : path.Dir p = path.ofElems rooted ds).
  { rewrite Hpath, (Dir_ofElems rooted ds slugFile Hds Hproper).
    destruct ds as [|d ds']; [|done].
    by destruct Hroot as [->|?]. }
  assert (Hsame : path.Join [path.Dir p; slugFile] = p).
  { rewrite Hpath at 1. rewrite Join_Dir_ofElems by done. by rewrite Hpath. }
  (* what the creation left on the disk *)
  destruct (render_ok _ _ _ _ _ _ _ _ Hr)
    as (tmpl & out & Hparse & Hx & Hn & Hacc & _ & Hreg2).
  destruct (ParseFiles_inv _ _ _ Hparse) as (src & Hsrc & Hsrcacc & Hpt).
  apply fileExists_absent in Hfree as Hnone.
  assert (Harch : hugo.absolute s (hugo.ArchetypePath model) ≠ p).
  { intros Heq. rewrite Heq in Hsrc. congruence. }
  assert (Hpacc : p ∉ os.noaccess (hugo.fs w1)).
  { unfold hugo.fileExists, os.Stat in Hfree.
    case_bool_decide; [done|]. done. }
  assert (Hparent : os.nodes (hugo.fs w1) !! path.Dir p = Some os.Directory).
  { apply ensureDir_ok in Hd as (_ & _ & Hex & _).
    unfold hugo.render in Hr. revert Hr. run. rewrite Hparse. cbn.
    destruct (os.Create p (hugo.fs w1)) as [f1 [e|]] eqn:Hcr; cbn; [done|].
    intros _. by apply Create_inv in Hcr as [_ ?]. }
  assert (Hdne : path.Dir p ≠ p).
  { intros Heq. rewrite Heq in Hparent. congruence. }
  assert (Hstored : os.nodes (hugo.fs w') !! p = Some (os.File out)).
  { rewrite Hfs, Hn. apply lookup_insert_eq. }
  assert (Hacc' : os.noaccess (hugo.fs w') = os.noaccess (hugo.fs w1)).
  { by rewrite Hfs. }
  assert (Hother : ∀ q, q ≠ p →
            os.nodes (hugo.fs w') !! q = os.nodes (hugo.fs w1) !! q).
  { intros q Hq. by rewrite Hfs, Hn, !lookup_insert_ne. }
  (* the update, step by step *)
  assert (Hread : Registry.ReadEntry entryId (hugo.registry w') = (p, None)).
  { by eapply Hlaw. }
  assert (Hid' : ∃ id, hugo.Entry payload !! "id" = Some (VInt id)
                       ∧ entryId = modelName +:+ "-" +:+ strings_pkg.fmt_d id).
  { unfold hugo.EntryId in Hid. rewrite Hm in Hid. cbn in Hid.
    destruct (hugo.Entry payload !! "id") as [[| |i| |]|]; try done.
    exists i. split; [done|]. by injection Hid as <-. }
  destruct Hid' as (id & Hi & ->).
  set (w2' := hugo.mkWorld (os.Remove p (hugo.fs w')).1 (hugo.registry w')).
  destruct (Remove_file p (hugo.fs w') out Hstored) as [Hrmn Hrma];
    [by rewrite Hacc'|].
  set (w3' := hugo.mkWorld
                 (os.Write p out
                    (os.setNodes (<[p := os.File ""]> (os.nodes (hugo.fs w2')))
                       (os.logged (os.SysCreate p) (hugo.fs w2'))))
                 (hugo.registry w2')).
  assert (Hr' : render (hugo.absolute s (hugo.ArchetypePath model)) p payload w2'
                = (w3', Returned None)).
  { apply (render_run _ _ _ _ tmpl); [| |done].
    - rewrite <- Hparse. apply ParseFiles_same; cbn.
      + by rewrite Hrma, Hacc'.
      + rewrite Hrmn, lookup_delete_ne by done. by apply Hother.
    - apply Create_fresh; cbn.
      + by rewrite Hrma, Hacc'.
      + rewrite Hrmn. apply lookup_delete_eq.
      + rewrite Hrmn, lookup_delete_ne by done. by rewrite Hother. }
  pose proof (UpdateEntry_from_render s payload w' w' w3' modelName model
                single id None Hm Hi Hg) as Hrun.
  cbn zeta in Hrun. rewrite Hread in Hrun. cbn [fst] in Hrun.
  fold slugFile in Hrun. rewrite Hsame in Hrun.
  rewrite (fileExists_stored _ _ _ Hstored) in Hrun.
  rewrite bool_decide_eq_true_2 in Hrun by done.
  destruct (registerUpdate_shape (modelName +:+ "-" +:+ strings_pkg.fmt_d id) p
              w3') as (r' & err & Hshape).
  eexists _, err. split_and!.
  - rewrite Hrun; [exact Hshape| | |done|exact Hr'].
    + apply (fileExists_extends (hugo.fs w)); [|exact Ha].
      rewrite Hfs. eapply extends_trans; [by eapply ensureDir_extends|].
      by eapply render_extends.
    + apply ensureDir_again. rewrite Hdirp.
      apply ensureDir_ok in Hd as (_ & _ & Hex & _).
      rewrite Hfs. eapply fileExists_extends; [|exact Hex].
      by eapply render_extends.
  - cbn. rewrite lookup_insert_eq. by rewrite Hstored.
  - by exists out.
Qed.

End MoreSyncFacts.

(* ===================================================================== *)
(** ** Models, entry ids and construction                                 *)
(* ===================================================================== *)

(** X11.  [getModel] is the lookup in the two groups laid over one another
    with the collection types on top: a name in both groups resolves to
    its collection type.  The flag is false exactly for a collection
    type, so it is true both for a single type and for an unknown name:
    only the nil pointer tells the unknown name apart. *)
Theorem getModel_is_lookup_in_union (s : hugo.Site) (name : string) :
  hugo.getModel s name
  = ((hugo.CollectionTypes s ∪ hugo.SingleTypes s) !! name,
     bool_decide (hugo.CollectionTypes s !! name = None)).
Proof.
  unfold hugo.getModel. rewrite lookup_union.
  destruct (hugo.CollectionTypes s !! name) as [m|] eqn:Hc.
  - rewrite bool_decide_eq_false_2 by done.
    by destruct (hugo.SingleTypes s !! name).
  - rewrite bool_decide_eq_true_2 by done.
    by destruct (hugo.SingleTypes s !! name).
Qed.

Section EntryIdFacts.
Import strings_pkg.

Lemma string_of_uint_no_dash d :
  contains "-"%char (NilEmpty.string_of_uint d) = false.
Proof. induction d; cbn; done. Qed.

Lemma fmt_d_no_dash i : (0 ≤ i)%Z → contains "-"%char (fmt_d i) = false.
Proof.
  intros Hi. unfold fmt_d. destruct i as [|p|p]; [done| |lia].
  cbn. destruct (Pos.to_uint p) eqn:Hp; try apply string_of_uint_no_dash.
  done.
Qed.

Lemma fmt_d_inj i j : fmt_d i = fmt_d j → i = j.
Proof.
  intros Heq. pose proof (fmt_d_decimal i) as Hi.
  rewrite Heq, fmt_d_decimal in Hi. by injection Hi.
Qed.

(** Texts that end in a dash and dash-free text split in one way only. *)
Lemma split_at_last_dash a : ∀ b x y,
  contains "-"%char x = false → contains "-"%char y = false →
  a +:+ "-" +:+ x = b +:+ "-" +:+ y → a = b ∧ x = y.
Proof.
  induction a as [|c a IH]; intros [|c' b] x y Hx Hy.
  - change (String "-"%char x = String "-"%char y → "" = "" ∧ x = y).
    by intros [= ->].
  - change (String "-"%char x = String c' (b +:+ "-" +:+ y)
            → "" = String c' b ∧ x = y).
    intros [= <- ->]. rewrite contains_app in Hx. cbn in Hx.
    by rewrite orb_true_r in Hx.
  - change (String c (a +:+ "-" +:+ x) = String "-"%char y
            → String c a = "" ∧ x = y).
    intros [= -> <-]. rewrite contains_app in Hy. cbn in Hy.
    by rewrite orb_true_r in Hy.
  - change (String c (a +:+ "-" +:+ x) = String c' (b +:+ "-" +:+ y)
            → String c a = String c' b ∧ x = y).
    intros [= -> Heq]. by destruct (IH _ _ _ Hx Hy Heq) as [-> ->].
Qed.

(** X12.  Entry ids tell entries apart.  Two payloads with ids that are not
    negative and the same entry id have the same model name and the same
    id.  The sign matters: model "a-" with id 5 and model "a" with id -5
    share the entry id "a--5". *)
Theorem EntryId_injective (p1 p2 : hugo.Payload) (m1 m2 : string) (i1 i2 : Z) :
  hugo.Metadata p1 !! "model" = Some (VString m1) →
  hugo.Entry p1 !! "id" = Some (VInt i1) →
  hugo.Metadata p2 !! "model" = Some (VString m2) →
  hugo.Entry p2 !! "id" = Some (VInt i2) →
  (0 ≤ i1)%Z → (0 ≤ i2)%Z →
  hugo.EntryId p1 = hugo.EntryId p2 →
  (m1 = m2 ∧ i1 = i2)
  ∧ hugo.EntryId (sample.payloadOf "a-" "t" 5)
    = hugo.EntryId (sample.payloadOf "a" "t" (-5)).
Proof.
  intros Hm1 Hi1 Hm2 Hi2 H1 H2. unfold hugo.EntryId at 1 2.
  rewrite Hm1, Hi1, Hm2, Hi2. cbn. intros [= Heq]. split; [|reflexivity].
  apply split_at_last_dash in Heq as [-> Hd]; [|by apply fmt_d_no_dash..].
  by apply fmt_d_inj in Hd.
Qed.

End EntryIdFacts.

Section ConstructionFacts.
Context {R : Type} `{!Registry.Service R}.
Variable RegistryServices : gmap string (hugo.SiteConfig → R).

(** X13.  When [NewSiteService] gives a service.  It gives either a service
    or an error, never both and never neither.  It gives a service
    exactly when the registry type is known and either opening the
    storage works or, failing that, creating it works; the service holds
    the site of the configuration and the registry as the last storage
    call left it.  When both fail, the error is the one of the creation:
    the error of the opening is dropped. *)
Theorem NewSiteService_outcomes (config : hugo.SiteConfig) :
  let known := RegistryServices !! hugo.RegistryType config in
  let opened := (λ c : hugo.SiteConfig → R, Registry.OpenStorage (c config))
                  <$> known in
  let created := (λ o : R * option error, Registry.CreateStorage o.1)
                   <$> opened in
  match hugo.NewSiteService RegistryServices config with
  | (Some svc, None) =>
      hugo.Site_ svc = hugo.asSite config
      ∧ ((∃ r, opened = Some (r, None) ∧ hugo.registry_ svc = r)
         ∨ (∃ r0 e r, opened = Some (r0, Some e)
                      ∧ created = Some (r, None) ∧ hugo.registry_ svc = r))
  | (None, Some err) =>
      (known = None ∧ err = hugo.unknownRegistry (hugo.RegistryType config))
      ∨ (∃ r0 e r, opened = Some (r0, Some e) ∧ created = Some (r, Some err))
  | _ => False
  end.
Proof.
  intros known opened created. subst created opened known.
  unfold hugo.NewSiteService.
  destruct (RegistryServices !! hugo.RegistryType config) as [c|]; cbn;
    [|by left].
  destruct (Registry.OpenStorage (c config)) as [r0 [e|]] eqn:Ho; cbn.
  - destruct (Registry.CreateStorage r0) as [r [e'|]] eqn:Hc; cbn.
    + right. by exists r0, e, r.
    + split; [done|]. right. by exists r0, e, r.
  - split; [done|]. left. by exists r0.
Qed.

End ConstructionFacts.

(* ===================================================================== *)
(** ** More on the deployment pipeline                                    *)
(* ===================================================================== *)

Lemma filepath_Walk_unfold (visits : list aws.visit) :
  aws.filepath_Walk aws.Walk visits
  = aws.mkWalk (aws.regularFiles (aws.untilError visits))
               (head (omap aws.verr visits)).
Proof.
  induction visits as [|v rest IH]; [done|].
  cbn [aws.filepath_Walk]. rewrite IH. unfold aws.Walk, aws.regularFiles.
  cbn. destruct (aws.verr v) as [e|]; [done|].
  destruct (aws.visDir v) eqn:Hd; cbn; by rewrite Hd.
Qed.

Lemma untilError_all (visits : list aws.visit) :
  Forall (λ v, aws.verr v = None) visits → aws.untilError visits = visits.
Proof. induction 1 as [|v rest Hv _ IH]; [done|]. cbn. by rewrite Hv, IH. Qed.

(** X14.  What the walk sends.  The paths sent on the channel are the
    regular files among the visits up to the first traversal error, in
    the order of the visits; directories are never sent; and the error
    the goroutine ends with is the first error among the visits. *)
Theorem walk_sends_regular_files_until_first_error (visits : list aws.visit) :
  aws.sent (aws.filepath_Walk aws.Walk visits)
  = aws.regularFiles (aws.untilError visits)
  ∧ aws.walkErr (aws.filepath_Walk aws.Walk visits)
    = head (omap aws.verr visits)
  ∧ (∀ p, p ∈ aws.sent (aws.filepath_Walk aws.Walk visits) →
       ∃ v, v ∈ visits ∧ aws.vpath v = p ∧ aws.visDir v = false
            ∧ aws.verr v = None)
  ∧ (Forall (λ v, aws.verr v = None) visits →
     aws.sent (aws.filepath_Walk aws.Walk visits) = aws.regularFiles visits).
Proof.
  rewrite filepath_Walk_unfold. cbn. split_and!; [done..| |].
  - intros p Hp. unfold aws.regularFiles in Hp.
    apply list_elem_of_fmap in Hp as (v & -> & Hv).
    apply list_elem_of_In, List.filter_In in Hv as [Hv Hd].
    apply list_elem_of_In in Hv.
    exists v. apply negb_true_iff in Hd.
    assert (Hin : ∀ l, v ∈ aws.untilError l → v ∈ l ∧ aws.verr v = None).
    { induction l as [|u l IH]; cbn; [by intros ?%elem_of_nil|].
      destruct (aws.verr u) eqn:Hu; [by intros ?%elem_of_nil|].
      intros [->|Hl]%elem_of_cons; [split; [by left|done]|].
      destruct (IH Hl). split; [by right|done]. }
    by destruct (Hin visits Hv).
  - intros Hall. by rewrite untilError_all.
Qed.

Section MoreDeployFacts.
Context {U : Type} `{!aws.Uploader U}.
Abbreviation DWorld := (@aws.World U).

(** One pass of the loop body, however it ends: nothing is uploaded and
    an error is reported, or exactly one request is made, for this path,
    and the pass reports what the uploader said. *)
Lemma deployOne_any (d : aws.Deployment) (p : string) (w : DWorld) :
  aws.disk (aws.deployOne d p w).1 = aws.disk w
  ∧ aws.configFault (aws.deployOne d p w).1 = aws.configFault w
  ∧ (((aws.deployOne d p w).1 = w ∧ is_Some (aws.deployOne d p w).2)
     ∨ ∃ i, aws.requestFor d w p i
            ∧ aws.fileName i = p
            ∧ aws.attempts (aws.deployOne d p w).1 = aws.attempts w ++ [i]
            ∧ aws.s3 (aws.deployOne d p w).1 = (aws.Upload i (aws.s3 w)).1
            ∧ (aws.deployOne d p w).2 = (aws.Upload i (aws.s3 w)).2).
Proof.
  unfold aws.deployOne.
  destruct (path.Rel (aws.publicPath d) p) as [rel [e|]] eqn:Hrel; cbn;
    [split_and!; [done..|left; by eauto]|].
  destruct (aws.Open (aws.disk w) p) as [f|e] eqn:Hopen; cbn;
    [|split_and!; [done..|left; by eauto]].
  unfold aws.uploadFile.
  destruct (aws.Upload _ _) as [u e] eqn:Hup. cbn.
  split_and!; [done..|]. right. exists (aws.putObjectInput d f rel).
  rewrite Hup. split_and!; try done.
  - by exists rel, f.
  - unfold aws.fileName. cbn. by apply Open_name in Hopen.
Qed.

(** The loop, however it ends. *)
Lemma rangeWalker_any (d : aws.Deployment) (paths : list string) :
  ∀ w : DWorld,
  aws.disk (aws.rangeWalker d paths w).1.1 = aws.disk w
  ∧ aws.configFault (aws.rangeWalker d paths w).1.1 = aws.configFault w
  ∧ (aws.rangeWalker d paths w).2 ≤ length paths
  ∧ ∃ reqs,
      aws.attempts (aws.rangeWalker d paths w).1.1 = aws.attempts w ++ reqs
      ∧ aws.fileName <$> reqs `prefix_of` paths
      ∧ aws.s3 (aws.rangeWalker d paths w).1.1 = aws.uploaded reqs (aws.s3 w)
      ∧ Forall (λ i, aws.requestFor d w (aws.fileName i) i) reqs.
Proof.
  induction paths as [|p rest IH]; intros w.
  - cbn. split_and!; [done..|]. exists []. rewrite app_nil_r.
    split_and!; [done| |done|done]. by exists [].
  - cbn [aws.rangeWalker].
    destruct (deployOne_any d p w) as (Hd & Hc & Hone).
    destruct (aws.deployOne d p w) as [w1 [e|]] eqn:Hdo; cbn in *.
    + split_and!; [done|done|lia|].
      destruct Hone as [[-> _] | (i & Hreq & Hi & Ha & Hs & _)].
      * exists []. rewrite app_nil_r. split_and!; [done| |done|done].
        apply prefix_nil.
      * exists [i]. split_and!; [done| |done|by apply Forall_singleton; rewrite Hi].
        cbn. rewrite Hi. by exists rest.
    + destruct (IH w1) as (Hd1 & Hc1 & Hn & reqs & Ha1 & Hp1 & Hs1 & Hf1).
      destruct (aws.rangeWalker d rest w1) as [[w2 err] n]. cbn in *.
      split_and!; [congruence|congruence|lia|].
      destruct Hone as [[_ [? [=]]] | (i & Hreq & Hi & Ha & Hs & _)].
      exists (i :: reqs). split_and!.
      * by rewrite Ha1, Ha, <- app_assoc.
      * cbn. rewrite Hi. by apply prefix_cons.
      * cbn. by rewrite Hs1, Hs.
      * apply Forall_cons. split; [by rewrite Hi|].
        eapply Forall_impl; [exact Hf1|]. cbn.
        intros j (rel & f & Hrel & Hopen & Hj). exists rel, f.
        split_and!; [done| |done]. by rewrite <- Hd.
Qed.

(** X15.  All [Deploy] ever does to the bucket is upload walked files.
    However a deployment ends, the requests it has made are for an
    initial run of the files the walk sends, in that order, one request
    per file; each goes to the configured bucket, for the file at that
    path, with the key and content type derived from its path relative
    to the public root; the store is what those uploads left, and the
    disk is as it was. *)
Theorem Deploy_only_uploads_walked_files (d : aws.Deployment)
    (visits : list aws.visit) (w : DWorld) :
  let w' := (aws.Deploy d visits w).1 in
  aws.disk w' = aws.disk w
  ∧ ∃ reqs,
      aws.attempts w' = aws.attempts w ++ reqs
      ∧ aws.fileName <$> reqs `prefix_of` aws.regularFiles (aws.untilError visits)
      ∧ aws.s3 w' = aws.uploaded reqs (aws.s3 w)
      ∧ Forall (λ i, aws.requestFor d w (aws.fileName i) i
                     ∧ aws.Bucket i = aws.BucketName (aws.deploymentSettings d)
                     ∧ aws.ContentType i = aws.getFileContentType (aws.fileName i))
               reqs.
Proof.
  intros w'. subst w'. unfold aws.Deploy, aws.retrieveFiles.
  rewrite filepath_Walk_unfold. cbn.
  assert (Hnone : aws.disk w = aws.disk w
    ∧ ∃ reqs, aws.attempts w = aws.attempts w ++ reqs
      ∧ aws.fileName <$> reqs `prefix_of` aws.regularFiles (aws.untilError visits)
      ∧ aws.s3 w = aws.uploaded reqs (aws.s3 w)
      ∧ Forall (λ i, aws.requestFor d w (aws.fileName i) i
                     ∧ aws.Bucket i = aws.BucketName (aws.deploymentSettings d)
                     ∧ aws.ContentType i = aws.getFileContentType (aws.fileName i))
               reqs).
  { split; [done|]. exists []. rewrite app_nil_r.
    split_and!; [done|apply prefix_nil|done|done]. }
  destruct (aws.configFault w); [exact Hnone|].
  destruct (rangeWalker_any d (aws.regularFiles (aws.untilError visits)) w)
    as (Hd & _ & _ & reqs & Ha & Hp & Hs & Hf).
  destruct (aws.rangeWalker d _ w) as [[w2 err] n]. cbn in *.
  split; [done|]. exists reqs. split_and!; [done..|].
  eapply Forall_impl; [exact Hf|]. cbn.
  intros i Hreq. split; [done|].
  destruct Hreq as (rel & f & _ & Hopen & ->). cbn.
  split; [done|]. unfold aws.fileName. by cbn.
Qed.

(** X16.  A deployment in which nothing goes wrong.  When the traversal
    reports no error, the configuration loads and every pass of the loop
    succeeds, [Deploy] returns nil and has uploaded every regular file of
    the traversal, each once, in the order of the visits. *)
Theorem Deploy_uploads_every_regular_file (d : aws.Deployment)
    (visits : list aws.visit) (w w' : DWorld) (n : nat) :
  Forall (λ v, aws.verr v = None) visits →
  aws.configFault w = None →
  aws.rangeWalker d (aws.regularFiles visits) w = (w', None, n) →
  aws.Deploy d visits w = (w', Returned None)
  ∧ ∃ reqs, aws.attempts w' = aws.attempts w ++ reqs
            ∧ aws.fileName <$> reqs = aws.regularFiles visits
            ∧ aws.s3 w' = aws.uploaded reqs (aws.s3 w).
Proof.
  intros Hall Hcfg Hrun. split.
  - unfold aws.Deploy, aws.retrieveFiles.
    rewrite filepath_Walk_unfold, untilError_all by done. cbn.
    rewrite Hcfg, Hrun. unfold aws.goroutine. cbn.
    assert (head (omap aws.verr visits) = None) as ->.
    { clear Hrun. induction Hall as [|v rest Hv _ IH]; [done|].
      cbn. by rewrite Hv. }
    by destruct (bool_decide _).
  - by destruct (rangeWalker_ok _ _ _ _ _ Hrun) as (_ & _ & _ & Hreqs).
Qed.

(** X17.  When the AWS configuration cannot be loaded, nothing is uploaded.
    [Deploy] returns the configuration error, unless the traversal failed
    before sending any file, in which case the goroutine has panicked. *)
Theorem Deploy_config_failure (d : aws.Deployment) (visits : list aws.visit)
    (w : DWorld) (e : error) :
  aws.configFault w = Some e →
  (aws.Deploy d visits w).1 = w
  ∧ (aws.regularFiles (aws.untilError visits) ≠ []
     ∨ Forall (λ v, aws.verr v = None) visits →
     (aws.Deploy d visits w).2 = Returned (Some e))
  ∧ (∀ e', aws.regularFiles (aws.untilError visits) = [] →
           head (omap aws.verr visits) = Some e' →
           (aws.Deploy d visits w).2 = Panicked (aws.errorText e')).
Proof.
  intros Hcfg. unfold aws.Deploy, aws.retrieveFiles.
  rewrite filepath_Walk_unfold, Hcfg. cbn. unfold aws.goroutine. cbn.
  split_and!; [done| |].
  - intros [Hne | Hall].
    + rewrite bool_decide_eq_true_2; [done|].
      destruct (aws.regularFiles _); [done|cbn; lia].
    + assert (head (omap aws.verr visits) = None) as ->.
      { induction Hall as [|v rest Hv _ IH]; [done|]. cbn. by rewrite Hv. }
      by destruct (bool_decide _).
  - intros e' -> ->. by cbn.
Qed.

(** X18.  A walked file that cannot be opened stops the deployment like a
    failed upload does.  When the files before it were uploaded and
    opening it fails, [Deploy] returns the error of the opening; nothing
    is uploaded for that file or for any file after it. *)
Theorem Deploy_stops_at_unopenable_file (d : aws.Deployment)
    (visits : list aws.visit) (w w1 : DWorld) (pre post : list string)
    (p rel : string) (n : nat) (e : error) :
  aws.sent (aws.filepath_Walk aws.Walk visits) = pre ++ p :: post →
  aws.walkErr (aws.filepath_Walk aws.Walk visits) = None ∨ post ≠ [] →
  aws.configFault w = None →
  aws.rangeWalker d pre w = (w1, None, n) →
  path.Rel (aws.publicPath d) p = (rel, None) →
  aws.Open (aws.disk w1) p = inr e →
  aws.Deploy d visits w = (w1, Returned (Some e))
  ∧ ∃ reqs, aws.attempts w1 = aws.attempts w ++ reqs
            ∧ aws.fileName <$> reqs = pre.
Proof.
  intros Hsent Hwalk Hcfg Hpre Hrel Hopen.
  destruct (rangeWalker_ok _ _ _ _ _ Hpre) as (-> & _ & _ & reqs & Ha & Hn & _).
  split; [|by exists reqs].
  unfold aws.Deploy, aws.retrieveFiles. rewrite Hcfg, Hsent.
  rewrite (rangeWalker_app d pre (p :: post) w w1 _ Hpre).
  cbn [aws.rangeWalker]. unfold aws.deployOne. rewrite Hrel, Hopen.
  unfold aws.goroutine. rewrite Hsent.
  destruct Hwalk as [-> | Hpost].
  - by destruct (bool_decide _).
  - rewrite bool_decide_eq_true_2; [done|].
    rewrite length_app. cbn. destruct post; [done|cbn; lia].
Qed.

End MoreDeployFacts.

Section KeyFacts.
Import strings_pkg.

Lemma ofElems_nil_r rooted l : path.ofElems rooted l +:+ "" = path.ofElems rooted l.
Proof.
  generalize (path.ofElems rooted l). intros a.
  induction a as [|c a IH]; [done|]. by rewrite append_cons, IH.
Qed.

Lemma IsAbs_ofElems' rooted l :
  rooted = true ∨ l ≠ [] → Forall path.properName l →
  path.IsAbs (path.ofElems rooted l) = rooted.
Proof.
  intros [->|Hne] Hl; [done|].
  rewrite <- (ofElems_nil_r rooted l). by apply IsAbs_ofElems.
Qed.

Lemma elemsOf_ofElems rooted l :
  rooted = true ∨ l ≠ [] → Forall path.properName l →
  path.elemsOf (path.ofElems rooted l) = l.
Proof.
  intros Hne Hl. unfold path.elemsOf.
  assert (Hkeep : ∀ l', Forall path.properName l' →
            filter (λ e : string, e ≠ "") l' = l').
  { induction 1 as [|x l' (Hx & _) _ IH]; [done|].
    by rewrite filter_cons_True, IH. }
  destruct l as [|x l].
  - destruct Hne as [->|?]; done.
  - unfold path.ofElems. destruct rooted.
    + rewrite splitSlash_rooted, splitSlash_joinSlash
        by (done || by apply proper_slashfree).
      rewrite filter_cons_False by (by intros ?). by apply Hkeep.
    + change ("" +:+ joinSlash (x :: l)) with (joinSlash (x :: l)).
      rewrite splitSlash_joinSlash by (done || by apply proper_slashfree).
      by apply Hkeep.
Qed.

Lemma dropCommon_prefix root rest :
  path.dropCommon root (root ++ rest) = ([], rest).
Proof.
  induction root as [|x root IH]; cbn; [by destruct rest|].
  by rewrite bool_decide_eq_true_2.
Qed.

(** [filepath.Rel] from a directory made of names to a path below it is
    the names below the directory. *)
Lemma Rel_below rooted root rest :
  rooted = true ∨ root ≠ [] →
  Forall path.properName root → Forall path.properName rest → rest ≠ [] →
  path.Rel (path.ofElems rooted root) (path.ofElems rooted (root ++ rest))
  = (joinSlash rest, None).
Proof.
  intros Hne Hroot Hrest Hnil.
  assert (Hall : Forall path.properName (root ++ rest)) by (by apply Forall_app).
  assert (Hne' : rooted = true ∨ root ++ rest ≠ []).
  { right. by destruct root, rest. }
  unfold path.Rel. rewrite !Clean_ofElems by done.
  assert (Hdiff : path.ofElems rooted (root ++ rest) ≠ path.ofElems rooted root).
  { intros Heq. apply (f_equal path.elemsOf) in Heq.
    rewrite !elemsOf_ofElems in Heq by done.
    apply (f_equal length) in Heq. rewrite length_app in Heq.
    destruct rest; [done|cbn in Heq; lia]. }
  rewrite bool_decide_eq_false_2 by done.
  assert (Hdot : path.ofElems rooted root ≠ ".").
  { intros Heq. apply (f_equal path.elemsOf) in Heq.
    rewrite elemsOf_ofElems in Heq by done. rewrite Heq in Hroot.
    by apply Forall_singleton in Hroot as (_ & ? & _). }
  rewrite bool_decide_eq_false_2 by done.
  rewrite !IsAbs_ofElems' by done.
  rewrite eqb_reflx. cbn [negb].
  rewrite !elemsOf_ofElems by done. by rewrite dropCommon_prefix.
Qed.

(** X19.  The key of a walked file, end to end.  For a public root made of
    plain names and a file below it, the pass of the loop for that file
    computes the names below the root, joined by slashes, as relative
    path, and asks the uploader for the key [uploadFile] derives from it:
    the prefix (if any), a slash, and those names. *)
Theorem deployOne_key_is_path_below_root {U} `{!aws.Uploader U}
    (d : aws.Deployment) (w : aws.World) (rooted : bool)
    (root rest : list string) (f : aws.file) :
  let p := path.ofElems rooted (root ++ rest) in
  let prefix := aws.S3Prefix (aws.deploymentSettings d) in
  aws.publicPath d = path.ofElems rooted root →
  rooted = true ∨ root ≠ [] →
  Forall path.properName root → Forall path.properName rest → rest ≠ [] →
  aws.Open (aws.disk w) p = inl f →
  path.Rel (aws.publicPath d) p = (joinSlash rest, None)
  ∧ aws.deployOne d p w = aws.uploadFile d f (joinSlash rest) w
  ∧ aws.Key (aws.putObjectInput d f (joinSlash rest))
    = ReplaceAll1 (if bool_decide (prefix = "") then joinSlash rest
                   else prefix +:+ "/" +:+ joinSlash rest) backslash slash.
Proof.
  intros p prefix Hpub Hne Hroot Hrest Hnil Hopen.
  assert (Hrel : path.Rel (aws.publicPath d) p = (joinSlash rest, None)).
  { rewrite Hpub. by apply Rel_below. }
  split_and!; [done| |].
  - unfold aws.deployOne. by rewrite Hrel, Hopen.
  - unfold aws.putObjectInput. cbn. fold prefix. by destruct (bool_decide _).
Qed.

Lemma Ext_of_last s x :
  contains slash x = false → path.Ext (s +:+ "/" +:+ x) = path.Ext x.
Proof.
  intros Hx. unfold path.Ext.
  by rewrite afterLastSlash_last, afterLastSlash_no_slash.
Qed.

(** X20.  The content type looks at the file name only.  The directories in
    front of the last slash do not matter, even when they contain dots,
    and a file name without a dot has the generic binary type. *)
Theorem getFileContentType_by_file_name (dir name : string) :
  contains slash name = false →
  aws.getFileContentType (dir +:+ "/" +:+ name) = aws.getFileContentType name
  ∧ (contains dot name = false →
     aws.getFileContentType (dir +:+ "/" +:+ name) = generic_binary).
Proof.
  intros Hname. unfold aws.getFileContentType.
  rewrite Ext_of_last by done. split; [done|].
  intros Hdot. unfold path.Ext.
  rewrite afterLastSlash_no_slash, fromLastDot_no_dot by done. done.
Qed.

Lemma IsAbs_Clean p : path.IsAbs p = true → path.IsAbs (path.Clean p) = true.
Proof.
  intros Hp. unfold path.Clean.
  rewrite bool_decide_eq_false_2 by (by destruct p). cbn zeta.
  by rewrite Hp.
Qed.

Lemma IsAbs_Join a b : path.IsAbs a = true → path.IsAbs (path.Join [a; b]) = true.
Proof.
  intros Ha. unfold path.Join.
  rewrite filter_cons_True by (by destruct a).
  apply IsAbs_Clean.
  destruct (filter _ [b]) as [|y l]; cbn [joinSlash]; [done|].
  destruct a as [|c a]; [done|]. exact Ha.
Qed.

(** X21.  Where [New] puts the public root.  An absolute build setting is
    taken as it is; a relative one is joined to the site root; without
    one the root is the directory "public" of the site root.  With an
    absolute site root the public root is absolute in every case. *)
Theorem New_publicPath (site : hugo.Site) (settings : aws.DeploymentSettings) :
  let build := hugo.OutputBuild site in
  let public := aws.publicPath (aws.New site settings) in
  (path.IsAbs build = true → public = build)
  ∧ (build ≠ "" → path.IsAbs build = false →
     public = path.Join [hugo.RootDir site; build])
  ∧ (build = "" → public = path.Join [hugo.RootDir site; "public"])
  ∧ (path.IsAbs (hugo.RootDir site) = true → path.IsAbs public = true).
Proof.
  intros build public. subst public. unfold aws.New. cbn. fold build.
  split_and!.
  - intros Habs. rewrite bool_decide_eq_false_2 by (by destruct build).
    cbn. by rewrite Habs.
  - intros Hne Hrel. rewrite bool_decide_eq_false_2 by done. cbn.
    by rewrite Hrel.
  - intros ->. by cbn.
  - intros Hroot. case_bool_decide; cbn.
    + by apply IsAbs_Join.
    + destruct (path.IsAbs build) eqn:Hb; [done|]. by apply IsAbs_Join.
Qed.

End KeyFacts.

(* ===================================================================== *)
(** ** Concrete runs of the later sections                                *)
(* ===================================================================== *)

Lemma Mem_reads_back : hugo.reads_back Registry.Mem.
Proof.
  intros id p r r1 r2. cbn. unfold Registry.memPut.
  destruct (Registry.failWrites r); [done|]. intros [= <-]. cbn.
  destruct (Registry.failFlush r); [done|]. intros [= <-]. cbn.
  by rewrite lookup_insert_eq.
Qed.

Lemma CreateEntry_result_shape_witness :
  sample.helloPath ≠ ""
  ∧ ∃ out, os.nodes (hugo.fs sample.world1) !! sample.helloPath
           = Some (os.File out).
Proof.
  destruct (CreateEntry_result_shape
              string sample.parseText sample.executeText sample.dashSlug
              sample.blog sample.hello sample.world0 sample.world1
              sample.helloPath None) as [(Hempty & _) | (Hne & Hfile)];
    [reflexivity | discriminate Hempty |].
  split; [exact Hne|].
  destruct Hfile as (_ & _ & _ & out & _ & _ & _ & Hout). by exists out.
Defined.

Lemma missing_archetype_is_a_config_error_witness :
  sample.CreateEntry sample.blog sample.hello cases.bareWorld
    = (cases.bareWorld, Returned ("", Some (hugo.archetypeMissing "post")))
  ∧ sample.UpdateEntry sample.blog sample.hello cases.bareWorld
    = (cases.bareWorld, Returned ("", Some (hugo.archetypeMissing "post"))).
Proof.
  apply (missing_archetype_is_a_config_error
           string sample.parseText sample.executeText sample.dashSlug
           sample.blog sample.hello cases.bareWorld "post" sample.postModel
           false); reflexivity.
Defined.

Lemma id_that_is_not_an_int_witness :
  sample.CreateEntry sample.blog cases.floatId sample.world0
    = (hugo.mkWorld (hugo.fs sample.world1) sample.emptyRegistry,
       Panicked bad_assert)
  ∧ (∃ out, os.nodes (hugo.fs sample.world1) !! sample.helloPath
            = Some (os.File out))
  ∧ sample.emptyRegistry = hugo.registry sample.world0
  ∧ sample.UpdateEntry sample.blog cases.floatId sample.world0
    = (sample.world0, Panicked bad_assert).
Proof.
  apply (id_that_is_not_an_int
           string sample.parseText sample.executeText sample.dashSlug
           sample.blog cases.floatId sample.world0 sample.world0
           (hugo.mkWorld (hugo.fs sample.world1) sample.emptyRegistry)
           "post" sample.postModel false);
    first [ reflexivity | by vm_compute ].
Defined.

Lemma UpdateEntry_moves_to_unused_slug_witness :
  (∃ r' err,
     sample.UpdateEntry sample.blog cases.renamed sample.world1
     = (hugo.mkWorld
          (hugo.fs (sample.UpdateEntry sample.blog cases.renamed
                      sample.world1).1) r',
        Returned (cases.renamedPath, err)))
  ∧ os.nodes (hugo.fs (sample.UpdateEntry sample.blog cases.renamed
                         sample.world1).1) !! sample.helloPath = None
  ∧ ∃ out, os.nodes (hugo.fs (sample.UpdateEntry sample.blog cases.renamed
                                sample.world1).1) !! cases.renamedPath
           = Some (os.File out).
Proof.
  destruct (UpdateEntry_moves_to_unused_slug
              string sample.parseText sample.executeText sample.dashSlug
              sample.blog cases.renamed sample.world1 sample.world1
              (hugo.mkWorld
                 (hugo.fs (sample.UpdateEntry sample.blog cases.renamed
                             sample.world1).1)
                 (hugo.registry sample.world1))
              "post" sample.postModel false 5 "T:Hello World")
    as (_ & Hrun & Hgone & Hnew); [first [ reflexivity | by vm_compute ]..|].
  split; [exact Hrun|]. split; [exact Hgone | exact Hnew].
Defined.

Lemma UpdateEntry_loses_old_file_when_render_fails_witness :
  let w3 := (sample.UpdateEntry sample.blog cases.renamed
               cases.unreadableArchetype).1 in
  sample.UpdateEntry sample.blog cases.renamed cases.unreadableArchetype
    = (w3, Returned ("", Some (PathError "open" cases.archetypePath EACCES)))
  ∧ os.nodes (hugo.fs w3) !! sample.helloPath = None
  ∧ hugo.registry w3 = hugo.registry cases.unreadableArchetype
  ∧ (Registry.ReadEntry "post-5" (hugo.registry w3)).1 = sample.helloPath.
Proof.
  intros w3.
  destruct (UpdateEntry_loses_old_file_when_render_fails
              string sample.parseText sample.executeText sample.dashSlug
              sample.blog cases.renamed cases.unreadableArchetype
              cases.unreadableArchetype w3 "post" sample.postModel false 5
              "T:Hello World" (PathError "open" cases.archetypePath EACCES))
    as (Hrun & Hgone & Hreg & Hread);
    [first [ reflexivity | by vm_compute ]..|].
  split; [exact Hrun|]. split; [exact Hgone|]. split; [exact Hreg|exact Hread].
Defined.

Lemma UpdateEntry_of_unregistered_entry_witness :
  let w3 := hugo.mkWorld
              (hugo.fs (sample.UpdateEntry sample.blog sample.hello
                          cases.cwdWorld).1) sample.emptyRegistry in
  sample.UpdateEntry sample.blog sample.hello cases.cwdWorld
    = hugo.registerUpdate "post-5" "Hello-World.html" w3
  ∧ path.IsAbs "Hello-World.html" = false
  ∧ ∃ out, os.nodes (hugo.fs w3) !! "Hello-World.html" = Some (os.File out).
Proof.
  intros w3.
  apply (UpdateEntry_of_unregistered_entry
           string sample.parseText sample.executeText sample.dashSlug
           sample.blog sample.hello cases.cwdWorld cases.cwdWorld w3
           "post" sample.postModel false 5 (RegistryError "no such entry"));
    reflexivity.
Defined.

Lemma UpdateEntry_touches_only_its_two_paths_witness :
  os.nodes (hugo.fs (sample.UpdateEntry sample.blog sample.otherRetitled
                       sample.world2).1) !! cases.archetypePath
  = Some (os.File "T:").
Proof.
  apply (UpdateEntry_touches_only_its_two_paths
           string sample.parseText sample.executeText sample.dashSlug
           sample.blog sample.otherRetitled sample.world2 "post-6"
           cases.archetypePath (os.File "T:"));
    first [ reflexivity | by vm_compute ].
Defined.

Lemma UpdateEntry_result_shape_witness :
  ("" = "" ∧ is_Some (Some (hugo.outputTaken sample.helloPath))
   ∧ hugo.registry sample.world2 = hugo.registry sample.world2)
  ∨ ("" ≠ "" ∧ ∃ out, os.nodes (hugo.fs sample.world2) !! "" = Some (os.File out)).
Proof.
  apply (UpdateEntry_result_shape
           string sample.parseText sample.executeText sample.dashSlug
           sample.blog sample.otherRetitled sample.world2 sample.world2
           "" (Some (hugo.outputTaken sample.helloPath))).
  reflexivity.
Defined.

Lemma UpdateEntry_after_CreateEntry_keeps_the_file_witness :
  ∃ w'' err,
    sample.UpdateEntry sample.blog sample.hello sample.world1
    = (w'', Returned (sample.helloPath, err))
    ∧ os.nodes (hugo.fs w'') !! sample.helloPath
      = os.nodes (hugo.fs sample.world1) !! sample.helloPath
    ∧ ∃ out, os.nodes (hugo.fs sample.world1) !! sample.helloPath
             = Some (os.File out).
Proof.
  apply (UpdateEntry_after_CreateEntry_keeps_the_file
           string sample.parseText sample.executeText sample.dashSlug
           sample.blog sample.hello sample.world0 sample.world1
           sample.helloPath "post" sample.postModel false
           true ["site"; "content"; "posts"]);
    first [ exact Mem_reads_back | reflexivity | by left
          | apply (bool_decide_unpack _); by vm_compute ].
Defined.

Lemma EntryId_injective_witness :
  ("post" = "post" ∧ 5%Z = 5%Z)
  ∧ hugo.EntryId (sample.payloadOf "a-" "t" 5)
    = hugo.EntryId (sample.payloadOf "a" "t" (-5)).
Proof.
  apply (EntryId_injective sample.hello (sample.payloadOf "post" "Again" 5)
           "post" "post" 5 5); first [ reflexivity | lia ].
Defined.

Lemma walk_sends_regular_files_until_first_error_witness :
  aws.sent (aws.filepath_Walk aws.Walk cases.failingVisits)
    = ["/site/public/index.html"]
  ∧ aws.walkErr (aws.filepath_Walk aws.Walk cases.failingVisits)
    = Some sample.lstatFailure
  ∧ aws.sent (aws.filepath_Walk aws.Walk sample.publicVisits)
    = aws.regularFiles sample.publicVisits.
Proof.
  destruct (walk_sends_regular_files_until_first_error cases.failingVisits)
    as (Hsent & Herr & _).
  destruct (walk_sends_regular_files_until_first_error sample.publicVisits)
    as (_ & _ & _ & Hall).
  split; [exact Hsent|]. split; [exact Herr|].
  apply Hall. apply (bool_decide_unpack _). by vm_compute.
Defined.

Lemma Deploy_uploads_every_regular_file_witness :
  let w' := (aws.Deploy (sample.deployment "assets") sample.publicVisits
               (sample.cloud ∅)).1 in
  aws.Deploy (sample.deployment "assets") sample.publicVisits (sample.cloud ∅)
    = (w', Returned None)
  ∧ ∃ reqs, aws.attempts w' = [] ++ reqs
            ∧ aws.fileName <$> reqs = aws.regularFiles sample.publicVisits
            ∧ aws.s3 w' = aws.uploaded reqs (aws.mkBucket ∅ ∅).
Proof.
  intros w'.
  apply (Deploy_uploads_every_regular_file (sample.deployment "assets")
           sample.publicVisits (sample.cloud ∅) w' 3);
    first [ reflexivity | apply (bool_decide_unpack _); by vm_compute ].
Defined.

Lemma Deploy_config_failure_witness :
  (aws.Deploy (sample.deployment "") cases.failingVisits cases.noConfig).1
    = cases.noConfig
  ∧ (aws.Deploy (sample.deployment "") cases.failingVisits cases.noConfig).2
    = Returned (Some (ConfigLoadError "no region"))
  ∧ (aws.Deploy (sample.deployment "") sample.brokenVisits cases.noConfig).2
    = Panicked (aws.errorText sample.lstatFailure).
Proof.
  destruct (Deploy_config_failure (sample.deployment "") cases.failingVisits
              cases.noConfig (ConfigLoadError "no region"))
    as (Hsame & Hret & _); [reflexivity|].
  destruct (Deploy_config_failure (sample.deployment "") sample.brokenVisits
              cases.noConfig (ConfigLoadError "no region"))
    as (_ & _ & Hpanic); [reflexivity|].
  split; [exact Hsame|]. split.
  - apply Hret. left. by vm_compute.
  - apply Hpanic; reflexivity.
Defined.

Lemma Deploy_stops_at_unopenable_file_witness :
  let w1 := (aws.Deploy (sample.deployment "") sample.publicVisits
               (sample.cloud ∅)).1 in
  aws.Deploy (sample.deployment "") cases.staleVisits (sample.cloud ∅)
    = (w1, Returned (Some (PathError "open" cases.gonePath ENOENT)))
  ∧ ∃ reqs, aws.attempts w1 = [] ++ reqs
            ∧ aws.fileName <$> reqs = aws.regularFiles sample.publicVisits.
Proof.
  intros w1.
  apply (Deploy_stops_at_unopenable_file (sample.deployment "")
           cases.staleVisits (sample.cloud ∅) w1
           (aws.regularFiles sample.publicVisits) [] cases.gonePath "zz.js" 3
           (PathError "open" cases.gonePath ENOENT));
    first [ reflexivity | left; reflexivity ].
Defined.

Lemma deployOne_key_is_path_below_root_witness :
  let f := aws.mkFile "/site/public/img/a.png" (os.File "PNG") in
  path.Rel "/site/public" "/site/public/img/a.png" = ("img/a.png", None)
  ∧ aws.deployOne (sample.deployment "assets") "/site/public/img/a.png"
      (sample.cloud ∅)
    = aws.uploadFile (sample.deployment "assets") f "img/a.png" (sample.cloud ∅)
  ∧ aws.Key (aws.putObjectInput (sample.deployment "assets") f "img/a.png")
    = "assets/img/a.png".
Proof.
  intros f.
  apply (deployOne_key_is_path_below_root (sample.deployment "assets")
           (sample.cloud ∅) true ["site"; "public"] ["img"; "a.png"] f);
    first [ reflexivity | by left | discriminate
          | apply (bool_decide_unpack _); by vm_compute ].
Defined.

Lemma getFileContentType_by_file_name_witness :
  aws.getFileContentType "/site/v1.2/notes.html" = "text/html"
  ∧ aws.getFileContentType "/site/v1.2/LICENSE" = generic_binary.
Proof.
  destruct (getFileContentType_by_file_name "/site/v1.2" "notes.html")
    as [Hname _]; [reflexivity|].
  destruct (getFileContentType_by_file_name "/site/v1.2" "LICENSE")
    as [_ Hplain]; [reflexivity|].
  split; [exact Hname | apply Hplain; reflexivity].
Defined.

Lemma New_publicPath_witness :
  aws.publicPath (aws.New sample.blog (sample.settings "")) = "/site/public"
  ∧ path.IsAbs (aws.publicPath (aws.New sample.blog (sample.settings "")))
    = true.
Proof.
  destruct (New_publicPath sample.blog (sample.settings ""))
    as (_ & _ & Hdefault & Habs).
  split; [apply Hdefault; reflexivity | apply Habs; reflexivity].
Defined.
